(** * School management API: academic years and course prerequisites

    A shallow embedding of [core/models.py], [core/serializers.py] and
    [core/views.py], and the properties of the academic-year resolver and of
    the course-prerequisite checks proved about it.

    Database tables are finite maps from primary keys to rows, the
    many-to-many relation [Course.prerequisites] is its through table (a
    finite set of pairs), Python exceptions are the [Raise] branch of a small
    error monad, and a view returns its response together with the tables as
    it leaves them. *)

From Stdlib Require Import ZArith Ascii String List Lia.
From stdpp Require Import base option gmap sets list strings relations.

Local Open Scope Z_scope.

(** ** Python values *)

(** A primary key: [models.UUIDField], a 128-bit number. *)
Abbreviation uuid := N.

(** The exceptions the modelled code raises or lets through. *)
Inductive exn :=
| TypeError                       (* ordering comparison of a date with None *)
| ValidationError (msg : string)  (* serializers.ValidationError *)
| Http404                         (* raised by get_object *)
| exceptions_ValidationError (value : string).
    (* django.core.exceptions.ValidationError, "<value> is not a valid UUID." *)

Inductive result (A : Type) :=
| Ok (a : A)
| Raise (e : exn).
Arguments Ok {A} a.
Arguments Raise {A} e.

#[global] Instance result_ret : MRet result := λ A a, Ok a.
#[global] Instance result_bind : MBind result := λ A B k r,
  match r with
  | Ok a => k a
  | Raise e => Raise e
  end.

(** [x and y] on booleans that may raise: [y] is evaluated only when [x] is
    true. *)
Definition and_then (x : result bool) (y : result bool) : result bool :=
  b ← x; if b : bool then y else Ok false.

(** ** [datetime.date] *)

Module Datetime.

Record date := mkdate { year : Z; month : Z; day : Z }.

#[global] Instance date_eq_dec : EqDecision date.
Proof. solve_decision. Defined.

(** year -> 1 if leap year, else 0. *)
Definition _is_leap (y : Z) : bool :=
  (y mod 4 =? 0) && (negb (y mod 100 =? 0) || (y mod 400 =? 0)).

(** year -> number of days before January 1st of year. *)
Definition _days_before_year (y : Z) : Z :=
  let y := y - 1 in y * 365 + y / 4 - y / 100 + y / 400.

Definition _DAYS_IN_MONTH : list Z :=
  [31; 28; 31; 30; 31; 30; 31; 31; 30; 31; 30; 31].

(** year, month -> number of days in year preceding first day of month. *)
Definition _days_before_month (y m : Z) : Z :=
  fold_right Z.add 0 (firstn (Z.to_nat (m - 1)) _DAYS_IN_MONTH)
  + (if (2 <? m) && _is_leap y then 1 else 0).

(** year, month, day -> ordinal, considering 01-Jan-0001 as day 1. *)
Definition _ymd2ord (y m d : Z) : Z :=
  _days_before_year y + _days_before_month y m + d.

Definition toordinal (d : date) : Z := _ymd2ord (year d) (month d) (day d).

(** [date._cmp]: comparison of the (year, month, day) triples. *)
Definition _cmp (a b : date) : comparison :=
  match year a ?= year b with
  | Eq => match month a ?= month b with
          | Eq => day a ?= day b
          | c => c
          end
  | c => c
  end.

Definition ge (a b : date) : bool :=
  match _cmp a b with Lt => false | _ => true end.
Definition le (a b : date) : bool :=
  match _cmp a b with Gt => false | _ => true end.
Definition gt (a b : date) : bool :=
  match _cmp a b with Gt => true | _ => false end.

(** [(a - b).days] *)
Definition sub_days (a b : date) : Z := toordinal a - toordinal b.

(** [a >= b] where [b] is an attribute that may hold [None]. *)
Definition ge_opt (a : date) (b : option date) : result bool :=
  match b with
  | Some b => Ok (ge a b)
  | None => Raise TypeError
  end.

Definition le_opt (a : date) (b : option date) : result bool :=
  match b with
  | Some b => Ok (le a b)
  | None => Raise TypeError
  end.

End Datetime.

Import Datetime.

(** ** core/models.py *)

Module AcademicYear.

(** A model instance without its [id], which is the key of its row. The
    columns are NOT NULL; an instance in memory may still hold [None] in a
    date attribute. *)
Record t := mk {
  name : string;
  start_date : option date;
  end_date : option date;
  is_active : bool
}.

#[global] Instance t_eq_dec : EqDecision t.
Proof. solve_decision. Defined.

Definition is_date_in_range (self : t) (d : date) : result bool :=
  and_then (ge_opt d (start_date self)) (le_opt d (end_date self)).

(** [date.today()] is read from the clock: it is an argument here. *)
Definition is_current_year (today : date) (self : t) : result bool :=
  if negb (is_active self) then Ok false
  else and_then (ge_opt today (start_date self)) (le_opt today (end_date self)).

Definition get_duration_in_days (self : t) : Z :=
  match start_date self, end_date self with
  | Some s, Some e => sub_days e s + 1
  | _, _ => 0
  end.

Definition set_is_active (b : bool) (self : t) : t :=
  {| name := name self; start_date := start_date self;
     end_date := end_date self; is_active := b |}.

End AcademicYear.

(** ** rest_framework: responses and status codes *)

Inductive body (A : Type) :=
| Detail (msg : string)   (* {"detail": msg} *)
| Data (a : A).           (* serializer.data *)
Arguments Detail {A} msg.
Arguments Data {A} a.

Record Response (A : Type) := mkResponse { data : body A; status : Z }.
Arguments mkResponse {A} data status.
Arguments data {A} r.
Arguments status {A} r.

Definition HTTP_200_OK : Z := 200.
Definition HTTP_201_CREATED : Z := 201.
Definition HTTP_204_NO_CONTENT : Z := 204.
Definition HTTP_400_BAD_REQUEST : Z := 400.
Definition HTTP_404_NOT_FOUND : Z := 404.
Definition HTTP_500_INTERNAL_SERVER_ERROR : Z := 500.

(** The status the client sees: the framework's exception handler turns
    [Http404] into 404 and a [ValidationError] of the serializers into 400;
    any other exception, Django's own [ValidationError] among them, is a
    server error. *)
Definition http_status {A} (r : result (Response A)) : Z :=
  match r with
  | Ok resp => status resp
  | Raise Http404 => HTTP_404_NOT_FOUND
  | Raise (ValidationError _) => HTTP_400_BAD_REQUEST
  | Raise TypeError => HTTP_500_INTERNAL_SERVER_ERROR
  | Raise (exceptions_ValidationError _) => HTTP_500_INTERNAL_SERVER_ERROR
  end.

(** Python's [not s] on an optional string: true on [None] and on the empty
    string. *)
Definition falsy (s : option string) : bool :=
  match s with
  | None => true
  | Some s => if decide (s = "") then true else false
  end.

(** A list comprehension [[x for x in l if p(x)]] whose test may raise. *)
Fixpoint comprehension {A} (p : A → result bool) (l : list A) : result (list A) :=
  match l with
  | [] => Ok []
  | x :: l' =>
      b ← p x;
      rest ← comprehension p l';
      Ok (if b : bool then x :: rest else rest)
  end.

(** ** core/serializers.py: AcademicYearSerializer *)

Module AcademicYearSerializer.

(** The validated data: a dict that holds a writable field or not.
    [duration_in_days], [is_current] and [courses_count] are read-only. *)
Record attrs := mk {
  name : option string;
  start_date : option date;
  end_date : option date;
  is_active : option bool
}.

Definition validate (data : attrs) : result attrs :=
  match start_date data, end_date data with
  | Some s, Some e =>
      if gt s e
      then Raise (ValidationError "End date must be after start date")
      else Ok data
  | _, _ => Ok data
  end.

(** [ModelSerializer.run_validation]: unless the update is partial, the
    fields without a default ([name], [start_date], [end_date]) are
    required; then [validate] runs. *)
Definition run_validation (partial : bool) (data : attrs) : result attrs :=
  if negb partial &&
     negb (bool_decide (is_Some (name data) ∧ is_Some (start_date data)
                        ∧ is_Some (end_date data)))
  then Raise (ValidationError "This field is required.")
  else validate data.

(** [ModelSerializer.create]: the model built from the validated data. *)
Definition create (data : attrs) : AcademicYear.t :=
  {| AcademicYear.name := default "" (name data);
     AcademicYear.start_date := start_date data;
     AcademicYear.end_date := end_date data;
     AcademicYear.is_active := default false (is_active data) |}.

(** [ModelSerializer.update]: [setattr] for every key of the data. *)
Definition update (instance : AcademicYear.t) (data : attrs) : AcademicYear.t :=
  {| AcademicYear.name := default (AcademicYear.name instance) (name data);
     AcademicYear.start_date :=
       from_option Some (AcademicYear.start_date instance) (start_date data);
     AcademicYear.end_date :=
       from_option Some (AcademicYear.end_date instance) (end_date data);
     AcademicYear.is_active :=
       default (AcademicYear.is_active instance) (is_active data) |}.

End AcademicYearSerializer.

(** ** core/views.py: AcademicYearViewSet *)

Module AcademicYearViewSet.

(** The table [core_academicyear], keyed by primary key. *)
Abbreviation table := (gmap uuid AcademicYear.t).

(** A model instance as a view holds it: primary key and attributes. The
    serializer's representation of an instance is a function of it (and,
    for [is_current] and [courses_count], of the clock and of the course
    table); a response carries the instance. *)
Abbreviation instance := (uuid * AcademicYear.t)%type.

(** [AcademicYear.objects.all()], in the order the database gives. *)
Definition objects_all (tbl : table) : list instance := map_to_list tbl.

Definition get_object (tbl : table) (pk : uuid) : result instance :=
  match tbl !! pk with
  | Some y => Ok (pk, y)
  | None => Raise Http404
  end.

(** [AcademicYear.objects.exclude(pk=pk).update(is_active=False)] *)
Definition exclude_update_inactive (pk : uuid) (tbl : table) : table :=
  map_imap (λ k y, Some (if decide (k = pk) then y
                         else AcademicYear.set_is_active false y)) tbl.

(** [instance.save()]: the row of that key is written, or inserted. *)
Definition save (i : instance) (tbl : table) : table := <[i.1 := i.2]> tbl.

Definition activate (tbl : table) (pk : uuid)
  : result (Response instance) * table :=
  match get_object tbl pk with
  | Raise e => (Raise e, tbl)
  | Ok academic_year =>
      (* Deactivate all other academic years *)
      let tbl := exclude_update_inactive academic_year.1 tbl in
      (* Activate this academic year *)
      let academic_year :=
        (academic_year.1, AcademicYear.set_is_active true academic_year.2) in
      let tbl := save academic_year tbl in
      (Ok (mkResponse (Data academic_year) HTTP_200_OK), tbl)
  end.

Section ForDate.

(** [date.fromisoformat] of the standard library: [None] is its
    [ValueError]. *)
Variable fromisoformat : string → option date.

Definition for_date (tbl : table) (date_param : option string)
  : result (Response (list instance)) :=
  if falsy date_param then
    Ok (mkResponse (Detail "Date parameter is required (YYYY-MM-DD).")
                   HTTP_400_BAD_REQUEST)
  else
    let target_date_str := default "" date_param in
    match fromisoformat target_date_str with
    | None =>
        Ok (mkResponse (Detail "Invalid date format. Use YYYY-MM-DD.")
                       HTTP_400_BAD_REQUEST)
    | Some target_date =>
        matching_years ←
          comprehension
            (λ year : instance, AcademicYear.is_date_in_range year.2 target_date)
            (objects_all tbl);
        match matching_years with
        | [] =>
            Ok (mkResponse
                  (Detail ("No academic year found for date "
                           +:+ target_date_str +:+ "."))
                  HTTP_404_NOT_FOUND)
        | _ => Ok (mkResponse (Data matching_years) HTTP_200_OK)
        end
    end.

End ForDate.

(** The actions inherited from [viewsets.ModelViewSet], run with
    [AcademicYearSerializer]. [new_pk] is the [uuid.uuid4()] default the
    new row gets. *)
Definition create (new_pk : uuid) (tbl : table) (data : AcademicYearSerializer.attrs)
  : result (Response instance) * table :=
  match AcademicYearSerializer.run_validation false data with
  | Raise e => (Raise e, tbl)
  | Ok data =>
      let obj := (new_pk, AcademicYearSerializer.create data) in
      (Ok (mkResponse (Data obj) HTTP_201_CREATED), save obj tbl)
  end.

Definition update_with (partial : bool) (tbl : table) (pk : uuid)
    (data : AcademicYearSerializer.attrs)
  : result (Response instance) * table :=
  match get_object tbl pk with
  | Raise e => (Raise e, tbl)
  | Ok obj =>
      match AcademicYearSerializer.run_validation partial data with
      | Raise e => (Raise e, tbl)
      | Ok data =>
          let obj := (obj.1, AcademicYearSerializer.update obj.2 data) in
          (Ok (mkResponse (Data obj) HTTP_200_OK), save obj tbl)
      end
  end.

Definition update := update_with false.
Definition partial_update := update_with true.

Definition destroy (tbl : table) (pk : uuid)
  : result (Response unit) * table :=
  match get_object tbl pk with
  | Raise e => (Raise e, tbl)
  | Ok obj => (Ok (mkResponse (Data ()) HTTP_204_NO_CONTENT), delete obj.1 tbl)
  end.

End AcademicYearViewSet.

(** ** core/models.py: Course *)

Module Course.

(** The columns of [core_course] but the key and the two timestamps. *)
Record t := mk {
  code : string;
  name : string;
  description : option string;
  credit_hours : Z;
  academic_year : uuid;
  is_active : bool
}.

Abbreviation instance := (uuid * t)%type.

(** The course table and the through table of [prerequisites]: a row
    [(c, p)] says that course [c] requires course [p]. *)
Record db := mkdb {
  rows : gmap uuid t;
  through : gset (uuid * uuid)
}.

Definition objects_all (d : db) : list instance := map_to_list (rows d).

(** [self.prerequisites.all()]: the courses joined to [self] by the
    through table. [Meta.ordering] sorts them by name; the order is the
    table's here. *)
Definition prerequisites_all (d : db) (self : uuid) : list instance :=
  filter (λ c : instance, (self, c.1) ∈ through d) (objects_all d).

(** [self.prerequisites.filter(pk=pk)] *)
Definition prerequisites_filter_pk (d : db) (self pk : uuid) : list instance :=
  filter (λ c : instance, c.1 = pk) (prerequisites_all d self).

(** [QuerySet.exists()] *)
Definition exists_ {A} (q : list A) : bool :=
  match q with [] => false | _ => true end.

(** [obj in queryset]: model instances are equal when their keys are. *)
Definition contains (q : list instance) (pk : uuid) : bool :=
  bool_decide (pk ∈ q.*1).

(** [self.prerequisites.add(p)] and [self.prerequisites.remove(p)] *)
Definition prerequisites_add (d : db) (self p : uuid) : db :=
  mkdb (rows d) ({[ (self, p) ]} ∪ through d).
Definition prerequisites_remove (d : db) (self p : uuid) : db :=
  mkdb (rows d) (through d ∖ {[ (self, p) ]}).

Definition has_prerequisites (d : db) (self : uuid) : bool :=
  exists_ (prerequisites_all d self).

Definition get_prerequisite_count (d : db) (self : uuid) : nat :=
  length (prerequisites_all d self).

Definition get_active_prerequisites (d : db) (self : uuid) : list instance :=
  filter (λ c : instance, is_active c.2 = true) (prerequisites_all d self).


End Course.

(** ** core/serializers.py: CourseCreateUpdateSerializer *)

Module CourseCreateUpdateSerializer.

Record attrs := mk {
  code : option string;
  name : option string;
  description : option (option string);
  credit_hours : option Z;
  academic_year : option uuid;
  is_active : option bool;
  prerequisites : option (list Course.instance)
}.

Definition validate_credit_hours (value : Z) : result Z :=
  if (value <? 1) || (12 <? value)
  then Raise (ValidationError "Credit hours must be between 1 and 12")
  else Ok value.

(** A [for] loop that returns [True] at the first call that does, the
    calls sharing the state [S]; [None] when a call ran out of fuel. *)
Fixpoint any_call {A S} (f : A → S → option (bool * S)) (l : list A) (s : S)
  : option (bool * S) :=
  match l with
  | [] => Some (false, s)
  | x :: l' =>
      match f x s with
      | None => None
      | Some (true, s') => Some (true, s')
      | Some (false, s') => any_call f l' s'
      end
  end.

(** The recursion is on the prerequisite graph, not on a structure: [fuel]
    bounds its depth and [None] is running out of it. [visited] is the set
    object shared by the calls: a call returns it as it leaves it. *)
Fixpoint _check_circular_reference (fuel : nat) (d : Course.db)
    (course prerequisite : Course.instance) (visited : option (gset uuid))
  : option (bool * gset uuid) :=
  match fuel with
  | O => None
  | S fuel' =>
      let visited := default ∅ visited in
      if bool_decide (course.1 ∈ visited) then Some (false, visited)
      else
        let visited := {[ course.1 ]} ∪ visited in
        (* If the prerequisite has the original course as a prerequisite,
           there's a circular reference *)
        if Course.contains (Course.prerequisites_all d prerequisite.1) course.1
        then Some (true, visited)
        else
          (* Check each of the prerequisite's prerequisites *)
          any_call
            (λ prereq_of_prereq visited,
               _check_circular_reference fuel' d course prereq_of_prereq
                                         (Some visited))
            (Course.prerequisites_all d prerequisite.1) visited
  end.

(** The loop of [validate] over the proposed prerequisites: the first one
    the check reports, if any. *)
Fixpoint first_circular (fuel : nat) (d : Course.db) (course : Course.instance)
    (prerequisites : list Course.instance) : option (option Course.instance) :=
  match prerequisites with
  | [] => Some None
  | prereq :: rest =>
      match _check_circular_reference fuel d course prereq None with
      | None => None
      | Some (true, _) => Some (Some prereq)
      | Some (false, _) => first_circular fuel d course rest
      end
  end.

(** [self.instance] is [None] when the serializer creates a course. *)
Definition validate (fuel : nat) (d : Course.db) (self_instance : option Course.instance)
    (data : attrs) : option (result attrs) :=
  match self_instance, prerequisites data with
  | Some self_instance, Some prerequisites =>
      (* Check if the course is trying to add itself as a prerequisite *)
      if Course.contains prerequisites self_instance.1 then
        Some (Raise (ValidationError "A course cannot be a prerequisite for itself"))
      else
        (* Check for circular reference chains *)
        match first_circular fuel d self_instance prerequisites with
        | None => None
        | Some (Some prereq) =>
            Some (Raise (ValidationError
                           ("Circular reference detected with course "
                            +:+ Course.code prereq.2)))
        | Some None => Some (Ok data)
        end
  | _, _ => Some (Ok data)
  end.

End CourseCreateUpdateSerializer.

(** ** core/views.py: CourseViewSet *)

(** A value of the request body, [request.data.get(key)]: [Null] when the
    key is missing or holds null, [Uuid u] for the text of a UUID, which
    denotes the key [u], and [Text s] for a text [s] that is not the text of
    a UUID, the empty text among them. *)
Inductive request_value :=
| Null
| Uuid (u : uuid)
| Text (s : string).

#[global] Instance request_value_eq_dec : EqDecision request_value.
Proof. solve_decision. Defined.

(** Python's [not value]: true on [None] and on the empty string. *)
Definition not_ (value : request_value) : bool :=
  match value with
  | Null => true
  | Uuid _ => false
  | Text s => bool_decide (s = "")
  end.

Module CourseViewSet.

Definition get_object (d : Course.db) (pk : uuid) : result Course.instance :=
  match Course.rows d !! pk with
  | Some c => Ok (pk, c)
  | None => Raise Http404
  end.

(** [Course.objects.get(pk=...)]: [None] is [Course.DoesNotExist]. *)
Definition objects_get (d : Course.db) (pk : uuid) : option Course.instance :=
  (λ c, (pk, c)) <$> Course.rows d !! pk.

(** [Course.objects.get(pk=value)] on a true value. The primary key is a
    [UUIDField]: the lookup converts the value with [to_python], which
    raises [django.core.exceptions.ValidationError] on a text that is no
    UUID; [Ok None] is [Course.DoesNotExist]. *)
Definition objects_get_value (d : Course.db) (value : request_value)
  : result (option Course.instance) :=
  match value with
  | Uuid pk => Ok (objects_get d pk)
  | Text s => Raise (exceptions_ValidationError s)
  | Null => Ok None
  end.

(** The view catches [Course.DoesNotExist] only: any other exception of the
    lookup leaves the view. *)
Definition add_prerequisite (d : Course.db) (pk : uuid) (prerequisite_id : request_value)
  : result (Response unit) * Course.db :=
  match get_object d pk with
  | Raise e => (Raise e, d)
  | Ok course =>
      if not_ prerequisite_id then
        (Ok (mkResponse (Detail "prerequisite_id is required")
                        HTTP_400_BAD_REQUEST), d)
      else
        match objects_get_value d prerequisite_id with
        | Raise e => (Raise e, d)
        | Ok None =>
            (Ok (mkResponse (Detail "Prerequisite course not found")
                            HTTP_404_NOT_FOUND), d)
        | Ok (Some prerequisite) =>
            (* Check for circular reference *)
            if bool_decide (course.1 = prerequisite.1) then
              (Ok (mkResponse
                     (Detail "A course cannot be a prerequisite for itself")
                     HTTP_400_BAD_REQUEST), d)
            (* Check if this would create a circular dependency chain *)
            else if Course.exists_
                      (Course.prerequisites_filter_pk d prerequisite.1 course.1)
            then
              (Ok (mkResponse
                     (Detail "Adding this prerequisite would create a circular dependency")
                     HTTP_400_BAD_REQUEST), d)
            else
              (* Add the prerequisite *)
              let d := Course.prerequisites_add d course.1 prerequisite.1 in
              (Ok (mkResponse
                     (Detail ("Added " +:+ Course.code prerequisite.2
                              +:+ " as a prerequisite for "
                              +:+ Course.code course.2))
                     HTTP_200_OK), d)
        end
  end.

Definition remove_prerequisite (d : Course.db) (pk : uuid) (prerequisite_id : request_value)
  : result (Response unit) * Course.db :=
  match get_object d pk with
  | Raise e => (Raise e, d)
  | Ok course =>
      if not_ prerequisite_id then
        (Ok (mkResponse (Detail "prerequisite_id is required")
                        HTTP_400_BAD_REQUEST), d)
      else
        match objects_get_value d prerequisite_id with
        | Raise e => (Raise e, d)
        | Ok None =>
            (Ok (mkResponse (Detail "Prerequisite course not found")
                            HTTP_404_NOT_FOUND), d)
        | Ok (Some prerequisite) =>
            (* Check if the course actually has this prerequisite *)
            if negb (Course.exists_
                       (Course.prerequisites_filter_pk d course.1 prerequisite.1))
            then
              (Ok (mkResponse
                     (Detail (Course.code prerequisite.2
                              +:+ " is not a prerequisite for "
                              +:+ Course.code course.2))
                     HTTP_400_BAD_REQUEST), d)
            else
              (* Remove the prerequisite *)
              let d := Course.prerequisites_remove d course.1 prerequisite.1 in
              (Ok (mkResponse
                     (Detail ("Removed " +:+ Course.code prerequisite.2
                              +:+ " as a prerequisite for "
                              +:+ Course.code course.2))
                     HTTP_200_OK), d)
        end
  end.

End CourseViewSet.

(** ** The vocabulary of the properties *)

(** [start_date <= d <= end_date], both bounds inclusive, in the order of
    [datetime.date]. *)
Definition contains_date (y : AcademicYear.t) (d : date) : Prop :=
  ∃ s e, AcademicYear.start_date y = Some s ∧ AcademicYear.end_date y = Some e
         ∧ le s d = true ∧ le d e = true.

Definition dates_ordered (y : AcademicYear.t) : Prop :=
  ∃ s e, AcademicYear.start_date y = Some s ∧ AcademicYear.end_date y = Some e
         ∧ le s e = true.

(** The test of [contains_date] as a boolean, on a row of the table. *)
Definition in_range_b (d : date) (i : AcademicYearViewSet.instance) : bool :=
  match AcademicYear.start_date i.2, AcademicYear.end_date i.2 with
  | Some s, Some e => le s d && le d e
  | _, _ => false
  end.

(** The NOT NULL constraint of the two date columns. *)
Definition not_null (tbl : gmap uuid AcademicYear.t) : Prop :=
  map_Forall (λ _ y, is_Some (AcademicYear.start_date y)
                     ∧ is_Some (AcademicYear.end_date y)) tbl.

(** What a listing of all academic years shows as active. *)
Definition active_years (tbl : gmap uuid AcademicYear.t)
  : list AcademicYearViewSet.instance :=
  filter (λ i : AcademicYearViewSet.instance, AcademicYear.is_active i.2 = true)
         (AcademicYearViewSet.objects_all tbl).

Definition at_most_one_active (tbl : gmap uuid AcademicYear.t) : Prop :=
  ∀ k1 k2 y1 y2, tbl !! k1 = Some y1 → tbl !! k2 = Some y2 →
    AcademicYear.is_active y1 = true → AcademicYear.is_active y2 = true → k1 = k2.

(** The prerequisite graph: an edge from [c] to [p] when [c] requires [p]. *)
Definition requires (d : Course.db) (c p : uuid) : Prop := (c, p) ∈ Course.through d.

Definition acyclic (d : Course.db) : Prop := ∀ c, ¬ tc (requires d) c c.

(** ** Scenarios *)

Module Scenario.

(** The ten-character form [YYYY-MM-DD] that [date.fromisoformat] reads, to
    run [for_date] on. *)
Definition digit (c : ascii) : option Z :=
  let n := Z.of_nat (nat_of_ascii c) in
  if (48 <=? n) && (n <=? 57) then Some (n - 48) else None.

Definition number (l : list ascii) : option Z :=
  foldl (λ acc c, a ← acc; k ← digit c; Some (10 * a + k)) (Some 0) l.

Definition days_in_month (y m : Z) : Z :=
  if (m =? 2) && _is_leap y then 29
  else nth (Z.to_nat (m - 1)) _DAYS_IN_MONTH 0.

Definition fromisoformat (s : string) : option date :=
  match list_ascii_of_string s with
  | [y1; y2; y3; y4; s1; m1; m2; s2; d1; d2] =>
      if bool_decide (s1 = "-"%char ∧ s2 = "-"%char) then
        y ← number [y1; y2; y3; y4];
        m ← number [m1; m2];
        d ← number [d1; d2];
        if (1 <=? y) && (1 <=? m) && (m <=? 12) && (1 <=? d)
           && (d <=? days_in_month y m)
        then Some (mkdate y m d) else None
      else None
  | _ => None
  end.

(** Two academic years, the first one active. *)
Definition Y1 : uuid := 1%N.
Definition Y2 : uuid := 2%N.
Definition year1 : AcademicYear.t :=
  AcademicYear.mk "2023/2024" (Some (mkdate 2023 9 1)) (Some (mkdate 2024 6 30)) true.
Definition year2 : AcademicYear.t :=
  AcademicYear.mk "2024/2025" (Some (mkdate 2024 9 1)) (Some (mkdate 2025 6 30)) false.
Definition years : gmap uuid AcademicYear.t := <[Y1 := year1]> (<[Y2 := year2]> ∅).

(** Three courses: B requires A and C requires B. *)
Definition A : uuid := 1%N.
Definition B : uuid := 2%N.
Definition C : uuid := 3%N.
Definition course (code name : string) : Course.t :=
  Course.mk code name None 3 Y1 true.
Definition course_A := course "CS101" "Programming".
Definition course_B := course "CS201" "Data structures".
Definition course_C := course "CS301" "Algorithms".
Definition courses : gmap uuid Course.t :=
  <[A := course_A]> (<[B := course_B]> (<[C := course_C]> ∅)).
Definition abc : Course.db := Course.mkdb courses {[ (B, A); (C, B) ]}.

(** The same courses on corrupted data: A and B require each other. *)
Definition corrupted : Course.db := Course.mkdb courses {[ (A, B); (B, A); (C, B) ]}.

Definition only_prerequisites (l : list Course.instance)
  : CourseCreateUpdateSerializer.attrs :=
  CourseCreateUpdateSerializer.mk None None None None None None (Some l).

Definition only_start_date (d : date) : AcademicYearSerializer.attrs :=
  AcademicYearSerializer.mk None (Some d) None None.

End Scenario.

(** ** Python and Django: more values *)

(** What [QuerySet.get] raises: no row, or more than one. *)
Inductive get_exn := DoesNotExist | MultipleObjectsReturned.

(** [QuerySet.get()] on the rows a query selects. *)
Definition queryset_get {A} (q : list A) : get_exn + A :=
  match q with
  | [] => inl DoesNotExist
  | [a] => inr a
  | _ => inl MultipleObjectsReturned
  end.

(** Python's [not s] on a string attribute that may hold [None] is [falsy];
    [truthy] is its negation. *)
Definition truthy (s : option string) : bool := negb (falsy s).

(** [str.lower] on the letters A to Z; no other character becomes an ASCII
    letter other than k or i, so a comparison of the result with ["true"]
    is the one Python makes. *)
Definition lower_char (c : ascii) : ascii :=
  let n := nat_of_ascii c in
  if (65 <=? n)%nat && (n <=? 90)%nat then ascii_of_nat (n + 32) else c.

Fixpoint lower (s : string) : string :=
  match s with
  | EmptyString => EmptyString
  | String c s' => String (lower_char c) (lower s')
  end.

(** [s.lower() == 'true'] *)
Definition says_true (s : string) : bool := bool_decide (lower s = "true").

(** The calendar dates: what the constructor of [datetime.date] accepts. *)
Definition _days_in_month (y m : Z) : Z :=
  if (m =? 2) && _is_leap y then 29
  else nth (Z.to_nat (m - 1)) _DAYS_IN_MONTH 0.

Definition valid_date (d : date) : Prop :=
  1 ≤ year d ≤ 9999 ∧ 1 ≤ month d ≤ 12 ∧ 1 ≤ day d ≤ _days_in_month (year d) (month d).

(** ** The calendar *)

(** The Gregorian calendar in its own terms, without ordinals: the length
    of a month, the dates, the day after a date and the [n]-th day after
    it. The number of days [get_duration_in_days] returns is compared with
    the days counted on this calendar. *)
Module Calendar.

Definition leap_year (y : Z) : bool :=
  ((y mod 4 =? 0) && negb (y mod 100 =? 0)) || (y mod 400 =? 0).

Definition month_length (y m : Z) : Z :=
  if m =? 2 then (if leap_year y then 29 else 28)
  else if (m =? 4) || (m =? 6) || (m =? 9) || (m =? 11) then 30
  else 31.

Definition is_date (d : date) : Prop :=
  1 ≤ year d ≤ 9999 ∧ 1 ≤ month d ≤ 12
  ∧ 1 ≤ day d ≤ month_length (year d) (month d).

Definition next_day (d : date) : date :=
  if day d <? month_length (year d) (month d)
  then mkdate (year d) (month d) (day d + 1)
  else if month d <? 12 then mkdate (year d) (month d + 1) 1
  else mkdate (year d + 1) 1 1.

Fixpoint days_after (n : nat) (d : date) : date :=
  match n with
  | O => d
  | S n => next_day (days_after n d)
  end.

End Calendar.

(** ** core/views.py: the other actions of AcademicYearViewSet *)

Module AcademicYearActions.

(** [AcademicYear.objects.get(is_active=True)]: the view catches
    [DoesNotExist] and lets [MultipleObjectsReturned] through. *)
Definition current (tbl : gmap uuid AcademicYear.t)
  : get_exn + Response AcademicYearViewSet.instance :=
  match queryset_get
          (filter (λ i : AcademicYearViewSet.instance, AcademicYear.is_active i.2 = true)
                  (AcademicYearViewSet.objects_all tbl)) with
  | inr current_year => inr (mkResponse (Data current_year) HTTP_200_OK)
  | inl DoesNotExist =>
      inr (mkResponse (Detail "No active academic year found.") HTTP_404_NOT_FOUND)
  | inl e => inl e
  end.

End AcademicYearActions.

(** ** core/views.py: the other actions of CourseViewSet *)

Module CourseActions.

(** [self.required_for.all()]: the reverse relation of [prerequisites]. *)
Definition required_for_all (d : Course.db) (self : uuid) : list Course.instance :=
  filter (λ c : Course.instance, (c.1, self) ∈ Course.through d) (Course.objects_all d).

(** [queryset.filter(is_active=b)] *)
Definition filter_is_active (b : bool) (q : list Course.instance) : list Course.instance :=
  filter (λ c : Course.instance, Course.is_active c.2 = b) q.

(** [if active_only and active_only.lower() == 'true'] *)
Definition active_only_set (active_only : option string) : bool :=
  truthy active_only && says_true (default "" active_only).

Definition prerequisites (d : Course.db) (pk : uuid) (active_only : option string)
  : result (Response (list Course.instance)) :=
  course ← CourseViewSet.get_object d pk;
  let prerequisites := Course.prerequisites_all d course.1 in
  (* Filter active prerequisites if requested *)
  let prerequisites :=
    if active_only_set active_only then filter_is_active true prerequisites
    else prerequisites in
  Ok (mkResponse (Data prerequisites) HTTP_200_OK).

Definition required_for (d : Course.db) (pk : uuid) (active_only : option string)
  : result (Response (list Course.instance)) :=
  course ← CourseViewSet.get_object d pk;
  let dependent_courses := required_for_all d course.1 in
  (* Filter active courses if requested *)
  let dependent_courses :=
    if active_only_set active_only then filter_is_active true dependent_courses
    else dependent_courses in
  Ok (mkResponse (Data dependent_courses) HTTP_200_OK).





End CourseActions.

(** ** students/models.py *)

Module DocumentType.

Definition ID_CARD : string := "ID_CARD".
Definition BIRTH_CERTIFICATE : string := "BIRTH_CERTIFICATE".
Definition PASSPORT : string := "PASSPORT".

(** [DocumentType.choices]: values and labels. *)
Definition choices : list (string * string) :=
  [(ID_CARD, "ID Card"); (BIRTH_CERTIFICATE, "Birth Certificate"); (PASSPORT, "Passport")].

End DocumentType.

Module GuardianRelationship.

Definition FATHER : string := "FATHER".
Definition MOTHER : string := "MOTHER".
Definition OTHER : string := "OTHER".

End GuardianRelationship.

Module StudentDocument.

(** The columns of a document but the key, the uploaded file and the two
    timestamps; [student] is the foreign key. *)
Record t := mk {
  student : uuid;
  document_type : string;
  document_number : string;
  issue_date : option date;
  expiry_date : option date;
  issuing_authority : option string;
  is_verified : bool;
  verification_date : option date;
  verification_notes : option string
}.

Abbreviation instance := (uuid * t)%type.

(** [get_document_type_display()]: the label of the value, or the value
    itself when it is none of the choices. *)
Definition get_document_type_display (self : t) : string :=
  match list_find (λ c : string * string, c.1 = document_type self) DocumentType.choices with
  | Some (_, c) => c.2
  | None => document_type self
  end.

(** [date.today()] is read from the clock: it is an argument here. *)
Definition is_expired (today : date) (self : t) : bool :=
  match expiry_date self with
  | None => false
  | Some expiry_date => gt today expiry_date
  end.

(** [date.today()] is read twice, in [is_expired] and in the subtraction:
    [today] is the first value read and [today'] the second. *)
Definition days_until_expiry (today today' : date) (self : t) : option Z :=
  match expiry_date self with
  | None => None
  | Some expiry_date =>
      if is_expired today self then Some 0
      else Some (sub_days expiry_date today')
  end.

End StudentDocument.

Module Student.

(** The columns of a student but the key, the photo and the two
    timestamps. *)
Record t := mk {
  student_number : string;
  first_name : string;
  middle_name : option string;
  last_name : string;
  gender : option string;
  date_of_birth : option date;
  phone_number : option string;
  email_address : option string;
  student_address : option string;
  father_name : option string;
  father_phone_number : option string;
  father_email_address : option string;
  mother_name : option string;
  mother_phone_number : option string;
  mother_email_address : option string;
  guardian_name : option string;
  guardian_phone_number : option string;
  guardian_email_address : option string;
  guardian_address : option string;
  guardian_relationship : option string;
  other_guardian_relationship : option string
}.

Abbreviation instance := (uuid * t)%type.

(** The student table and the document table. *)
Record db := mkdb {
  rows : gmap uuid t;
  document_rows : gmap uuid StudentDocument.t
}.

Definition objects_all (d : db) : list instance := map_to_list (rows d).

(** [self.documents.all()]: the documents whose foreign key is [self]. *)
Definition documents_all (d : db) (self : uuid) : list StudentDocument.instance :=
  filter (λ doc : StudentDocument.instance, StudentDocument.student doc.2 = self)
         (map_to_list (document_rows d)).

Definition get_full_name (self : t) : string :=
  if truthy (middle_name self) && truthy (Some (last_name self)) then
    first_name self +:+ " " +:+ default "" (middle_name self) +:+ " " +:+ last_name self
  else if negb (truthy (middle_name self)) then
    first_name self +:+ " " +:+ last_name self
  else first_name self.

Definition get_primary_contact_name (self : t) : option string :=
  if bool_decide (guardian_relationship self = Some GuardianRelationship.OTHER)
  then other_guardian_relationship self
  else guardian_name self.

Definition get_primary_contact_phone_number (self : t) : option string :=
  if bool_decide (guardian_relationship self = Some GuardianRelationship.FATHER)
  then father_phone_number self
  else if bool_decide (guardian_relationship self = Some GuardianRelationship.MOTHER)
  then mother_phone_number self
  else guardian_phone_number self.

Definition get_primary_contact_email_address (self : t) : option string :=
  if bool_decide (guardian_relationship self = Some GuardianRelationship.FATHER)
  then father_email_address self
  else if bool_decide (guardian_relationship self = Some GuardianRelationship.MOTHER)
  then mother_email_address self
  else guardian_email_address self.

(** Check if student has at least one valid identification document *)
Definition has_valid_identification (d : db) (self : uuid) : bool :=
  Course.exists_
    (filter (λ doc : StudentDocument.instance, StudentDocument.is_verified doc.2 = true)
            (documents_all d self)).

(** [self.documents.get(document_type=ty, is_verified=True)] *)
Definition documents_get_verified (d : db) (self : uuid) (ty : string)
  : get_exn + StudentDocument.instance :=
  queryset_get
    (filter (λ doc : StudentDocument.instance,
               StudentDocument.document_type doc.2 = ty
               ∧ StudentDocument.is_verified doc.2 = true)
            (documents_all d self)).

(** Returns the primary identification document (prioritizing passport,
    then ID card, then birth certificate). Only [DoesNotExist] is caught. *)
Definition get_primary_document (d : db) (self : uuid)
  : get_exn + option StudentDocument.instance :=
  (* Try to get a passport first *)
  match documents_get_verified d self DocumentType.PASSPORT with
  | inr doc => inr (Some doc)
  | inl MultipleObjectsReturned => inl MultipleObjectsReturned
  | inl DoesNotExist =>
      (* Try to get an ID card *)
      match documents_get_verified d self DocumentType.ID_CARD with
      | inr doc => inr (Some doc)
      | inl MultipleObjectsReturned => inl MultipleObjectsReturned
      | inl DoesNotExist =>
          (* Try to get a birth certificate *)
          match documents_get_verified d self DocumentType.BIRTH_CERTIFICATE with
          | inr doc => inr (Some doc)
          | inl MultipleObjectsReturned => inl MultipleObjectsReturned
          | inl DoesNotExist => inr None
          end
      end
  end.

(** Returns a dictionary of document types and their numbers: a later
    document with the same label replaces an earlier one. *)
Definition get_document_numbers (d : db) (self : uuid) : gmap string string :=
  foldl (λ acc (doc : StudentDocument.instance),
           <[StudentDocument.get_document_type_display doc.2
               := StudentDocument.document_number doc.2]> acc)
        ∅ (documents_all d self).

End Student.

(** ** students/serializers.py *)

(** An uploaded file: [File.__bool__] is the truth of its name. *)
Record UploadedFile := mkUploadedFile {
  file_name : string;
  file_size : Z;
  content_type : string
}.

Module StudentPhotoSerializer.

Definition validate_student_photo (value : UploadedFile) : result UploadedFile :=
  (* Validate the file size (limit to 5MB) *)
  if 5 * 1024 * 1024 <? file_size value then
    Raise (ValidationError "Image file too large ( > 5MB )")
  (* Validate file type *)
  else if negb (String.prefix "image" (content_type value)) then
    Raise (ValidationError "File must be an image")
  else Ok value.

End StudentPhotoSerializer.

Module StudentCreateUpdateSerializer.

(** The method ends without a [return]: what it returns is [None]. *)
Definition validate_student_photo (value : option UploadedFile)
  : result (option UploadedFile) :=
  match value with
  | Some file =>
      if bool_decide (file_name file = "") then Ok None
      else if 5 * 1024 * 1024 <? file_size file then
        Raise (ValidationError "Image file too large ( > 5MB )")
      else if negb (String.prefix "image" (content_type file)) then
        Raise (ValidationError "File must be an image")
      else Ok None
  | None => Ok None
  end.

End StudentCreateUpdateSerializer.

(** ** students/views.py *)

Module StudentViewSet.

Definition get_object (d : Student.db) (pk : uuid) : result Student.instance :=
  match Student.rows d !! pk with
  | Some s => Ok (pk, s)
  | None => Raise Http404
  end.

(** Get all documents for a specific student *)
Definition documents (d : Student.db) (pk : uuid)
  : result (Response (list StudentDocument.instance)) :=
  student ← get_object d pk;
  Ok (mkResponse (Data (Student.documents_all d student.1)) HTTP_200_OK).

(** Get all students missing valid identification documents *)
Definition missing_documents (d : Student.db) : Response (list Student.instance) :=
  mkResponse
    (Data (filter (λ student : Student.instance,
                     Student.has_valid_identification d student.1 = false)
                  (Student.objects_all d)))
    HTTP_200_OK.

End StudentViewSet.

Module StudentDocumentViewSet.

Definition get_object (d : Student.db) (pk : uuid) : result StudentDocument.instance :=
  match Student.document_rows d !! pk with
  | Some doc => Ok (pk, doc)
  | None => Raise Http404
  end.

(** [StudentDocument.objects.filter(is_verified=False)] *)
Definition unverified (d : Student.db) : Response (list StudentDocument.instance) :=
  mkResponse
    (Data (filter (λ doc : StudentDocument.instance,
                     StudentDocument.is_verified doc.2 = false)
                  (map_to_list (Student.document_rows d))))
    HTTP_200_OK.

(** Mark a document as verified. [notes] is [request.data.get('notes', '')]
    before its default: [None] when the key is missing; [today] is
    [timezone.now().date()]. *)
Definition verify (today : date) (d : Student.db) (pk : uuid) (notes : option (option string))
  : result (Response StudentDocument.instance) * Student.db :=
  match get_object d pk with
  | Raise e => (Raise e, d)
  | Ok document =>
      let notes := default (Some "") notes in
      let row :=
        {| StudentDocument.student := StudentDocument.student document.2;
           StudentDocument.document_type := StudentDocument.document_type document.2;
           StudentDocument.document_number := StudentDocument.document_number document.2;
           StudentDocument.issue_date := StudentDocument.issue_date document.2;
           StudentDocument.expiry_date := StudentDocument.expiry_date document.2;
           StudentDocument.issuing_authority := StudentDocument.issuing_authority document.2;
           StudentDocument.is_verified := true;
           StudentDocument.verification_date := Some today;
           StudentDocument.verification_notes := notes |} in
      let document := (document.1, row) in
      (Ok (mkResponse (Data document) HTTP_200_OK),
       Student.mkdb (Student.rows d) (<[document.1 := row]> (Student.document_rows d)))
  end.

End StudentDocumentViewSet.

(** ** core/utils.py *)

Module Utils.

(** [c in s] *)
Fixpoint occurs (c : ascii) (s : string) : bool :=
  match s with
  | EmptyString => false
  | String x s' => Ascii.eqb x c || occurs c s'
  end.

(** [s.split(sep)[-1]], which is [s[s.rfind(sep) + 1:]]: the text after the
    last [sep], or all of [s] when it holds none. *)
Fixpoint after_last (sep : ascii) (s : string) : string :=
  match s with
  | EmptyString => EmptyString
  | String c s' =>
      if occurs sep s' then after_last sep s'
      else if Ascii.eqb c sep then s'
      else s
  end.

(** [s.endswith('/')] *)
Fixpoint ends_with_slash (s : string) : bool :=
  match s with
  | EmptyString => false
  | String c EmptyString => Ascii.eqb c "/"
  | String _ s' => ends_with_slash s'
  end.

(** [os.path.join(a, b)] of [posixpath]. *)
Definition path_join (a b : string) : string :=
  if String.prefix "/" b then b
  else if bool_decide (a = "") || ends_with_slash a then a +:+ b
  else a +:+ "/" +:+ b.

(** [os.path.basename] *)
Definition get_filename (path : string) : string := after_last "/" path.

(** [uuid4] is the text of the [uuid.uuid4()] the call draws. *)
Definition get_teacher_photo_path {A} (instance : A) (uuid4 filename : string) : string :=
  let ext := after_last "." filename in
  let filename := uuid4 +:+ "." +:+ ext in
  path_join "teacher_photos/" filename.

Definition get_student_photo_path {A} (instance : A) (uuid4 filename : string) : string :=
  let ext := after_last "." filename in
  let filename := uuid4 +:+ "." +:+ ext in
  path_join "student_photos/" filename.

Definition get_employee_photo_path {A} (instance : A) (uuid4 filename : string) : string :=
  let ext := after_last "." filename in
  let filename := uuid4 +:+ "." +:+ ext in
  path_join "employee_photos/" filename.

Definition get_person_photo_path {A} (instance : A) (uuid4 filename : string) : string :=
  let ext := after_last "." filename in
  let filename := uuid4 +:+ "." +:+ ext in
  path_join "person_photos/" filename.

Definition get_document_path {A} (instance : A) (uuid4 filename : string) : string :=
  let ext := after_last "." filename in
  let filename := uuid4 +:+ "." +:+ ext in
  path_join "documents/" filename.

Definition get_student_document_path {A} (instance : A) (uuid4 filename : string) : string :=
  let ext := after_last "." filename in
  let filename := uuid4 +:+ "." +:+ ext in
  path_join "student_documents/" filename.

(** The six path functions with the directory each one names. *)
Definition upload_paths : list (string * (string → string → string)) :=
  [("teacher_photos/", get_teacher_photo_path ());
   ("student_photos/", get_student_photo_path ());
   ("employee_photos/", get_employee_photo_path ());
   ("person_photos/", get_person_photo_path ());
   ("documents/", get_document_path ());
   ("student_documents/", get_student_document_path ())].

End Utils.

(** ** More vocabulary of the properties *)

(** No course requires itself and no two courses require each other. *)
Definition no_direct_cycle (d : Course.db) : Prop :=
  ∀ a b, (a, b) ∈ Course.through d → a ≠ b ∧ (b, a) ∉ Course.through d.


(** [unique_together = ['student', 'document_type']] *)
Definition unique_together (d : Student.db) : Prop :=
  ∀ k1 k2 d1 d2,
    Student.document_rows d !! k1 = Some d1 → Student.document_rows d !! k2 = Some d2 →
    StudentDocument.student d1 = StudentDocument.student d2 →
    StudentDocument.document_type d1 = StudentDocument.document_type d2 →
    k1 = k2.

(** Every stored document type is one of [DocumentType.choices]. *)
Definition document_types_valid (d : Student.db) : Prop :=
  ∀ k doc, Student.document_rows d !! k = Some doc →
    StudentDocument.document_type doc ∈ DocumentType.choices.*1.

(** The row [verify] writes for a document. *)
Definition verified_row (today : date) (doc : StudentDocument.t)
    (notes : option (option string)) : StudentDocument.t :=
  {| StudentDocument.student := StudentDocument.student doc;
     StudentDocument.document_type := StudentDocument.document_type doc;
     StudentDocument.document_number := StudentDocument.document_number doc;
     StudentDocument.issue_date := StudentDocument.issue_date doc;
     StudentDocument.expiry_date := StudentDocument.expiry_date doc;
     StudentDocument.issuing_authority := StudentDocument.issuing_authority doc;
     StudentDocument.is_verified := true;
     StudentDocument.verification_date := Some today;
     StudentDocument.verification_notes := default (Some "") notes |}.

(** ** More scenarios *)

Module StudentScenario.

Definition S1 : uuid := 1%N.
Definition S2 : uuid := 2%N.

Definition student (number first : string) (middle : option string) (last : string)
  : Student.t :=
  Student.mk number first middle last None None None None None None None None None None
             None None None None None None None.

Definition ana : Student.t := student "2024-001" "Ana" (Some "Maria") "Silva".
Definition rui : Student.t := student "2024-002" "Rui" None "Costa".

Definition document (s : uuid) (ty number : string) (expiry : option date)
    (verified : bool) : StudentDocument.t :=
  StudentDocument.mk s ty number None expiry None verified None None.

(** Ana holds an unverified passport and a verified ID card; Rui holds an
    unverified birth certificate. *)
Definition D1 : uuid := 11%N.
Definition D2 : uuid := 12%N.
Definition D3 : uuid := 13%N.
Definition passport : StudentDocument.t :=
  document S1 DocumentType.PASSPORT "P-100" (Some (mkdate 2023 12 31)) false.
Definition id_card : StudentDocument.t :=
  document S1 DocumentType.ID_CARD "ID-200" (Some (mkdate 2030 6 30)) true.
Definition certificate : StudentDocument.t :=
  document S2 DocumentType.BIRTH_CERTIFICATE "BC-300" None false.

Definition school : Student.db :=
  Student.mkdb (<[S1 := ana]> (<[S2 := rui]> ∅))
               (<[D1 := passport]> (<[D2 := id_card]> (<[D3 := certificate]> ∅))).

Definition photo : UploadedFile := mkUploadedFile "ana.png" 204800 "image/png".

End StudentScenario.

(** ** The order of dates *)

Section DateOrder.

Lemma ge_le_swap a b : ge a b = le b a.
Proof.
  unfold ge, le, _cmp.
  rewrite (Z.compare_antisym (year a) (year b)).
  rewrite (Z.compare_antisym (month a) (month b)).
  rewrite (Z.compare_antisym (day a) (day b)).
  destruct (year a ?= year b); simpl; try done.
  destruct (month a ?= month b); simpl; try done.
  by destruct (day a ?= day b).
Qed.

Lemma gt_not_le a b : gt a b = negb (le a b).
Proof. unfold gt, le. by destruct (_cmp a b). Qed.

End DateOrder.


(** ** Queries *)

Section Queries.

Context {A : Type}.

Lemma comprehension_total (p : A → result bool) (q : A → bool) (l : list A) :
  (∀ x, x ∈ l → p x = Ok (q x)) →
  comprehension p l = Ok (filter (λ x, q x = true) l).
Proof.
  induction l as [|x l IH]; intros Hp; [done|].
  simpl. rewrite (Hp x) by left. simpl.
  rewrite IH by (intros z Hz; apply Hp; by right). simpl.
  rewrite filter_cons. destruct (q x); by case_decide.
Qed.

Lemma singleton_list `{EqDecision A} (l : list A) (a : A) :
  NoDup l → (∀ x, x ∈ l ↔ x = a) → l = [a].
Proof.
  intros Hnd Hl. apply Permutation_singleton_r, NoDup_Permutation; [done|apply NoDup_singleton|].
  intros x. rewrite Hl. by rewrite list_elem_of_singleton.
Qed.

End Queries.

(** On a stored year, whose dates are not null, the range test raises
    nothing. *)
Lemma is_date_in_range_stored y d s e :
  AcademicYear.start_date y = Some s → AcademicYear.end_date y = Some e →
  AcademicYear.is_date_in_range y d = Ok (le s d && le d e).
Proof.
  intros Hs He. unfold AcademicYear.is_date_in_range. rewrite Hs, He. simpl.
  rewrite ge_le_swap. by destruct (le s d).
Qed.

Lemma in_range_b_spec d i : in_range_b d i = true ↔ contains_date i.2 d.
Proof.
  unfold in_range_b, contains_date. split.
  - destruct (AcademicYear.start_date i.2) as [s|], (AcademicYear.end_date i.2) as [e|];
      try done.
    intros [??]%andb_true_iff. by exists s, e.
  - intros (s & e & -> & -> & -> & ->). done.
Qed.


(** ** Academic years: the years that contain a date *)

(** C3, as the code has it: for a date parameter that parses to [d], over a
    table whose date columns are not null, [for_date] answers from the list
    [ys] of the years of the table with [start_date <= d <= end_date], both
    bounds inclusive: a year is in [ys] if and only if it is a row of the
    table that contains [d]. When [ys] is not empty the response is 200 with
    [ys]; when no year contains [d] the response is 404 with a detail
    message, and no empty list is returned. *)
Theorem for_date_years_containing (fromisoformat : string → option date)
    (tbl : gmap uuid AcademicYear.t) (s : string) (d : date) :
  s ≠ "" → fromisoformat s = Some d → not_null tbl →
  ∃ ys : list AcademicYearViewSet.instance,
    (∀ pk y, (pk, y) ∈ ys ↔ tbl !! pk = Some y ∧ contains_date y d) ∧
    AcademicYearViewSet.for_date fromisoformat tbl (Some s) =
      Ok (match ys with
          | [] => mkResponse (Detail ("No academic year found for date " +:+ s +:+ "."))
                             HTTP_404_NOT_FOUND
          | _ => mkResponse (Data ys) HTTP_200_OK
          end).
Proof.
  intros Hs Hd Hnn.
  exists (filter (λ i, in_range_b d i = true) (AcademicYearViewSet.objects_all tbl)).
  split.
  - intros pk y. rewrite list_elem_of_filter, in_range_b_spec.
    unfold AcademicYearViewSet.objects_all. rewrite elem_of_map_to_list. tauto.
  - unfold AcademicYearViewSet.for_date. simpl. case_decide; [done|]. simpl.
    rewrite Hd.
    rewrite (comprehension_total _ (in_range_b d)).
    + simpl. by destruct (filter _ _).
    + intros [pk y] Hy. apply elem_of_map_to_list in Hy.
      destruct (Hnn pk y Hy) as [[s' Hs'] [e' He']]. simpl in *.
      unfold in_range_b. simpl. rewrite Hs', He'.
      by apply is_date_in_range_stored.
Qed.

(** The date 2024-01-15 over the two years of the scenario. *)
Lemma for_date_years_containing_witness :
  "2024-01-15" ≠ "" ∧
  Scenario.fromisoformat "2024-01-15" = Some (mkdate 2024 1 15) ∧
  not_null Scenario.years ∧
  ∃ ys : list AcademicYearViewSet.instance,
    (∀ pk y, (pk, y) ∈ ys ↔
       Scenario.years !! pk = Some y ∧ contains_date y (mkdate 2024 1 15)) ∧
    AcademicYearViewSet.for_date Scenario.fromisoformat Scenario.years (Some "2024-01-15") =
      Ok (match ys with
          | [] => mkResponse (Detail ("No academic year found for date "
                                      +:+ "2024-01-15" +:+ ".")) HTTP_404_NOT_FOUND
          | _ => mkResponse (Data ys) HTTP_200_OK
          end).
Proof.
  assert (Hnn : not_null Scenario.years).
  { unfold not_null, Scenario.years.
    repeat (apply map_Forall_insert_2; [split; by eexists|]).
    apply map_Forall_empty. }
  split; [done|]. split; [reflexivity|]. split; [exact Hnn|].
  apply (for_date_years_containing Scenario.fromisoformat Scenario.years
           "2024-01-15" (mkdate 2024 1 15)); [done|reflexivity|exact Hnn].
Defined.

(** C3 as stated fails: 2024-07-15 lies in neither year of the scenario,
    and [for_date] answers 404 with a detail message, which is not the
    response 200 with an empty list. *)
Lemma for_date_outside_every_range :
  (∀ pk y, Scenario.years !! pk = Some y → ¬ contains_date y (mkdate 2024 7 15))
  ∧ AcademicYearViewSet.for_date Scenario.fromisoformat Scenario.years (Some "2024-07-15")
      = Ok (mkResponse (Detail "No academic year found for date 2024-07-15.")
                       HTTP_404_NOT_FOUND)
  ∧ AcademicYearViewSet.for_date Scenario.fromisoformat Scenario.years (Some "2024-07-15")
      ≠ Ok (mkResponse (Data []) HTTP_200_OK).
Proof.
  split; [|split].
  - intros pk y Hy (s & e & Hs & He & Hsd & Hde).
    unfold Scenario.years in Hy.
    apply lookup_insert_Some in Hy as [[_ <-]|[_ Hy]].
    { injection He as <-. discriminate Hde. }
    apply lookup_insert_Some in Hy as [[_ <-]|[_ Hy]].
    { injection Hs as <-. discriminate Hsd. }
    by rewrite lookup_empty in Hy.
  - by vm_compute.
  - by vm_compute.
Qed.


(** ** Academic years: the active year *)

Section Activate.

Variables (tbl : gmap uuid AcademicYear.t) (pk : uuid).

Lemma lookup_exclude_update_inactive k :
  AcademicYearViewSet.exclude_update_inactive pk tbl !! k =
    (λ y, if decide (k = pk) then y else AcademicYear.set_is_active false y)
      <$> tbl !! k.
Proof.
  unfold AcademicYearViewSet.exclude_update_inactive.
  rewrite map_lookup_imap. by destruct (tbl !! k).
Qed.

Lemma lookup_activate k y :
  tbl !! pk = Some y →
  (AcademicYearViewSet.activate tbl pk).2 !! k =
    if decide (k = pk) then Some (AcademicYear.set_is_active true y)
    else AcademicYear.set_is_active false <$> tbl !! k.
Proof.
  intros Hy. unfold AcademicYearViewSet.activate, AcademicYearViewSet.get_object.
  rewrite Hy. simpl. unfold AcademicYearViewSet.save. simpl.
  rewrite lookup_insert, lookup_exclude_update_inactive.
  repeat case_decide; try congruence. by destruct (tbl !! k).
Qed.

End Activate.

Lemma active_years_elem tbl i :
  i ∈ active_years tbl ↔ tbl !! i.1 = Some i.2 ∧ AcademicYear.is_active i.2 = true.
Proof.
  unfold active_years, AcademicYearViewSet.objects_all.
  rewrite list_elem_of_filter. destruct i as [k y]. simpl.
  rewrite elem_of_map_to_list. tauto.
Qed.

Lemma active_years_NoDup tbl : NoDup (active_years tbl).
Proof. apply NoDup_filter, NoDup_map_to_list. Qed.

(** C4, as the code has it: from every state of the table, active years
    many or none, [activate] on an existing year [pk] answers 200 with that
    year, and in the table it leaves the listing shows exactly one active
    year, the year [pk]: a row is active if and only if its key is [pk].
    No row is added or removed, and at most one year is active. *)
Theorem activate_exactly_one_active (tbl : gmap uuid AcademicYear.t) (pk : uuid)
    (y : AcademicYear.t) :
  tbl !! pk = Some y →
  let activated := (pk, AcademicYear.set_is_active true y) in
  ∃ tbl',
    AcademicYearViewSet.activate tbl pk
      = (Ok (mkResponse (Data activated) HTTP_200_OK), tbl')
    ∧ active_years tbl' = [activated]
    ∧ (∀ k z, tbl' !! k = Some z → (AcademicYear.is_active z = true ↔ k = pk))
    ∧ dom tbl' = dom tbl
    ∧ at_most_one_active tbl'.
Proof.
  intros Hy activated.
  exists (AcademicYearViewSet.activate tbl pk).2.
  assert (Hone : ∀ k z, (AcademicYearViewSet.activate tbl pk).2 !! k = Some z →
                        (AcademicYear.is_active z = true ↔ k = pk)).
  { intros k z. rewrite (lookup_activate _ _ _ y Hy).
    case_decide as Hk.
    - intros [= <-]. done.
    - destruct (tbl !! k); simpl; [|done]. intros [= <-]. simpl. split; [done|].
      intros ->. done. }
  split; [|split; [|split; [|split]]].
  - unfold AcademicYearViewSet.activate, AcademicYearViewSet.get_object.
    by rewrite Hy.
  - apply singleton_list; [apply active_years_NoDup|].
    intros [k z]. rewrite active_years_elem. simpl. split.
    + intros [Hk Hz]. apply (Hone _ _ Hk) in Hz as ->.
      rewrite (lookup_activate _ _ _ y Hy), decide_True in Hk by done.
      by injection Hk as <-.
    + intros [= -> ->]. rewrite (lookup_activate _ _ _ y Hy), decide_True by done.
      done.
  - exact Hone.
  - apply set_eq. intros k. rewrite !elem_of_dom, (lookup_activate _ _ _ y Hy).
    case_decide as Hk; [subst; rewrite Hy; split; eauto|].
    by rewrite fmap_is_Some.
  - intros k1 k2 y1 y2 H1 H2 A1 A2.
    apply (Hone _ _ H1) in A1. apply (Hone _ _ H2) in A2. congruence.
Qed.

(** Year 1 active, year 2 not: after [activate] on year 2 the only active
    year is year 2. *)
Lemma activate_exactly_one_active_witness :
  Scenario.years !! Scenario.Y2 = Some Scenario.year2 ∧
  ∃ tbl',
    AcademicYearViewSet.activate Scenario.years Scenario.Y2
      = (Ok (mkResponse (Data (Scenario.Y2, AcademicYear.set_is_active true Scenario.year2))
                        HTTP_200_OK), tbl')
    ∧ active_years tbl' = [(Scenario.Y2, AcademicYear.set_is_active true Scenario.year2)]
    ∧ (∀ k z, tbl' !! k = Some z → (AcademicYear.is_active z = true ↔ k = Scenario.Y2))
    ∧ dom tbl' = dom Scenario.years
    ∧ at_most_one_active tbl'.
Proof.
  split; [reflexivity|].
  apply (activate_exactly_one_active Scenario.years Scenario.Y2 Scenario.year2).
  reflexivity.
Defined.

(** C4 as stated fails: [activate] is not the only action that sets the
    flag. [is_active] is a writable field of the serializer, and [create]
    with [is_active] true, on a table whose one year is active, is accepted
    and leaves two active years. *)
Lemma create_adds_second_active_year :
  let data := AcademicYearSerializer.mk (Some "2024/2025") (Some (mkdate 2024 9 1))
                                        (Some (mkdate 2025 6 30)) (Some true) in
  let tbl : gmap uuid AcademicYear.t := {[ Scenario.Y1 := Scenario.year1 ]} in
  at_most_one_active tbl ∧
  ∃ created tbl',
    AcademicYearViewSet.create Scenario.Y2 tbl data
      = (Ok (mkResponse (Data created) HTTP_201_CREATED), tbl')
    ∧ length (active_years tbl') = 2%nat
    ∧ ¬ at_most_one_active tbl'.
Proof.
  split.
  - intros k1 k2 y1 y2 [-> _]%lookup_singleton_Some [-> _]%lookup_singleton_Some _ _.
    done.
  - eexists _, _. split; [reflexivity|]. split; [by vm_compute|].
    intros Hone.
    specialize (Hone Scenario.Y1 Scenario.Y2 Scenario.year1
                     (AcademicYear.set_is_active true Scenario.year2)).
    discriminate Hone; done.
Qed.


(** ** Academic years: the order of the two dates *)

Section AcademicYearValidation.

Import AcademicYearSerializer.

Lemma validate_Ok data data' :
  validate data = Ok data' →
  data' = data ∧
  ∀ s e, start_date data = Some s → end_date data = Some e → le s e = true.
Proof.
  unfold validate. intros H. split.
  - destruct (start_date data), (end_date data); try (by injection H).
    destruct (gt _ _); [done|by injection H].
  - intros s e Hs He. rewrite Hs, He, gt_not_le in H.
    by destruct (le s e).
Qed.

Lemma run_validation_full_Ok data data' :
  run_validation false data = Ok data' →
  data' = data ∧
  ∃ s e, start_date data = Some s ∧ end_date data = Some e ∧ le s e = true.
Proof.
  unfold run_validation. simpl. case_bool_decide as Hreq; simpl; [|done].
  intros [-> Hle]%validate_Ok. split; [done|].
  destruct Hreq as (_ & [s Hs] & [e He]). exists s, e. eauto.
Qed.

Lemma run_validation_reversed partial data s e :
  start_date data = Some s → end_date data = Some e → gt s e = true →
  ∃ msg, run_validation partial data = Raise (ValidationError msg).
Proof.
  intros Hs He Hgt. unfold run_validation.
  destruct (negb partial && _); [by eexists|].
  unfold validate. rewrite Hs, He, Hgt. by eexists.
Qed.

End AcademicYearValidation.

(** C8, as the code has it: data that holds both dates with the start after
    the end is refused by [validate] with "End date must be after start
    date", and [create] and every update then raise a [ValidationError] and
    leave the table as it was. A year that [create] or a full [update]
    accepts has [start_date <= end_date], and so has one that a partial
    update accepts when the data holds both dates. *)
Theorem academic_year_dates_validated (tbl : gmap uuid AcademicYear.t) (new_pk pk : uuid)
    (partial : bool) (fields : AcademicYearSerializer.attrs) :
  (∀ s e, AcademicYearSerializer.start_date fields = Some s →
          AcademicYearSerializer.end_date fields = Some e → gt s e = true →
     AcademicYearSerializer.validate fields
       = Raise (ValidationError "End date must be after start date")
     ∧ (∃ msg, AcademicYearViewSet.create new_pk tbl fields
                 = (Raise (ValidationError msg), tbl))
     ∧ (is_Some (tbl !! pk) →
        ∃ msg, AcademicYearViewSet.update_with partial tbl pk fields
                 = (Raise (ValidationError msg), tbl)))
  ∧ (∀ r tbl', AcademicYearViewSet.create new_pk tbl fields = (Ok r, tbl') →
       ∃ y, data r = Data (new_pk, y) ∧ tbl' !! new_pk = Some y ∧ dates_ordered y)
  ∧ (∀ r tbl', AcademicYearViewSet.update tbl pk fields = (Ok r, tbl') →
       ∃ y, data r = Data (pk, y) ∧ tbl' !! pk = Some y ∧ dates_ordered y)
  ∧ (∀ r tbl', is_Some (AcademicYearSerializer.start_date fields) →
       is_Some (AcademicYearSerializer.end_date fields) →
       AcademicYearViewSet.partial_update tbl pk fields = (Ok r, tbl') →
       ∃ y, data r = Data (pk, y) ∧ tbl' !! pk = Some y ∧ dates_ordered y).
Proof.
  split; [|split; [|split]].
  - intros s e Hs He Hgt. split; [|split].
    + unfold AcademicYearSerializer.validate. by rewrite Hs, He, Hgt.
    + destruct (run_validation_reversed false fields s e Hs He Hgt) as [msg Hmsg].
      exists msg. unfold AcademicYearViewSet.create. by rewrite Hmsg.
    + intros [y Hy].
      destruct (run_validation_reversed partial fields s e Hs He Hgt) as [msg Hmsg].
      exists msg. unfold AcademicYearViewSet.update_with, AcademicYearViewSet.get_object.
      by rewrite Hy, Hmsg.
  - intros r tbl'. unfold AcademicYearViewSet.create.
    destruct (AcademicYearSerializer.run_validation false fields) as [fields'|] eqn:Hv;
      [|done].
    apply run_validation_full_Ok in Hv as [-> (s & e & Hs & He & Hle)].
    intros [= <- <-]. eexists. split; [done|]. split.
    + unfold AcademicYearViewSet.save. simpl. apply lookup_insert_eq.
    + exists s, e. done.
  - intros r tbl'.
    unfold AcademicYearViewSet.update, AcademicYearViewSet.update_with,
      AcademicYearViewSet.get_object.
    destruct (tbl !! pk) as [y|]; [|done].
    destruct (AcademicYearSerializer.run_validation false fields) as [fields'|] eqn:Hv;
      [|done].
    apply run_validation_full_Ok in Hv as [-> (s & e & Hs & He & Hle)].
    intros [= <- <-]. eexists. split; [done|]. split.
    + unfold AcademicYearViewSet.save. simpl. apply lookup_insert_eq.
    + exists s, e. simpl. by rewrite Hs, He.
  - intros r tbl' [s Hs] [e He].
    unfold AcademicYearViewSet.partial_update, AcademicYearViewSet.update_with,
      AcademicYearViewSet.get_object.
    destruct (tbl !! pk) as [y|]; [|done].
    unfold AcademicYearSerializer.run_validation. simpl.
    destruct (AcademicYearSerializer.validate fields) as [fields'|] eqn:Hv; [|done].
    apply validate_Ok in Hv as [-> Hle].
    intros [= <- <-]. eexists. split; [done|]. split.
    + unfold AcademicYearViewSet.save. simpl. apply lookup_insert_eq.
    + exists s, e. simpl. rewrite Hs, He. eauto.
Qed.

(** [create] accepts the year 2023-09-01 to 2024-06-30 on an empty
    table. *)
Lemma academic_year_dates_validated_witness :
  let fields := AcademicYearSerializer.mk (Some "2023/2024") (Some (mkdate 2023 9 1))
                                          (Some (mkdate 2024 6 30)) None in
  ∃ r tbl',
    AcademicYearViewSet.create Scenario.Y1 ∅ fields = (Ok r, tbl')
    ∧ ∃ y, data r = Data (Scenario.Y1, y) ∧ tbl' !! Scenario.Y1 = Some y
           ∧ dates_ordered y.
Proof.
  eexists _, _. split; [reflexivity|].
  apply (proj1 (proj2 (academic_year_dates_validated ∅ Scenario.Y1 Scenario.Y1 false
           (AcademicYearSerializer.mk (Some "2023/2024") (Some (mkdate 2023 9 1))
                                      (Some (mkdate 2024 6 30)) None)))).
  reflexivity.
Defined.

(** C8 as stated fails: [validate] compares the dates only when the data
    holds both. A partial update of year 1 (ending 2024-06-30) with only
    [start_date] 2025-01-01 is accepted, and the stored year then starts
    after it ends. *)
Lemma partial_update_reverses_dates :
  ∃ r tbl' y,
    AcademicYearViewSet.partial_update Scenario.years Scenario.Y1
        (Scenario.only_start_date (mkdate 2025 1 1))
      = (Ok r, tbl')
    ∧ status r = HTTP_200_OK
    ∧ tbl' !! Scenario.Y1 = Some y
    ∧ AcademicYear.start_date y = Some (mkdate 2025 1 1)
    ∧ AcademicYear.end_date y = Some (mkdate 2024 6 30)
    ∧ ¬ dates_ordered y.
Proof.
  eexists _, _, _. split; [reflexivity|]. split; [reflexivity|].
  split; [reflexivity|]. split; [reflexivity|]. split; [reflexivity|].
  intros (s & e & [= <-] & [= <-] & Hle). discriminate Hle.
Qed.


(** ** Courses: the prerequisite queries *)

Section CourseQueries.

Variable d : Course.db.

Lemma elem_of_prerequisites_all (self : uuid) (c : Course.instance) :
  c ∈ Course.prerequisites_all d self ↔
    Course.rows d !! c.1 = Some c.2 ∧ (self, c.1) ∈ Course.through d.
Proof.
  unfold Course.prerequisites_all, Course.objects_all.
  rewrite list_elem_of_filter. destruct c as [k r]. simpl.
  rewrite elem_of_map_to_list. tauto.
Qed.

Lemma contains_prerequisites_all (self pk : uuid) :
  Course.contains (Course.prerequisites_all d self) pk = true ↔
    is_Some (Course.rows d !! pk) ∧ (self, pk) ∈ Course.through d.
Proof.
  unfold Course.contains. rewrite bool_decide_eq_true, list_elem_of_fmap. split.
  - intros ([k r] & -> & [Hr Ht]%elem_of_prerequisites_all). simpl in *. eauto.
  - intros [[r Hr] Ht]. exists (pk, r). split; [done|].
    by apply elem_of_prerequisites_all.
Qed.

Lemma exists_nonempty {A} (q : list A) : Course.exists_ q = true ↔ ∃ x, x ∈ q.
Proof.
  destruct q as [|x q]; simpl; split; try done.
  - by intros [x Hx%elem_of_nil].
  - intros _. exists x. by left.
Qed.

Lemma exists_prerequisites_filter_pk (self pk : uuid) :
  Course.exists_ (Course.prerequisites_filter_pk d self pk) = true ↔
    is_Some (Course.rows d !! pk) ∧ (self, pk) ∈ Course.through d.
Proof.
  rewrite exists_nonempty. unfold Course.prerequisites_filter_pk. split.
  - intros [[k r] [Hk [Hr Ht]%elem_of_prerequisites_all]%list_elem_of_filter].
    simpl in *. subst k. eauto.
  - intros [[r Hr] Ht]. exists (pk, r). apply list_elem_of_filter. split; [done|].
    by apply elem_of_prerequisites_all.
Qed.

Lemma exists_prerequisites_filter_pk_decide (self pk : uuid) :
  is_Some (Course.rows d !! pk) →
  Course.exists_ (Course.prerequisites_filter_pk d self pk)
    = bool_decide ((self, pk) ∈ Course.through d).
Proof.
  intros Hpk. apply eq_true_iff_eq.
  rewrite exists_prerequisites_filter_pk, bool_decide_eq_true. tauto.
Qed.

End CourseQueries.

(** What [add_prerequisite] answers when both courses resolve: the
    self-reference, then the direct edge back, then the addition. *)
Lemma add_prerequisite_resolved (d : Course.db) (c p : uuid) (course prerequisite : Course.t) :
  Course.rows d !! c = Some course →
  Course.rows d !! p = Some prerequisite →
  CourseViewSet.add_prerequisite d c (Uuid p) =
    if bool_decide (c = p) then
      (Ok (mkResponse (Detail "A course cannot be a prerequisite for itself")
                      HTTP_400_BAD_REQUEST), d)
    else if bool_decide ((p, c) ∈ Course.through d) then
      (Ok (mkResponse (Detail "Adding this prerequisite would create a circular dependency")
                      HTTP_400_BAD_REQUEST), d)
    else
      (Ok (mkResponse (Detail ("Added " +:+ Course.code prerequisite
                               +:+ " as a prerequisite for " +:+ Course.code course))
                      HTTP_200_OK),
       Course.prerequisites_add d c p).
Proof.
  intros Hc Hp.
  unfold CourseViewSet.add_prerequisite, CourseViewSet.get_object,
    CourseViewSet.objects_get_value, not_, CourseViewSet.objects_get.
  rewrite Hc, Hp. cbn [fmap option_fmap option_map fst snd].
  by rewrite (exists_prerequisites_filter_pk_decide d p c (mk_is_Some _ _ Hc)).
Qed.


(** ** Courses: the circular-reference check *)

Section CircularReference.

Import CourseCreateUpdateSerializer.

Variable d : Course.db.

Lemma any_call_all_false {A S} (f : A → S → option (bool * S)) (l : list A) (s : S) :
  (∀ x, x ∈ l → f x s = Some (false, s)) → any_call f l s = Some (false, s).
Proof.
  induction l as [|x l IH]; intros Hf; [done|].
  simpl. rewrite (Hf x) by left. apply IH. intros z Hz. apply Hf. by right.
Qed.

(** A call that finds the course's key in the visited set returns at once. *)
Lemma check_visited fuel (course q : Course.instance) (v : gset uuid) :
  course.1 ∈ v →
  _check_circular_reference (S fuel) d course q (Some v) = Some (false, v).
Proof. intros Hv. simpl. by rewrite bool_decide_eq_true_2. Qed.

(** With two levels of recursion the check returns on every graph: the
    first level records the course's key, which stops every call of the
    second. What it returns is whether the prerequisite requires the
    course directly. *)
Lemma check_unfold fuel (course prerequisite : Course.instance)
    (visited : option (gset uuid)) :
  _check_circular_reference (S (S fuel)) d course prerequisite visited =
    let v := default ∅ visited in
    if bool_decide (course.1 ∈ v) then Some (false, v)
    else Some (Course.contains (Course.prerequisites_all d prerequisite.1) course.1,
               {[ course.1 ]} ∪ v).
Proof.
  cbn [_check_circular_reference]. cbn zeta. case_bool_decide; [done|].
  destruct (Course.contains _ _); [done|].
  apply any_call_all_false. intros q _. cbn [default].
  rewrite bool_decide_eq_true_2; [done|set_solver].
Qed.

Lemma first_circular_total fuel (course : Course.instance)
    (prerequisites : list Course.instance) :
  is_Some (first_circular (S (S fuel)) d course prerequisites).
Proof.
  induction prerequisites as [|p l IH]; [by eexists|].
  cbn [first_circular]. rewrite check_unfold. cbn zeta.
  rewrite bool_decide_eq_false_2 by set_solver.
  destruct (Course.contains _ _); [by eexists|done].
Qed.

End CircularReference.

(** C6: on every table and through table, acyclic or not, for every course,
    prerequisite and visited set, [_check_circular_reference] returns as soon
    as it is given two levels of recursion, and more fuel does not change
    what it returns; [validate], which runs it on each proposed
    prerequisite, returns too. *)
Theorem check_circular_reference_terminates (d : Course.db)
    (course prerequisite : Course.instance) (visited : option (gset uuid))
    (self_instance : option Course.instance)
    (data : CourseCreateUpdateSerializer.attrs) (fuel : nat) :
  (2 ≤ fuel)%nat →
  (∃ found visited',
     CourseCreateUpdateSerializer._check_circular_reference fuel d course prerequisite
       visited = Some (found, visited')
     ∧ CourseCreateUpdateSerializer._check_circular_reference 2 d course prerequisite
         visited = Some (found, visited'))
  ∧ is_Some (CourseCreateUpdateSerializer.validate fuel d self_instance data).
Proof.
  intros Hfuel. destruct fuel as [|[|fuel]]; [lia|lia|]. split.
  - rewrite !check_unfold. cbn zeta. case_bool_decide; by eexists _, _.
  - unfold CourseCreateUpdateSerializer.validate.
    destruct self_instance as [inst|]; [|by eexists].
    destruct (CourseCreateUpdateSerializer.prerequisites data) as [l|]; [|by eexists].
    destruct (Course.contains l inst.1); [by eexists|].
    destruct (first_circular_total d fuel inst l) as [[p|] ->]; by eexists.
Qed.

(** On the corrupted data, where A and B require each other, the check of
    C against A returns. *)
Lemma check_circular_reference_terminates_witness :
  (2 ≤ 2)%nat
  ∧ tc (requires Scenario.corrupted) Scenario.A Scenario.A
  ∧ (∃ found visited',
       CourseCreateUpdateSerializer._check_circular_reference 2 Scenario.corrupted
         (Scenario.C, Scenario.course_C) (Scenario.A, Scenario.course_A) None
         = Some (found, visited')
       ∧ CourseCreateUpdateSerializer._check_circular_reference 2 Scenario.corrupted
           (Scenario.C, Scenario.course_C) (Scenario.A, Scenario.course_A) None
         = Some (found, visited'))
  ∧ is_Some (CourseCreateUpdateSerializer.validate 2 Scenario.corrupted
               (Some (Scenario.C, Scenario.course_C))
               (Scenario.only_prerequisites [(Scenario.A, Scenario.course_A)])).
Proof.
  split; [lia|]. split.
  - apply tc_l with Scenario.B; [|apply tc_once]; unfold requires; simpl; set_solver.
  - apply (check_circular_reference_terminates Scenario.corrupted
             (Scenario.C, Scenario.course_C) (Scenario.A, Scenario.course_A) None
             (Some (Scenario.C, Scenario.course_C))
             (Scenario.only_prerequisites [(Scenario.A, Scenario.course_A)]) 2).
    lia.
Defined.

(** C5: for an existing course [c], [add_prerequisite] with [c] itself as
    the prerequisite answers 400 "A course cannot be a prerequisite for
    itself" and leaves the tables as they were; the serializer's [validate],
    on an update of [c] whose proposed prerequisites hold [c], raises the
    [ValidationError] of that message, whatever else is proposed. *)
Theorem self_prerequisite_rejected (d : Course.db) (c : uuid) (row : Course.t) :
  Course.rows d !! c = Some row →
  CourseViewSet.add_prerequisite d c (Uuid c)
    = (Ok (mkResponse (Detail "A course cannot be a prerequisite for itself")
                      HTTP_400_BAD_REQUEST), d)
  ∧ ∀ fuel data proposed,
      CourseCreateUpdateSerializer.prerequisites data = Some proposed →
      c ∈ proposed.*1 →
      CourseCreateUpdateSerializer.validate fuel d (Some (c, row)) data
        = Some (Raise (ValidationError "A course cannot be a prerequisite for itself")).
Proof.
  intros Hc. split.
  - unfold CourseViewSet.add_prerequisite, CourseViewSet.get_object,
      CourseViewSet.objects_get_value, not_, CourseViewSet.objects_get.
    rewrite Hc. simpl. by rewrite bool_decide_eq_true_2.
  - intros fuel data proposed Hp Hin. unfold CourseCreateUpdateSerializer.validate.
    rewrite Hp. unfold Course.contains. simpl. by rewrite bool_decide_eq_true_2.
Qed.

(** Course B proposed as its own prerequisite. *)
Lemma self_prerequisite_rejected_witness :
  Course.rows Scenario.abc !! Scenario.B = Some Scenario.course_B
  ∧ CourseViewSet.add_prerequisite Scenario.abc Scenario.B (Uuid Scenario.B)
      = (Ok (mkResponse (Detail "A course cannot be a prerequisite for itself")
                        HTTP_400_BAD_REQUEST), Scenario.abc)
  ∧ CourseCreateUpdateSerializer.validate 0 Scenario.abc
      (Some (Scenario.B, Scenario.course_B))
      (Scenario.only_prerequisites [(Scenario.B, Scenario.course_B)])
    = Some (Raise (ValidationError "A course cannot be a prerequisite for itself")).
Proof.
  pose proof (self_prerequisite_rejected Scenario.abc Scenario.B Scenario.course_B
                eq_refl) as [Hview Hser].
  split; [reflexivity|]. split; [exact Hview|].
  apply Hser with (proposed := [(Scenario.B, Scenario.course_B)]); [reflexivity|].
  by left.
Defined.


(** ** Courses: the prerequisite graph *)

Section Graph.

Variable d : Course.db.

Lemma tc_requires_rank (rank : uuid → nat) :
  (∀ c p, requires d c p → (rank p < rank c)%nat) →
  ∀ c p, tc (requires d) c p → (rank p < rank c)%nat.
Proof.
  intros Hrank c p Hcp. induction Hcp as [c p H|c q p H _ IH].
  - by apply Hrank.
  - apply Hrank in H. lia.
Qed.

Lemma acyclic_by_rank (rank : uuid → nat) :
  (∀ c p, requires d c p → (rank p < rank c)%nat) → acyclic d.
Proof. intros Hrank c Hc. apply (tc_requires_rank rank Hrank) in Hc. lia. Qed.

End Graph.

Lemma abc_acyclic : acyclic Scenario.abc.
Proof.
  apply (acyclic_by_rank _ N.to_nat). intros c p. unfold requires. simpl.
  rewrite elem_of_union, !elem_of_singleton. intros [[= -> ->]|[= -> ->]]; by vm_compute.
Qed.

Lemma abc_C_requires_A : tc (requires Scenario.abc) Scenario.C Scenario.A.
Proof.
  apply tc_l with Scenario.B; [|apply tc_once]; unfold requires; simpl; set_solver.
Qed.

(** C1 does not hold of the code. The graph of the scenario (B requires
    A, C requires B) is acyclic and has a path from C to A; yet
    [add_prerequisite] accepts the edge from A to C, answers 200 and stores
    it, which leaves a cyclic graph, and the serializer's [validate] accepts
    C as a prerequisite of A as well. Both checks look only at the direct
    prerequisites of the candidate. *)
Theorem add_prerequisite_accepts_transitive_cycle :
  acyclic Scenario.abc
  ∧ tc (requires Scenario.abc) Scenario.C Scenario.A
  ∧ (∃ r d', CourseViewSet.add_prerequisite Scenario.abc Scenario.A (Uuid Scenario.C)
               = (Ok r, d')
             ∧ status r = HTTP_200_OK
             ∧ requires d' Scenario.A Scenario.C
             ∧ ¬ acyclic d')
  ∧ (∃ data, CourseCreateUpdateSerializer.validate 2 Scenario.abc
               (Some (Scenario.A, Scenario.course_A))
               (Scenario.only_prerequisites [(Scenario.C, Scenario.course_C)])
             = Some (Ok data)).
Proof.
  split; [exact abc_acyclic|]. split; [exact abc_C_requires_A|]. split.
  - eexists _, _. split; [by vm_compute|]. split; [done|].
    assert (HAC : requires (Course.prerequisites_add Scenario.abc Scenario.A Scenario.C)
                           Scenario.A Scenario.C).
    { unfold requires. simpl. set_solver. }
    split; [exact HAC|].
    intros Hacyc. apply (Hacyc Scenario.A).
    apply tc_l with Scenario.C; [exact HAC|].
    apply tc_l with Scenario.B; [|apply tc_once]; unfold requires; simpl; set_solver.
  - eexists. by vm_compute.
Qed.

(** C2 does not hold of the code. In the scenario of the three courses,
    adding C as a prerequisite of A does not fail: the view answers 200
    "Added CS301 as a prerequisite for CS101" and stores the edge,
    [_check_circular_reference] returns [False] with only A's key visited,
    and [validate] returns the data. *)
Theorem scenario_A_requires_C_is_added :
  CourseViewSet.add_prerequisite Scenario.abc Scenario.A (Uuid Scenario.C)
    = (Ok (mkResponse (Detail "Added CS301 as a prerequisite for CS101") HTTP_200_OK),
       Course.mkdb Scenario.courses
                   ({[ (Scenario.A, Scenario.C) ]} ∪ {[ (Scenario.B, Scenario.A);
                                                        (Scenario.C, Scenario.B) ]}))
  ∧ CourseCreateUpdateSerializer._check_circular_reference 2 Scenario.abc
      (Scenario.A, Scenario.course_A) (Scenario.C, Scenario.course_C) None
    = Some (false, {[ Scenario.A ]})
  ∧ CourseCreateUpdateSerializer.validate 2 Scenario.abc
      (Some (Scenario.A, Scenario.course_A))
      (Scenario.only_prerequisites [(Scenario.C, Scenario.course_C)])
    = Some (Ok (Scenario.only_prerequisites [(Scenario.C, Scenario.course_C)])).
Proof. split; [|split]; by vm_compute. Qed.


(** ** Courses: removing a prerequisite *)

(** C9: for existing courses [c] and [p], [remove_prerequisite] answers 400
    "... is not a prerequisite for ..." and leaves the tables as they were
    when the through table has no row [(c, p)]; when it has one, the answer
    is 200, the course table is unchanged, and the through table loses the
    row [(c, p)] and no other. *)
Theorem remove_prerequisite_edge (d : Course.db) (c p : uuid) (course prerequisite : Course.t) :
  Course.rows d !! c = Some course →
  Course.rows d !! p = Some prerequisite →
  ((c, p) ∉ Course.through d →
     CourseViewSet.remove_prerequisite d c (Uuid p)
       = (Ok (mkResponse
                (Detail (Course.code prerequisite +:+ " is not a prerequisite for "
                         +:+ Course.code course))
                HTTP_400_BAD_REQUEST), d))
  ∧ ((c, p) ∈ Course.through d →
       ∃ d', CourseViewSet.remove_prerequisite d c (Uuid p)
               = (Ok (mkResponse
                        (Detail ("Removed " +:+ Course.code prerequisite
                                 +:+ " as a prerequisite for " +:+ Course.code course))
                        HTTP_200_OK), d')
             ∧ Course.rows d' = Course.rows d
             ∧ ∀ e, e ∈ Course.through d' ↔ e ∈ Course.through d ∧ e ≠ (c, p)).
Proof.
  intros Hc Hp.
  assert (Hq := exists_prerequisites_filter_pk_decide d c p (mk_is_Some _ _ Hp)).
  unfold CourseViewSet.remove_prerequisite, CourseViewSet.get_object,
    CourseViewSet.objects_get_value, not_, CourseViewSet.objects_get.
  rewrite Hc, Hp. cbn [fmap option_fmap option_map fst snd]. rewrite Hq. split.
  - intros Hno. by rewrite bool_decide_eq_false_2.
  - intros Hyes. rewrite bool_decide_eq_true_2 by done. eexists. split; [done|].
    split; [done|]. intros e. simpl. set_solver.
Qed.

(** In the scenario, C requires B and the edge is removed; A does not
    require C and the removal is refused. *)
Lemma remove_prerequisite_edge_witness :
  Course.rows Scenario.abc !! Scenario.C = Some Scenario.course_C
  ∧ Course.rows Scenario.abc !! Scenario.B = Some Scenario.course_B
  ∧ (Scenario.C, Scenario.B) ∈ Course.through Scenario.abc
  ∧ (∃ d', CourseViewSet.remove_prerequisite Scenario.abc Scenario.C (Uuid Scenario.B)
             = (Ok (mkResponse
                      (Detail ("Removed " +:+ Course.code Scenario.course_B
                               +:+ " as a prerequisite for "
                               +:+ Course.code Scenario.course_C))
                      HTTP_200_OK), d')
           ∧ Course.rows d' = Course.rows Scenario.abc
           ∧ ∀ e, e ∈ Course.through d' ↔
                  e ∈ Course.through Scenario.abc ∧ e ≠ (Scenario.C, Scenario.B))
  ∧ ((Scenario.A, Scenario.C) ∉ Course.through Scenario.abc)
  ∧ CourseViewSet.remove_prerequisite Scenario.abc Scenario.A (Uuid Scenario.C)
      = (Ok (mkResponse
               (Detail (Course.code Scenario.course_C +:+ " is not a prerequisite for "
                        +:+ Course.code Scenario.course_A))
               HTTP_400_BAD_REQUEST), Scenario.abc).
Proof.
  assert (Hin : (Scenario.C, Scenario.B) ∈ Course.through Scenario.abc).
  { simpl. set_solver. }
  assert (Hout : (Scenario.A, Scenario.C) ∉ Course.through Scenario.abc).
  { simpl. by intros [[=]%elem_of_singleton|[=]%elem_of_singleton]%elem_of_union. }
  split; [reflexivity|]. split; [reflexivity|]. split; [exact Hin|]. split.
  - exact (proj2 (remove_prerequisite_edge Scenario.abc Scenario.C Scenario.B
                    Scenario.course_C Scenario.course_B eq_refl eq_refl) Hin).
  - split; [exact Hout|].
    exact (proj1 (remove_prerequisite_edge Scenario.abc Scenario.A Scenario.C
                    Scenario.course_A Scenario.course_C eq_refl eq_refl) Hout).
Defined.


(** ** Courses: the order of the checks of add_prerequisite *)




(** ** Dates: ordinals and the order of dates *)

Section Ordinals.

Local Ltac months m Hm :=
  assert (m = 1 ∨ m = 2 ∨ m = 3 ∨ m = 4 ∨ m = 5 ∨ m = 6 ∨ m = 7 ∨ m = 8 ∨ m = 9
          ∨ m = 10 ∨ m = 11 ∨ m = 12) as Hm by lia;
  repeat (destruct Hm as [Hm|Hm]; [subst m|]); [..|subst m].

Lemma days_before_year_succ y :
  _days_before_year (y + 1)
    = _days_before_year y + 365 + (if _is_leap y then 1 else 0).
Proof.
  unfold _days_before_year, _is_leap. cbn zeta.
  replace (y + 1 - 1) with y by lia.
  destruct (Z.eqb_spec (y mod 4) 0), (Z.eqb_spec (y mod 100) 0),
    (Z.eqb_spec (y mod 400) 0); simpl; Z.div_mod_to_equations; lia.
Qed.

Lemma days_before_year_mono y1 y2 :
  y1 ≤ y2 → _days_before_year y1 ≤ _days_before_year y2.
Proof. unfold _days_before_year. cbn zeta. Z.div_mod_to_equations. lia. Qed.

(** The day of the year of a calendar date lies in the year. *)
Lemma day_of_year_bounds y m d :
  1 ≤ m ≤ 12 → 1 ≤ d ≤ _days_in_month y m →
  1 ≤ _days_before_month y m + d ≤ 365 + (if _is_leap y then 1 else 0).
Proof.
  intros Hm. months m Hm'; unfold _days_in_month, _days_before_month;
    destruct (_is_leap y); simpl; lia.
Qed.

(** Within a year, a later month starts after the earlier month ends. *)
Lemma days_before_month_mono y m1 m2 :
  1 ≤ m1 ≤ 12 → 1 ≤ m2 ≤ 12 → m1 < m2 →
  _days_before_month y m1 + _days_in_month y m1 ≤ _days_before_month y m2.
Proof.
  intros H1 H2 Hlt.
  months m1 Hm1; months m2 Hm2; try lia;
    unfold _days_in_month, _days_before_month; destruct (_is_leap y); simpl; lia.
Qed.

Lemma cmp_Lt_toordinal_days a b :
  1 ≤ month a ≤ 12 → 1 ≤ day a ≤ _days_in_month (year a) (month a) →
  1 ≤ month b ≤ 12 → 1 ≤ day b ≤ _days_in_month (year b) (month b) →
  _cmp a b = Lt → toordinal a < toordinal b.
Proof.
  intros Hma Hda Hmb Hdb. unfold _cmp, toordinal, _ymd2ord.
  destruct (Z.compare_spec (year a) (year b)) as [Hy|Hy|Hy]; [|intros _|done].
  - rewrite <- Hy in *.
    destruct (Z.compare_spec (month a) (month b)) as [Hm|Hm|Hm]; [|intros _|done].
    + rewrite Hm. intros Hd. apply -> Z.compare_lt_iff in Hd. lia.
    + pose proof (days_before_month_mono (year a) _ _ Hma Hmb Hm). lia.
  - pose proof (days_before_year_succ (year a)).
    pose proof (days_before_year_mono (year a + 1) (year b) ltac:(lia)).
    pose proof (day_of_year_bounds _ _ _ Hma Hda).
    pose proof (day_of_year_bounds _ _ _ Hmb Hdb). lia.
Qed.

Lemma cmp_Lt_toordinal a b :
  valid_date a → valid_date b → _cmp a b = Lt → toordinal a < toordinal b.
Proof.
  intros (_ & Hma & Hda) (_ & Hmb & Hdb). by apply cmp_Lt_toordinal_days.
Qed.

Lemma cmp_Eq_eq a b : _cmp a b = Eq → a = b.
Proof.
  unfold _cmp. destruct a as [ya ma da], b as [yb mb db]. simpl.
  destruct (Z.compare_spec ya yb); try done.
  destruct (Z.compare_spec ma mb); try done.
  intros ?%Z.compare_eq. by subst.
Qed.

Lemma cmp_antisym a b : _cmp b a = CompOpp (_cmp a b).
Proof.
  unfold _cmp.
  rewrite (Z.compare_antisym (year a) (year b)).
  rewrite (Z.compare_antisym (month a) (month b)).
  rewrite (Z.compare_antisym (day a) (day b)).
  destruct (year a ?= year b); simpl; try done.
  by destruct (month a ?= month b).
Qed.

(** On calendar dates the order of [datetime.date] is the order of the
    ordinals. *)
Lemma le_toordinal a b :
  valid_date a → valid_date b → (le a b = true ↔ toordinal a ≤ toordinal b).
Proof.
  intros Ha Hb. unfold le. destruct (_cmp a b) eqn:Hc.
  - apply cmp_Eq_eq in Hc as ->. split; [lia|done].
  - pose proof (cmp_Lt_toordinal a b Ha Hb Hc). split; [lia|done].
  - assert (_cmp b a = Lt) as Hc' by (by rewrite cmp_antisym, Hc).
    pose proof (cmp_Lt_toordinal b a Hb Ha Hc'). split; [done|lia].
Qed.

Lemma gt_toordinal a b :
  valid_date a → valid_date b → (gt a b = true ↔ toordinal b < toordinal a).
Proof.
  intros Ha Hb. pose proof (le_toordinal a b Ha Hb) as Hle.
  rewrite gt_not_le. destruct (le a b); simpl.
  - split; [done|]. intros ?. assert (toordinal a ≤ toordinal b) by (by apply Hle). lia.
  - split; [|done]. intros _.
    destruct (Z.le_gt_cases (toordinal a) (toordinal b)) as [H|H]; [|lia].
    apply Hle in H. done.
Qed.

(** The calendar of [Calendar] is the one of [datetime]. *)
Lemma leap_year_is_leap y : Calendar.leap_year y = _is_leap y.
Proof.
  unfold Calendar.leap_year, _is_leap.
  destruct (Z.eqb_spec (y mod 4) 0), (Z.eqb_spec (y mod 100) 0),
    (Z.eqb_spec (y mod 400) 0); simpl; try reflexivity;
    exfalso; Z.div_mod_to_equations; lia.
Qed.

Lemma month_length_days_in_month y m :
  1 ≤ m ≤ 12 → Calendar.month_length y m = _days_in_month y m.
Proof.
  intros Hm. unfold Calendar.month_length, _days_in_month.
  rewrite leap_year_is_leap. months m Hm'; by destruct (_is_leap y).
Qed.

Lemma is_date_valid_date d : Calendar.is_date d ↔ valid_date d.
Proof.
  unfold Calendar.is_date, valid_date.
  split; intros (Hy & Hm & Hd); (split; [done|]); (split; [done|]);
    [rewrite <- month_length_days_in_month by done
    |rewrite month_length_days_in_month by done]; done.
Qed.

(** The first day of a month follows the last day of the month before. *)
Lemma days_before_month_succ y m :
  1 ≤ m < 12 →
  _days_before_month y (m + 1) = _days_before_month y m + _days_in_month y m.
Proof.
  intros Hm.
  assert (m = 1 ∨ m = 2 ∨ m = 3 ∨ m = 4 ∨ m = 5 ∨ m = 6 ∨ m = 7 ∨ m = 8 ∨ m = 9
          ∨ m = 10 ∨ m = 11) as Hm' by lia.
  repeat (destruct Hm' as [Hm'|Hm']; [subst m|]); [..|subst m];
    unfold _days_in_month, _days_before_month; destruct (_is_leap y); simpl; lia.
Qed.

(** The ordinal of the day after a day of the calendar is one more, also
    from a month to the next and from a year to the next; the day after is a
    day of the calendar again. *)
Lemma toordinal_next_day d :
  1 ≤ month d ≤ 12 → 1 ≤ day d ≤ _days_in_month (year d) (month d) →
  toordinal (Calendar.next_day d) = toordinal d + 1
  ∧ 1 ≤ month (Calendar.next_day d) ≤ 12
  ∧ 1 ≤ day (Calendar.next_day d)
      ≤ _days_in_month (year (Calendar.next_day d)) (month (Calendar.next_day d)).
Proof.
  intros Hm Hd. destruct d as [y m dd]. simpl in *.
  unfold Calendar.next_day, toordinal, _ymd2ord. simpl.
  rewrite month_length_days_in_month by done.
  destruct (Z.ltb_spec dd (_days_in_month y m)) as [Hlt|Hge]; simpl.
  { split; [lia|]. split; [done|lia]. }
  assert (dd = _days_in_month y m) as -> by lia.
  destruct (Z.ltb_spec m 12) as [Hm12|Hm12]; simpl.
  - rewrite days_before_month_succ by lia. split; [lia|]. split; [lia|].
    split; [lia|]. months m Hm'; try lia;
      unfold _days_in_month; destruct (_is_leap y); simpl; lia.
  - assert (m = 12) as -> by lia. rewrite days_before_year_succ.
    unfold _days_in_month, _days_before_month.
    destruct (_is_leap y), (_is_leap (y + 1)); simpl; lia.
Qed.

Lemma toordinal_days_after n d :
  1 ≤ month d ≤ 12 → 1 ≤ day d ≤ _days_in_month (year d) (month d) →
  toordinal (Calendar.days_after n d) = toordinal d + Z.of_nat n
  ∧ 1 ≤ month (Calendar.days_after n d) ≤ 12
  ∧ 1 ≤ day (Calendar.days_after n d)
      ≤ _days_in_month (year (Calendar.days_after n d)) (month (Calendar.days_after n d)).
Proof.
  intros Hm Hd. induction n as [|n (IHo & IHm & IHd)]; simpl.
  - split; [lia|done].
  - destruct (toordinal_next_day _ IHm IHd) as (Ho & ? & ?). split; [lia|done].
Qed.

(** Two days of the calendar with the same ordinal are the same day. *)
Lemma toordinal_inj a b :
  1 ≤ month a ≤ 12 → 1 ≤ day a ≤ _days_in_month (year a) (month a) →
  1 ≤ month b ≤ 12 → 1 ≤ day b ≤ _days_in_month (year b) (month b) →
  toordinal a = toordinal b → a = b.
Proof.
  intros Hma Hda Hmb Hdb Heq. destruct (_cmp a b) eqn:Hc.
  - by apply cmp_Eq_eq.
  - pose proof (cmp_Lt_toordinal_days a b Hma Hda Hmb Hdb Hc). lia.
  - assert (_cmp b a = Lt) as Hc' by (by rewrite cmp_antisym, Hc).
    pose proof (cmp_Lt_toordinal_days b a Hmb Hdb Hma Hda Hc'). lia.
Qed.

(** Every later date is reached from an earlier one by going to the next
    day, as many times as their ordinals differ. *)
Lemma days_after_reaches a b :
  valid_date a → valid_date b → toordinal a ≤ toordinal b →
  Calendar.days_after (Z.to_nat (toordinal b - toordinal a)) a = b.
Proof.
  intros (_ & Hma & Hda) (_ & Hmb & Hdb) Hle.
  destruct (toordinal_days_after (Z.to_nat (toordinal b - toordinal a)) a Hma Hda)
    as (Ho & Hm & Hd).
  apply toordinal_inj; try done. lia.
Qed.

End Ordinals.

(** ** Academic years: duration *)

(** C7: the duration is 0 when the start, the end or both are absent. With
    both bounds present it is [end_date - start_date + 1] days, the
    difference being that of the dates' ordinals, and that is the number of
    days of the calendar from the start to the end, both included, through
    the ends of months and of years: when the end is the [n]-th day after
    the start the duration is [n + 1], and every end on or after the start
    is such a day; when the end is before the start, the start being the
    [n]-th day after the end, the duration is [1 - n]. From 2024-01-01 to
    2024-01-31 it is 31, from 2023-09-01 to 2024-06-30 it is 304, the leap
    year 2024 has 366 days, and from 1900-02-28 to 1900-03-01 it is 2. *)
Theorem get_duration_in_days_spec (name : string) (s e : date) (active : bool) :
  AcademicYear.get_duration_in_days (AcademicYear.mk name (Some s) (Some e) active)
    = toordinal e - toordinal s + 1
  ∧ AcademicYear.get_duration_in_days (AcademicYear.mk name None (Some e) active) = 0
  ∧ AcademicYear.get_duration_in_days (AcademicYear.mk name (Some s) None active) = 0
  ∧ AcademicYear.get_duration_in_days (AcademicYear.mk name None None active) = 0
  ∧ (Calendar.is_date s → Calendar.is_date e →
       (∀ n : nat, Calendar.days_after n s = e →
          AcademicYear.get_duration_in_days
            (AcademicYear.mk name (Some s) (Some e) active) = Z.of_nat n + 1)
       ∧ (le s e = true → ∃ n : nat, Calendar.days_after n s = e)
       ∧ (∀ n : nat, Calendar.days_after n e = s →
            AcademicYear.get_duration_in_days
              (AcademicYear.mk name (Some s) (Some e) active) = 1 - Z.of_nat n)
       ∧ (le e s = true → ∃ n : nat, Calendar.days_after n e = s))
  ∧ AcademicYear.get_duration_in_days
      (AcademicYear.mk name (Some (mkdate 2024 1 1)) (Some (mkdate 2024 1 31)) active) = 31
  ∧ AcademicYear.get_duration_in_days
      (AcademicYear.mk name (Some (mkdate 2023 9 1)) (Some (mkdate 2024 6 30)) active) = 304
  ∧ AcademicYear.get_duration_in_days
      (AcademicYear.mk name (Some (mkdate 2024 1 1)) (Some (mkdate 2024 12 31)) active) = 366
  ∧ AcademicYear.get_duration_in_days
      (AcademicYear.mk name (Some (mkdate 1900 2 28)) (Some (mkdate 1900 3 1)) active) = 2.
Proof.
  split; [reflexivity|]. split; [reflexivity|]. split; [reflexivity|].
  split; [reflexivity|]. split; [|repeat split].
  intros Hs%is_date_valid_date He%is_date_valid_date.
  pose proof Hs as (_ & Hms & Hds). pose proof He as (_ & Hme & Hde).
  unfold AcademicYear.get_duration_in_days, sub_days. simpl.
  split; [|split; [|split]].
  - intros n <-. destruct (toordinal_days_after n s Hms Hds) as (-> & _). lia.
  - intros Hle%(le_toordinal s e Hs He).
    eexists. by apply days_after_reaches.
  - intros n <-. destruct (toordinal_days_after n e Hme Hde) as (-> & _). lia.
  - intros Hle%(le_toordinal e s He Hs).
    eexists. by apply days_after_reaches.
Qed.

(** The school year 2023/2024 of the scenario: its last day, 2024-06-30, is
    the 303rd day after its first, 2023-09-01, through a change of year and
    the 29th of February. *)
Lemma get_duration_in_days_spec_witness :
  Calendar.is_date (mkdate 2023 9 1) ∧ Calendar.is_date (mkdate 2024 6 30)
  ∧ Calendar.days_after 303 (mkdate 2023 9 1) = mkdate 2024 6 30
  ∧ AcademicYear.get_duration_in_days
      (AcademicYear.mk "2023/2024" (Some (mkdate 2023 9 1)) (Some (mkdate 2024 6 30)) true)
    = 304.
Proof.
  assert (Hs : Calendar.is_date (mkdate 2023 9 1)) by (repeat split; by vm_compute).
  assert (He : Calendar.is_date (mkdate 2024 6 30)) by (repeat split; by vm_compute).
  assert (Hn : Calendar.days_after 303 (mkdate 2023 9 1) = mkdate 2024 6 30)
    by (by vm_compute).
  split; [exact Hs|]. split; [exact He|]. split; [exact Hn|].
  destruct (get_duration_in_days_spec "2023/2024" (mkdate 2023 9 1) (mkdate 2024 6 30) true)
    as (_ & _ & _ & _ & Hcal & _).
  exact (proj1 (Hcal Hs He) 303%nat Hn).
Defined.

(** ** Academic years: the current year *)

(** X1: for calendar dates, [get_duration_in_days] is at least 1 exactly
    when [start_date <= end_date], and it is 1 exactly when the year starts
    and ends on the same day. *)
Theorem duration_counts_days (name : string) (s e : date) (active : bool) :
  valid_date s → valid_date e →
  let y := AcademicYear.mk name (Some s) (Some e) active in
  (1 ≤ AcademicYear.get_duration_in_days y ↔ le s e = true)
  ∧ (AcademicYear.get_duration_in_days y = 1 ↔ s = e).
Proof.
  intros Hs He y. unfold y, AcademicYear.get_duration_in_days, sub_days. simpl.
  rewrite (le_toordinal s e Hs He). split; [lia|]. split.
  - intros Hone. destruct (_cmp s e) eqn:Hc.
    + by apply cmp_Eq_eq.
    + pose proof (cmp_Lt_toordinal s e Hs He Hc). lia.
    + assert (_cmp e s = Lt) as Hc' by (by rewrite cmp_antisym, Hc).
      pose proof (cmp_Lt_toordinal e s He Hs Hc'). lia.
  - intros ->. lia.
Qed.

(** February 2024 is 29 days long. *)
Lemma duration_counts_days_witness :
  valid_date (mkdate 2024 2 1) ∧ valid_date (mkdate 2024 2 29)
  ∧ (1 ≤ AcademicYear.get_duration_in_days
           (AcademicYear.mk "February" (Some (mkdate 2024 2 1)) (Some (mkdate 2024 2 29)) false)
     ↔ le (mkdate 2024 2 1) (mkdate 2024 2 29) = true)
  ∧ (AcademicYear.get_duration_in_days
       (AcademicYear.mk "February" (Some (mkdate 2024 2 1)) (Some (mkdate 2024 2 29)) false) = 1
     ↔ mkdate 2024 2 1 = mkdate 2024 2 29).
Proof.
  assert (Hs : valid_date (mkdate 2024 2 1)) by (repeat split; by vm_compute).
  assert (He : valid_date (mkdate 2024 2 29)) by (repeat split; by vm_compute).
  split; [exact Hs|]. split; [exact He|].
  exact (duration_counts_days "February" _ _ false Hs He).
Defined.

Section Current.

Variable tbl : gmap uuid AcademicYear.t.

Lemma current_active_years :
  AcademicYearActions.current tbl =
    match queryset_get (active_years tbl) with
    | inr current_year => inr (mkResponse (Data current_year) HTTP_200_OK)
    | inl DoesNotExist =>
        inr (mkResponse (Detail "No active academic year found.") HTTP_404_NOT_FOUND)
    | inl e => inl e
    end.
Proof. reflexivity. Qed.

Lemma active_years_NoDup_keys : NoDup (active_years tbl).*1.
Proof.
  unfold active_years, AcademicYearViewSet.objects_all.
  eapply sublist_NoDup; [apply (NoDup_fst_map_to_list tbl)|].
  apply fmap_sublist, sublist_filter.
Qed.

Lemma active_years_nil :
  active_years tbl = [] ↔ ∀ k y, tbl !! k = Some y → AcademicYear.is_active y = false.
Proof.
  split.
  - intros Hnil k y Hk. destruct (AcademicYear.is_active y) eqn:Hy; [|done].
    assert ((k, y) ∈ active_years tbl) as Hin by (by apply active_years_elem).
    rewrite Hnil in Hin. by apply elem_of_nil in Hin.
  - intros Hnone. destruct (active_years tbl) as [|[k y] l] eqn:Hl; [done|].
    assert ((k, y) ∈ active_years tbl) as [Hk Hy]%active_years_elem
      by (rewrite Hl; left).
    simpl in *. rewrite (Hnone k y Hk) in Hy. done.
Qed.

Lemma active_years_two i j l :
  active_years tbl = i :: j :: l → ¬ at_most_one_active tbl.
Proof.
  intros Hl Hone. pose proof active_years_NoDup_keys as Hnd. rewrite Hl in Hnd.
  assert (i ∈ active_years tbl) as [Hi Hia]%active_years_elem by (rewrite Hl; left).
  assert (j ∈ active_years tbl) as [Hj Hja]%active_years_elem
    by (rewrite Hl; right; left).
  pose proof (Hone _ _ _ _ Hi Hj Hia Hja) as Heq.
  simpl in Hnd. apply NoDup_cons in Hnd as [Hnotin _]. apply Hnotin.
  rewrite Heq. left.
Qed.

Lemma active_years_short :
  (∀ i j l, active_years tbl ≠ i :: j :: l) → at_most_one_active tbl.
Proof.
  intros Hshort k1 k2 y1 y2 H1 H2 A1 A2.
  assert ((k1, y1) ∈ active_years tbl) as Hin1 by (by apply active_years_elem).
  assert ((k2, y2) ∈ active_years tbl) as Hin2 by (by apply active_years_elem).
  destruct (active_years tbl) as [|i [|j l]].
  - by apply elem_of_nil in Hin1.
  - apply list_elem_of_singleton in Hin1, Hin2. congruence.
  - by destruct (Hshort i j l).
Qed.

End Current.

(** X2: [current] answers 404 exactly when no year is active; it answers
    200 with a year exactly when that year is an active row and at most one
    year is active; it lets [MultipleObjectsReturned] through exactly when
    more than one year is active; it never lets [DoesNotExist] through. *)
Theorem current_outcomes (tbl : gmap uuid AcademicYear.t) :
  (AcademicYearActions.current tbl
     = inr (mkResponse (Detail "No active academic year found.") HTTP_404_NOT_FOUND)
   ↔ ∀ k y, tbl !! k = Some y → AcademicYear.is_active y = false)
  ∧ (∀ i, AcademicYearActions.current tbl = inr (mkResponse (Data i) HTTP_200_OK)
          ↔ tbl !! i.1 = Some i.2 ∧ AcademicYear.is_active i.2 = true
            ∧ at_most_one_active tbl)
  ∧ (AcademicYearActions.current tbl = inl MultipleObjectsReturned
     ↔ ¬ at_most_one_active tbl)
  ∧ AcademicYearActions.current tbl ≠ inl DoesNotExist.
Proof.
  rewrite current_active_years, <- active_years_nil.
  pose proof (active_years_two tbl) as Htwo.
  pose proof (active_years_short tbl) as Hshort.
  pose proof (active_years_elem tbl) as Helem.
  destruct (active_years tbl) as [|i [|j l]] eqn:Hl; simpl.
  - split; [done|]. split; [|split; [|done]].
    + intros i. split; [done|]. intros (Hi & Ha & _).
      assert (i ∈ []) as Hin by (by apply Helem). by apply elem_of_nil in Hin.
    + split; [done|]. intros Hno. destruct Hno. by apply Hshort.
  - split; [done|]. split; [|split; [|done]].
    + intros i'. split.
      * intros [= <-]. assert (i ∈ [i]) as [??]%Helem by left.
        split; [done|]. split; [done|]. by apply Hshort.
      * intros (Hi & Ha & _). assert (i' ∈ [i]) as ->%list_elem_of_singleton
          by (by apply Helem). done.
    + split; [done|]. intros Hno. destruct Hno. by apply Hshort.
  - split; [done|]. split; [|split; [|done]].
    + intros i'. split; [done|]. intros (_ & _ & Hone). by destruct (Htwo i j l).
    + split; [|done]. intros _. by apply (Htwo i j l).
Qed.

Section ActivateMore.

Variables (tbl : gmap uuid AcademicYear.t) (pk : uuid) (y : AcademicYear.t).
Hypothesis Hy : tbl !! pk = Some y.

Lemma activate_response :
  AcademicYearViewSet.activate tbl pk
    = (Ok (mkResponse (Data (pk, AcademicYear.set_is_active true y)) HTTP_200_OK),
       (AcademicYearViewSet.activate tbl pk).2).
Proof.
  unfold AcademicYearViewSet.activate, AcademicYearViewSet.get_object. by rewrite Hy.
Qed.

Lemma active_years_activate :
  active_years (AcademicYearViewSet.activate tbl pk).2
    = [(pk, AcademicYear.set_is_active true y)].
Proof.
  apply singleton_list; [apply active_years_NoDup|].
  intros [k z]. rewrite active_years_elem, (lookup_activate _ _ _ y Hy). simpl.
  case_decide as Hk.
  - subst k. split.
    + intros [Hz _]. by injection Hz as <-.
    + intros Hz. injection Hz as ->. done.
  - split.
    + destruct (tbl !! k); simpl; [|by intros [? _]]. intros [Hz Ha].
      injection Hz as <-. done.
    + intros Hz. injection Hz as -> _. done.
Qed.

End ActivateMore.

(** X3: after [activate] on an existing year, from any state of the table,
    [current] answers 200 with that year, its flag set. *)
Theorem current_after_activate (tbl : gmap uuid AcademicYear.t) (pk : uuid)
    (y : AcademicYear.t) :
  tbl !! pk = Some y →
  AcademicYearActions.current (AcademicYearViewSet.activate tbl pk).2
    = inr (mkResponse (Data (pk, AcademicYear.set_is_active true y)) HTTP_200_OK).
Proof.
  intros Hy. by rewrite current_active_years, (active_years_activate tbl pk y Hy).
Qed.

(** Year 2 activated over the two years of the scenario. *)
Lemma current_after_activate_witness :
  Scenario.years !! Scenario.Y2 = Some Scenario.year2
  ∧ AcademicYearActions.current (AcademicYearViewSet.activate Scenario.years Scenario.Y2).2
    = inr (mkResponse (Data (Scenario.Y2, AcademicYear.set_is_active true Scenario.year2))
                      HTTP_200_OK).
Proof.
  split; [reflexivity|].
  exact (current_after_activate Scenario.years Scenario.Y2 Scenario.year2 eq_refl).
Defined.

Lemma set_is_active_twice b b' y :
  AcademicYear.set_is_active b (AcademicYear.set_is_active b' y)
    = AcademicYear.set_is_active b y.
Proof. done. Qed.

(** X4: on an existing year, [activate] answers and leaves the table the
    same whether or not another activation came before it; with the same
    year twice, activating is idempotent. *)
Theorem activate_forgets_earlier_activations (tbl : gmap uuid AcademicYear.t)
    (earlier pk : uuid) :
  is_Some (tbl !! pk) →
  AcademicYearViewSet.activate (AcademicYearViewSet.activate tbl earlier).2 pk
    = AcademicYearViewSet.activate tbl pk.
Proof.
  intros [y Hy].
  destruct (tbl !! earlier) as [z|] eqn:Hz; cycle 1.
  { unfold AcademicYearViewSet.activate at 2, AcademicYearViewSet.get_object.
    by rewrite Hz. }
  set (tbl1 := (AcademicYearViewSet.activate tbl earlier).2).
  assert (∃ y1, tbl1 !! pk = Some y1
                ∧ AcademicYear.set_is_active true y1 = AcademicYear.set_is_active true y)
    as (y1 & Hy1 & Hset).
  { unfold tbl1. rewrite (lookup_activate _ _ _ z Hz). case_decide as Hk.
    - subst. rewrite Hz in Hy. injection Hy as ->. by eexists.
    - rewrite Hy. by eexists. }
  rewrite (activate_response tbl1 pk y1 Hy1), (activate_response tbl pk y Hy), Hset.
  f_equal. apply map_eq. intros k.
  rewrite (lookup_activate tbl1 pk k y1 Hy1), (lookup_activate tbl pk k y Hy), Hset.
  case_decide; [done|]. unfold tbl1. rewrite (lookup_activate _ _ _ z Hz).
  case_decide; [subst; by rewrite Hz|]. by destruct (tbl !! k).
Qed.

(** Year 2 activated after year 1, and after itself. *)
Lemma activate_forgets_earlier_activations_witness :
  is_Some (Scenario.years !! Scenario.Y2)
  ∧ AcademicYearViewSet.activate
      (AcademicYearViewSet.activate Scenario.years Scenario.Y1).2 Scenario.Y2
    = AcademicYearViewSet.activate Scenario.years Scenario.Y2
  ∧ AcademicYearViewSet.activate
      (AcademicYearViewSet.activate Scenario.years Scenario.Y2).2 Scenario.Y2
    = AcademicYearViewSet.activate Scenario.years Scenario.Y2.
Proof.
  assert (Hsome : is_Some (Scenario.years !! Scenario.Y2)) by (by eexists).
  split; [exact Hsome|]. split.
  - exact (activate_forgets_earlier_activations Scenario.years Scenario.Y1 Scenario.Y2 Hsome).
  - exact (activate_forgets_earlier_activations Scenario.years Scenario.Y2 Scenario.Y2 Hsome).
Defined.

(** X5: destroying the year that was just activated answers 204, removes
    that row alone, the other rows being inactive, and [current] then
    answers 404: no year is made active in its place. *)
Theorem destroy_active_year_leaves_none (tbl : gmap uuid AcademicYear.t) (pk : uuid) :
  is_Some (tbl !! pk) →
  let activated := (AcademicYearViewSet.activate tbl pk).2 in
  AcademicYearViewSet.destroy activated pk
    = (Ok (mkResponse (Data ()) HTTP_204_NO_CONTENT), delete pk activated)
  ∧ (∀ k, k ≠ pk →
       delete pk activated !! k = AcademicYear.set_is_active false <$> tbl !! k)
  ∧ AcademicYearActions.current (AcademicYearViewSet.destroy activated pk).2
    = inr (mkResponse (Detail "No active academic year found.") HTTP_404_NOT_FOUND).
Proof.
  intros [y Hy] activated.
  assert (Hpk : activated !! pk = Some (AcademicYear.set_is_active true y)).
  { unfold activated. by rewrite (lookup_activate _ _ _ y Hy), decide_True. }
  assert (Hdestroy : AcademicYearViewSet.destroy activated pk
                     = (Ok (mkResponse (Data ()) HTTP_204_NO_CONTENT),
                        delete pk activated)).
  { unfold AcademicYearViewSet.destroy, AcademicYearViewSet.get_object.
    by rewrite Hpk. }
  assert (Hother : ∀ k, k ≠ pk →
            delete pk activated !! k = AcademicYear.set_is_active false <$> tbl !! k).
  { intros k Hk. rewrite lookup_delete_ne by done. unfold activated.
    by rewrite (lookup_activate _ _ _ y Hy), decide_False. }
  split; [exact Hdestroy|]. split; [exact Hother|].
  rewrite Hdestroy. simpl. rewrite current_active_years.
  rewrite (proj2 (active_years_nil (delete pk activated))); [done|].
  intros k z. destruct (decide (k = pk)) as [->|Hk].
  - by rewrite lookup_delete_eq.
  - rewrite (Hother k Hk). destruct (tbl !! k); [|done]. by intros [= <-].
Qed.

(** Year 1 activated and destroyed. *)
Lemma destroy_active_year_leaves_none_witness :
  is_Some (Scenario.years !! Scenario.Y1)
  ∧ AcademicYearActions.current
      (AcademicYearViewSet.destroy
         (AcademicYearViewSet.activate Scenario.years Scenario.Y1).2 Scenario.Y1).2
    = inr (mkResponse (Detail "No active academic year found.") HTTP_404_NOT_FOUND).
Proof.
  assert (Hsome : is_Some (Scenario.years !! Scenario.Y1)) by (by eexists).
  split; [exact Hsome|].
  exact (proj2 (proj2 (destroy_active_year_leaves_none Scenario.years Scenario.Y1 Hsome))).
Defined.

Lemma is_current_year_unfold today y :
  AcademicYear.is_current_year today y =
    if AcademicYear.is_active y then AcademicYear.is_date_in_range y today else Ok false.
Proof. unfold AcademicYear.is_current_year. by destruct (AcademicYear.is_active y). Qed.

Lemma is_date_in_range_true y d :
  AcademicYear.is_date_in_range y d = Ok true ↔ contains_date y d.
Proof.
  unfold AcademicYear.is_date_in_range, and_then, contains_date. split.
  - destruct (AcademicYear.start_date y) as [s|]; [|done]. simpl.
    rewrite ge_le_swap. destruct (le s d) eqn:Hs; [|done].
    destruct (AcademicYear.end_date y) as [e|]; [|done]. simpl.
    intros He. injection He as He. by exists s, e.
  - intros (s & e & -> & -> & Hs & He). simpl. by rewrite ge_le_swap, Hs, He.
Qed.

(** X6: [is_current_year] returns [True] exactly when the year is active and
    its range contains today; on an inactive year it returns [False] without
    comparing dates, so also when a date is [None]; on an active year it is
    [is_date_in_range] of today, with what that raises. *)
Theorem is_current_year_active_and_in_range (today : date) (y : AcademicYear.t) :
  (AcademicYear.is_current_year today y = Ok true
   ↔ AcademicYear.is_active y = true ∧ contains_date y today)
  ∧ (AcademicYear.is_active y = false →
     AcademicYear.is_current_year today y = Ok false)
  ∧ (AcademicYear.is_active y = true →
     AcademicYear.is_current_year today y = AcademicYear.is_date_in_range y today).
Proof.
  rewrite is_current_year_unfold, <- is_date_in_range_true.
  destruct (AcademicYear.is_active y); (split; [|split]); try done.
  - split; [done|]. by intros [_ ?].
  - split; [done|]. by intros [? _].
Qed.

Section ForDateMore.

Variable fromisoformat : string → option date.

Lemma for_date_parsed (tbl : gmap uuid AcademicYear.t) (s : string) (d : date) :
  s ≠ "" → fromisoformat s = Some d → not_null tbl →
  AcademicYearViewSet.for_date fromisoformat tbl (Some s) =
    Ok (match filter (λ i, in_range_b d i = true) (AcademicYearViewSet.objects_all tbl) with
        | [] => mkResponse (Detail ("No academic year found for date " +:+ s +:+ "."))
                           HTTP_404_NOT_FOUND
        | ys => mkResponse (Data ys) HTTP_200_OK
        end).
Proof.
  intros Hs Hd Hnn. unfold AcademicYearViewSet.for_date. simpl.
  case_decide; [done|]. simpl. rewrite Hd.
  rewrite (comprehension_total _ (in_range_b d)).
  - simpl. by destruct (filter _ _).
  - intros [pk y] Hy. apply elem_of_map_to_list in Hy.
    destruct (Hnn pk y Hy) as [[s' Hs'] [e' He']]. simpl in *.
    unfold in_range_b. simpl. rewrite Hs', He'.
    by apply is_date_in_range_stored.
Qed.

End ForDateMore.

(** X7: a stored year for which [is_current_year] holds today is among the
    years [for_date] answers, with 200, for today's date. *)
Theorem current_year_is_listed_for_today (fromisoformat : string → option date)
    (tbl : gmap uuid AcademicYear.t) (pk : uuid) (y : AcademicYear.t)
    (s : string) (today : date) :
  s ≠ "" → fromisoformat s = Some today → not_null tbl →
  tbl !! pk = Some y →
  AcademicYear.is_current_year today y = Ok true →
  ∃ ys, AcademicYearViewSet.for_date fromisoformat tbl (Some s)
          = Ok (mkResponse (Data ys) HTTP_200_OK)
        ∧ (pk, y) ∈ ys.
Proof.
  intros Hs Hd Hnn Hy Hcur.
  rewrite (for_date_parsed fromisoformat tbl s today Hs Hd Hnn).
  assert ((pk, y) ∈ filter (λ i, in_range_b today i = true)
                           (AcademicYearViewSet.objects_all tbl)) as Hin.
  { apply list_elem_of_filter. split.
    - apply in_range_b_spec. simpl. apply is_date_in_range_true.
      rewrite is_current_year_unfold in Hcur.
      by destruct (AcademicYear.is_active y).
    - by apply elem_of_map_to_list. }
  destruct (filter _ _) as [|i l] eqn:Hf.
  - by apply elem_of_nil in Hin.
  - by eexists.
Qed.

(** Year 1 of the scenario on 2024-01-15. *)
Lemma current_year_is_listed_for_today_witness :
  "2024-01-15" ≠ ""
  ∧ Scenario.fromisoformat "2024-01-15" = Some (mkdate 2024 1 15)
  ∧ AcademicYear.is_current_year (mkdate 2024 1 15) Scenario.year1 = Ok true
  ∧ ∃ ys, AcademicYearViewSet.for_date Scenario.fromisoformat Scenario.years
            (Some "2024-01-15") = Ok (mkResponse (Data ys) HTTP_200_OK)
          ∧ (Scenario.Y1, Scenario.year1) ∈ ys.
Proof.
  assert (Hnn : not_null Scenario.years).
  { unfold not_null, Scenario.years.
    repeat (apply map_Forall_insert_2; [split; by eexists|]).
    apply map_Forall_empty. }
  split; [done|]. split; [reflexivity|]. split; [reflexivity|].
  apply (current_year_is_listed_for_today Scenario.fromisoformat Scenario.years
           Scenario.Y1 Scenario.year1 "2024-01-15" (mkdate 2024 1 15));
    [done|reflexivity|exact Hnn|reflexivity|reflexivity].
Defined.

(** ** Courses: the listings *)

Section Relations.

Variable d : Course.db.

Lemma elem_of_required_for_all (self : uuid) (c : Course.instance) :
  c ∈ CourseActions.required_for_all d self ↔
    Course.rows d !! c.1 = Some c.2 ∧ (c.1, self) ∈ Course.through d.
Proof.
  unfold CourseActions.required_for_all, Course.objects_all.
  rewrite list_elem_of_filter. destruct c as [k r]. simpl.
  rewrite elem_of_map_to_list. tauto.
Qed.

Lemma prerequisites_unfiltered pk row :
  Course.rows d !! pk = Some row →
  CourseActions.prerequisites d pk None
    = Ok (mkResponse (Data (Course.prerequisites_all d pk)) HTTP_200_OK).
Proof.
  intros Hpk. unfold CourseActions.prerequisites, CourseViewSet.get_object.
  by rewrite Hpk.
Qed.

Lemma required_for_unfiltered pk row :
  Course.rows d !! pk = Some row →
  CourseActions.required_for d pk None
    = Ok (mkResponse (Data (CourseActions.required_for_all d pk)) HTTP_200_OK).
Proof.
  intros Hpk. unfold CourseActions.required_for, CourseViewSet.get_object.
  by rewrite Hpk.
Qed.

End Relations.

(** X8: for existing courses [c] and [p], the unfiltered [prerequisites] of
    [c] lists [p] exactly when the unfiltered [required_for] of [p] lists
    [c], which is when the through table holds the row [(c, p)]. *)
Theorem prerequisites_and_required_for_are_converse (d : Course.db) (c p : uuid)
    (course prerequisite : Course.t) :
  Course.rows d !! c = Some course →
  Course.rows d !! p = Some prerequisite →
  ∃ listed dependents,
    CourseActions.prerequisites d c None = Ok (mkResponse (Data listed) HTTP_200_OK)
    ∧ CourseActions.required_for d p None = Ok (mkResponse (Data dependents) HTTP_200_OK)
    ∧ ((p, prerequisite) ∈ listed ↔ (c, course) ∈ dependents)
    ∧ ((p, prerequisite) ∈ listed ↔ requires d c p).
Proof.
  intros Hc Hp. eexists _, _.
  split; [by apply prerequisites_unfiltered with course|].
  split; [by apply required_for_unfiltered with prerequisite|].
  rewrite elem_of_prerequisites_all, elem_of_required_for_all. unfold requires. simpl.
  tauto.
Qed.

(** B requires A in the scenario. *)
Lemma prerequisites_and_required_for_are_converse_witness :
  Course.rows Scenario.abc !! Scenario.B = Some Scenario.course_B
  ∧ Course.rows Scenario.abc !! Scenario.A = Some Scenario.course_A
  ∧ ∃ listed dependents,
      CourseActions.prerequisites Scenario.abc Scenario.B None
        = Ok (mkResponse (Data listed) HTTP_200_OK)
      ∧ CourseActions.required_for Scenario.abc Scenario.A None
        = Ok (mkResponse (Data dependents) HTTP_200_OK)
      ∧ ((Scenario.A, Scenario.course_A) ∈ listed
         ↔ (Scenario.B, Scenario.course_B) ∈ dependents)
      ∧ ((Scenario.A, Scenario.course_A) ∈ listed
         ↔ requires Scenario.abc Scenario.B Scenario.A).
Proof.
  split; [reflexivity|]. split; [reflexivity|].
  exact (prerequisites_and_required_for_are_converse Scenario.abc Scenario.B Scenario.A
           Scenario.course_B Scenario.course_A eq_refl eq_refl).
Defined.

Lemma elem_of_filter_is_active b (q : list Course.instance) c :
  c ∈ CourseActions.filter_is_active b q ↔ c ∈ q ∧ Course.is_active c.2 = b.
Proof. unfold CourseActions.filter_is_active. rewrite list_elem_of_filter. tauto. Qed.

(** X9: with an [active_only] parameter that reads "true" in any letter case,
    [prerequisites] and [required_for] list the active courses of the
    unfiltered listing and no other; with any other value of the parameter
    the listing is the unfiltered one. *)
Theorem active_only_keeps_the_active_courses (d : Course.db) (pk : uuid)
    (row : Course.t) (active_only : string) :
  Course.rows d !! pk = Some row →
  ∃ listed dependents,
    CourseActions.prerequisites d pk (Some active_only)
      = Ok (mkResponse (Data listed) HTTP_200_OK)
    ∧ CourseActions.required_for d pk (Some active_only)
      = Ok (mkResponse (Data dependents) HTTP_200_OK)
    ∧ if says_true active_only then
        (∀ c, c ∈ listed ↔ c ∈ Course.prerequisites_all d pk ∧ Course.is_active c.2 = true)
        ∧ (∀ c, c ∈ dependents ↔
                c ∈ CourseActions.required_for_all d pk ∧ Course.is_active c.2 = true)
      else listed = Course.prerequisites_all d pk
           ∧ dependents = CourseActions.required_for_all d pk.
Proof.
  intros Hpk.
  unfold CourseActions.prerequisites, CourseActions.required_for,
    CourseViewSet.get_object, CourseActions.active_only_set, truthy, falsy.
  rewrite Hpk. simpl. eexists _, _. split; [done|]. split; [done|].
  destruct (says_true active_only) eqn:Htrue.
  - case_decide as Hempty; [by subst|]. simpl.
    split; intros c; apply elem_of_filter_is_active.
  - by rewrite andb_false_r.
Qed.

(** The parameter written in capitals. *)
Lemma active_only_keeps_the_active_courses_witness :
  Course.rows Scenario.abc !! Scenario.C = Some Scenario.course_C
  ∧ ∃ listed dependents,
      CourseActions.prerequisites Scenario.abc Scenario.C (Some "TRUE")
        = Ok (mkResponse (Data listed) HTTP_200_OK)
      ∧ CourseActions.required_for Scenario.abc Scenario.C (Some "TRUE")
        = Ok (mkResponse (Data dependents) HTTP_200_OK)
      ∧ if says_true "TRUE" then
          (∀ c, c ∈ listed ↔
                c ∈ Course.prerequisites_all Scenario.abc Scenario.C
                ∧ Course.is_active c.2 = true)
          ∧ (∀ c, c ∈ dependents ↔
                  c ∈ CourseActions.required_for_all Scenario.abc Scenario.C
                  ∧ Course.is_active c.2 = true)
        else listed = Course.prerequisites_all Scenario.abc Scenario.C
             ∧ dependents = CourseActions.required_for_all Scenario.abc Scenario.C.
Proof.
  split; [reflexivity|].
  exact (active_only_keeps_the_active_courses Scenario.abc Scenario.C Scenario.course_C
           "TRUE" eq_refl).
Defined.



(** ** Courses: what the two requests change *)

Lemma db_eta (d : Course.db) : Course.mkdb (Course.rows d) (Course.through d) = d.
Proof. by destruct d. Qed.

Lemma remove_prerequisite_resolved (d : Course.db) (c p : uuid) (course prerequisite : Course.t) :
  Course.rows d !! c = Some course →
  Course.rows d !! p = Some prerequisite →
  CourseViewSet.remove_prerequisite d c (Uuid p) =
    if bool_decide ((c, p) ∈ Course.through d) then
      (Ok (mkResponse (Detail ("Removed " +:+ Course.code prerequisite
                               +:+ " as a prerequisite for " +:+ Course.code course))
                      HTTP_200_OK),
       Course.prerequisites_remove d c p)
    else
      (Ok (mkResponse (Detail (Course.code prerequisite +:+ " is not a prerequisite for "
                               +:+ Course.code course))
                      HTTP_400_BAD_REQUEST), d).
Proof.
  intros Hc Hp.
  unfold CourseViewSet.remove_prerequisite, CourseViewSet.get_object,
    CourseViewSet.objects_get_value, not_, CourseViewSet.objects_get.
  rewrite Hc, Hp. cbn [fmap option_fmap option_map fst snd].
  rewrite (exists_prerequisites_filter_pk_decide d c p (mk_is_Some _ _ Hp)).
  by case_bool_decide.
Qed.

(** X12: for two different existing courses with no edge between them,
    [add_prerequisite] answers 200 and stores the edge, and
    [remove_prerequisite] on the result answers 200 and gives back the
    tables as they were. *)
Theorem add_then_remove_restores (d : Course.db) (c p : uuid)
    (course prerequisite : Course.t) :
  Course.rows d !! c = Some course →
  Course.rows d !! p = Some prerequisite →
  c ≠ p → (p, c) ∉ Course.through d → (c, p) ∉ Course.through d →
  ∃ added,
    CourseViewSet.add_prerequisite d c (Uuid p)
      = (Ok (mkResponse (Detail ("Added " +:+ Course.code prerequisite
                                 +:+ " as a prerequisite for " +:+ Course.code course))
                        HTTP_200_OK), added)
    ∧ requires added c p
    ∧ CourseViewSet.remove_prerequisite added c (Uuid p)
      = (Ok (mkResponse (Detail ("Removed " +:+ Course.code prerequisite
                                 +:+ " as a prerequisite for " +:+ Course.code course))
                        HTTP_200_OK), d).
Proof.
  intros Hc Hp Hne Hback Hnew. exists (Course.prerequisites_add d c p).
  rewrite (add_prerequisite_resolved d c p course prerequisite Hc Hp).
  rewrite bool_decide_eq_false_2, bool_decide_eq_false_2 by done.
  split; [done|].
  assert (Hin : requires (Course.prerequisites_add d c p) c p).
  { unfold requires. simpl. set_solver. }
  split; [exact Hin|].
  rewrite (remove_prerequisite_resolved (Course.prerequisites_add d c p) c p
             course prerequisite Hc Hp).
  rewrite bool_decide_eq_true_2 by exact Hin. f_equal.
  rewrite <- (db_eta d) at 2. unfold Course.prerequisites_remove. simpl. f_equal.
  apply set_eq. intros e. rewrite elem_of_difference, elem_of_union, elem_of_singleton.
  split; [by intros [[?|?] ?]|]. intros He. split; [by right|]. by intros ->.
Qed.

(** A requires C, added and removed again. *)
Lemma add_then_remove_restores_witness :
  Scenario.A ≠ Scenario.C
  ∧ CourseViewSet.remove_prerequisite
      (CourseViewSet.add_prerequisite Scenario.abc Scenario.A (Uuid Scenario.C)).2
      Scenario.A (Uuid Scenario.C)
    = (Ok (mkResponse (Detail "Removed CS301 as a prerequisite for CS101") HTTP_200_OK),
       Scenario.abc).
Proof.
  assert (Hne : Scenario.A ≠ Scenario.C) by done.
  assert (Hback : (Scenario.C, Scenario.A) ∉ Course.through Scenario.abc).
  { simpl. by intros [[=]%elem_of_singleton|[=]%elem_of_singleton]%elem_of_union. }
  assert (Hnew : (Scenario.A, Scenario.C) ∉ Course.through Scenario.abc).
  { simpl. by intros [[=]%elem_of_singleton|[=]%elem_of_singleton]%elem_of_union. }
  split; [exact Hne|].
  destruct (add_then_remove_restores Scenario.abc Scenario.A Scenario.C
              Scenario.course_A Scenario.course_C eq_refl eq_refl Hne Hback Hnew)
    as (added & Hadd & _ & Hremove).
  rewrite Hadd. exact Hremove.
Defined.



Section Mutations.

Variables (d : Course.db) (pk : uuid) (request : request_value).

(** What [add_prerequisite] can leave behind: the tables as they were, or
    with one row more in the through table, and then the answer was 200 and
    neither the self-reference nor the direct edge back was there. *)
Lemma add_prerequisite_cases :
  (CourseViewSet.add_prerequisite d pk request).2 = d
  ∨ ∃ p, request = Uuid p ∧ pk ≠ p ∧ ((p, pk) ∉ Course.through d)
         ∧ http_status (CourseViewSet.add_prerequisite d pk request).1 = HTTP_200_OK
         ∧ (CourseViewSet.add_prerequisite d pk request).2
           = Course.prerequisites_add d pk p.
Proof.
  unfold CourseViewSet.add_prerequisite, CourseViewSet.get_object,
    CourseViewSet.objects_get_value, not_, CourseViewSet.objects_get.
  destruct (Course.rows d !! pk) as [course|] eqn:Hpk; [|by left].
  destruct request as [|p|s]; [by left| |by case_bool_decide; left]. simpl.
  destruct (Course.rows d !! p) as [prerequisite|] eqn:Hp; simpl; [|by left].
  case_bool_decide as Hne; [by left|].
  rewrite (exists_prerequisites_filter_pk_decide d p pk (mk_is_Some _ _ Hpk)).
  case_bool_decide as Hback; [by left|]. right. by exists p.
Qed.

Lemma add_prerequisite_failure :
  http_status (CourseViewSet.add_prerequisite d pk request).1 ≠ HTTP_200_OK →
  (CourseViewSet.add_prerequisite d pk request).2 = d.
Proof. destruct add_prerequisite_cases as [?|(p & _ & _ & _ & ? & _)]; done. Qed.

Lemma remove_prerequisite_cases :
  (CourseViewSet.remove_prerequisite d pk request).2 = d
  ∨ ∃ p, request = Uuid p
         ∧ http_status (CourseViewSet.remove_prerequisite d pk request).1 = HTTP_200_OK
         ∧ (CourseViewSet.remove_prerequisite d pk request).2
           = Course.prerequisites_remove d pk p.
Proof.
  unfold CourseViewSet.remove_prerequisite, CourseViewSet.get_object,
    CourseViewSet.objects_get_value, not_, CourseViewSet.objects_get.
  destruct (Course.rows d !! pk) as [course|] eqn:Hpk; [|by left].
  destruct request as [|p|s]; [by left| |by case_bool_decide; left]. simpl.
  destruct (Course.rows d !! p) as [prerequisite|] eqn:Hp; simpl; [|by left].
  destruct (Course.exists_ _); simpl; [|by left]. right. by exists p.
Qed.

End Mutations.

(** X14: if no course requires itself and no two courses require each
    other, that is still so after any [add_prerequisite] and any
    [remove_prerequisite] request, accepted or not. *)
Theorem no_direct_cycle_is_kept (d : Course.db) (pk : uuid) (request : request_value) :
  no_direct_cycle d →
  no_direct_cycle (CourseViewSet.add_prerequisite d pk request).2
  ∧ no_direct_cycle (CourseViewSet.remove_prerequisite d pk request).2.
Proof.
  intros Hinv. split.
  - destruct (add_prerequisite_cases d pk request)
      as [->|(p & _ & Hne & Hback & _ & ->)]; [done|].
    intros a b. simpl. rewrite !elem_of_union, !elem_of_singleton.
    intros [[= -> ->]|Hab].
    + split; [done|]. intros [[= ? ?]|?]; [by subst|done].
    + destruct (Hinv a b Hab) as [Hab1 Hab2]. split; [done|].
      intros [[= -> ->]|?]; done.
  - destruct (remove_prerequisite_cases d pk request) as [->|(p & _ & _ & ->)]; [done|].
    intros a b. simpl. rewrite !elem_of_difference.
    intros [Hab _]. destruct (Hinv a b Hab) as [Hab1 Hab2]. split; [done|].
    by intros [? _].
Qed.

(** The scenario, and the request that A requires C. *)
Lemma no_direct_cycle_is_kept_witness :
  no_direct_cycle Scenario.abc
  ∧ no_direct_cycle
      (CourseViewSet.add_prerequisite Scenario.abc Scenario.A (Uuid Scenario.C)).2
  ∧ no_direct_cycle
      (CourseViewSet.remove_prerequisite Scenario.abc Scenario.A (Uuid Scenario.C)).2.
Proof.
  assert (Hinv : no_direct_cycle Scenario.abc).
  { intros a b. simpl. rewrite !elem_of_union, !elem_of_singleton.
    intros [[= -> ->]|[= -> ->]]; (split; [done|]); by intros [[=]|[=]]. }
  split; [exact Hinv|].
  exact (no_direct_cycle_is_kept Scenario.abc Scenario.A (Uuid Scenario.C) Hinv).
Defined.

(** X15: [add_prerequisite] and [remove_prerequisite] never change the
    course table; a request answered other than 200 changes nothing at all;
    one answered 200 adds to, or removes from, the through table the row of
    the course and the requested prerequisite and no other row. *)
Theorem prerequisite_requests_touch_one_edge (d : Course.db) (pk : uuid)
    (request : request_value) :
  let added := CourseViewSet.add_prerequisite d pk request in
  let removed := CourseViewSet.remove_prerequisite d pk request in
  Course.rows added.2 = Course.rows d
  ∧ Course.rows removed.2 = Course.rows d
  ∧ (http_status added.1 ≠ HTTP_200_OK → added.2 = d)
  ∧ (http_status removed.1 ≠ HTTP_200_OK → removed.2 = d)
  ∧ (∀ e, e ∈ Course.through added.2 ↔
          e ∈ Course.through d
          ∨ (http_status added.1 = HTTP_200_OK ∧ ∃ p, request = Uuid p ∧ e = (pk, p)))
  ∧ (∀ e, e ∈ Course.through removed.2 ↔
          e ∈ Course.through d
          ∧ ¬ (http_status removed.1 = HTTP_200_OK ∧ ∃ p, request = Uuid p ∧ e = (pk, p))).
Proof.
  cbn zeta.
  pose proof (add_prerequisite_cases d pk request) as Hadd.
  pose proof (remove_prerequisite_cases d pk request) as Hrem.
  split; [|split; [|split; [|split; [|split]]]].
  - by destruct Hadd as [->|(p & _ & _ & _ & _ & ->)].
  - by destruct Hrem as [->|(p & _ & _ & ->)].
  - apply add_prerequisite_failure.
  - by destruct Hrem as [?|(p & _ & ? & _)].
  - intros e. destruct Hadd as [Hsame|(p & -> & _ & _ & Hok & Hd')].
    + rewrite Hsame. split; [by left|]. intros [?|(Hok & p & -> & ->)]; [done|].
      revert Hok Hsame.
      unfold CourseViewSet.add_prerequisite, CourseViewSet.get_object,
        CourseViewSet.objects_get_value, not_, CourseViewSet.objects_get.
      destruct (Course.rows d !! pk) as [course|] eqn:Hpk; [|done]. simpl.
      destruct (Course.rows d !! p) as [prerequisite|] eqn:Hp; simpl; [|done].
      case_bool_decide; [done|]. destruct (Course.exists_ _); [done|].
      simpl. intros _ Hsame. rewrite <- Hsame. simpl.
      by apply elem_of_union_l, elem_of_singleton.
    + rewrite Hd'. simpl. rewrite elem_of_union, elem_of_singleton. split.
      * intros [->|?]; [right|by left]. split; [done|]. by exists p.
      * intros [?|(_ & p' & [= <-] & ->)]; [by right|by left].
  - intros e. destruct Hrem as [Hsame|(p & -> & Hok & Hd')].
    + rewrite Hsame. split; [|by intros [? _]]. intros He. split; [done|].
      intros (Hok & p & -> & ->). revert Hok Hsame.
      unfold CourseViewSet.remove_prerequisite, CourseViewSet.get_object,
        CourseViewSet.objects_get_value, not_, CourseViewSet.objects_get.
      destruct (Course.rows d !! pk) as [course|] eqn:Hpk; [|done]. simpl.
      destruct (Course.rows d !! p) as [prerequisite|] eqn:Hp; simpl; [|done].
      destruct (Course.exists_ _); simpl; [|done].
      intros _ Hsame. rewrite <- Hsame in He. simpl in He.
      apply elem_of_difference in He as [_ He]. by apply He, elem_of_singleton.
    + rewrite Hd'. simpl. rewrite elem_of_difference, elem_of_singleton. split.
      * intros [? Hne]. split; [done|]. intros (_ & p' & [= <-] & ->). done.
      * intros [? Hno]. split; [done|]. intros ->. apply Hno. split; [done|].
        by exists p.
Qed.

(** ** Courses: counting prerequisites *)

Section Counting.

Variable d : Course.db.






Lemma has_prerequisites_count c :
  Course.has_prerequisites d c = negb (Nat.eqb (Course.get_prerequisite_count d c) 0).
Proof.
  unfold Course.has_prerequisites, Course.get_prerequisite_count.
  by destruct (Course.prerequisites_all d c).
Qed.

End Counting.




Section CountAfter.

Variables (d : Course.db) (c p : uuid) (prerequisite : Course.t).
Hypothesis Hp : Course.rows d !! p = Some prerequisite.

Lemma prerequisites_all_add_new :
  (c, p) ∉ Course.through d →
  Course.prerequisites_all (Course.prerequisites_add d c p) c
    ≡ₚ (p, prerequisite) :: Course.prerequisites_all d c.
Proof.
  intros Hnew. apply NoDup_Permutation.
  - apply NoDup_filter, NoDup_map_to_list.
  - apply NoDup_cons. split.
    + intros [_ ?]%elem_of_prerequisites_all. done.
    + apply NoDup_filter, NoDup_map_to_list.
  - intros [k r]. rewrite elem_of_cons, !elem_of_prerequisites_all. simpl.
    rewrite elem_of_union, elem_of_singleton. split.
    + intros [Hk [[= ->]|?]]; [left|by right]. rewrite Hp in Hk. by injection Hk as ->.
    + intros [[= -> ->]|[? ?]]; [split; [done|by left]|split; [done|by right]].
Qed.

Lemma prerequisites_all_remove_old :
  (c, p) ∈ Course.through d →
  Course.prerequisites_all d c
    ≡ₚ (p, prerequisite) :: Course.prerequisites_all (Course.prerequisites_remove d c p) c.
Proof.
  intros Hold. apply NoDup_Permutation.
  - apply NoDup_filter, NoDup_map_to_list.
  - apply NoDup_cons. split.
    + intros [_ [_ Hne]%elem_of_difference]%elem_of_prerequisites_all.
      by apply Hne, elem_of_singleton.
    + apply NoDup_filter, NoDup_map_to_list.
  - intros [k r]. rewrite elem_of_cons, !elem_of_prerequisites_all. simpl.
    rewrite elem_of_difference, elem_of_singleton. split.
    + intros [Hk Hin]. destruct (decide (k = p)) as [->|Hne].
      * left. rewrite Hp in Hk. by injection Hk as ->.
      * right. split; [done|]. split; [done|]. by intros [= ?].
    + intros [[= -> ->]|[? [? _]]]; done.
Qed.

End CountAfter.

(** X16: after an accepted [add_prerequisite] the course has prerequisites
    and its [get_prerequisite_count] is one more than before, or the same
    when it had that prerequisite already; after an accepted
    [remove_prerequisite] the count is one less. *)
Theorem prerequisite_count_follows_the_edges (d : Course.db) (c p : uuid)
    (course prerequisite : Course.t) :
  Course.rows d !! c = Some course →
  Course.rows d !! p = Some prerequisite →
  (http_status (CourseViewSet.add_prerequisite d c (Uuid p)).1 = HTTP_200_OK →
     let added := (CourseViewSet.add_prerequisite d c (Uuid p)).2 in
     Course.has_prerequisites added c = true
     ∧ Course.get_prerequisite_count added c
       = if bool_decide ((c, p) ∈ Course.through d)
         then Course.get_prerequisite_count d c
         else S (Course.get_prerequisite_count d c))
  ∧ (http_status (CourseViewSet.remove_prerequisite d c (Uuid p)).1 = HTTP_200_OK →
       let removed := (CourseViewSet.remove_prerequisite d c (Uuid p)).2 in
       Course.get_prerequisite_count d c
         = S (Course.get_prerequisite_count removed c)).
Proof.
  intros Hc Hp. split.
  - rewrite (add_prerequisite_resolved d c p course prerequisite Hc Hp).
    case_bool_decide as Hne; [done|]. case_bool_decide as Hback; [done|].
    intros _. cbn zeta. simpl.
    assert (Hcount : Course.get_prerequisite_count (Course.prerequisites_add d c p) c
              = if bool_decide ((c, p) ∈ Course.through d)
                then Course.get_prerequisite_count d c
                else S (Course.get_prerequisite_count d c)).
    { case_bool_decide as Hold.
      - f_equal. rewrite <- (db_eta d) at 2. unfold Course.prerequisites_add. f_equal.
        apply set_eq. intros e. rewrite elem_of_union, elem_of_singleton.
        split; [by intros [->|?]|by right].
      - unfold Course.get_prerequisite_count.
        by rewrite (prerequisites_all_add_new d c p prerequisite Hp Hold). }
    split; [|exact Hcount].
    rewrite has_prerequisites_count, Hcount.
    case_bool_decide as Hold; [|done].
    assert ((p, prerequisite) ∈ Course.prerequisites_all d c) as Hin
      by (by apply elem_of_prerequisites_all).
    unfold Course.get_prerequisite_count.
    destruct (Course.prerequisites_all d c); [by apply elem_of_nil in Hin|done].
  - rewrite (remove_prerequisite_resolved d c p course prerequisite Hc Hp).
    case_bool_decide as Hold; [|done]. intros _. cbn zeta. simpl.
    unfold Course.get_prerequisite_count.
    by rewrite (prerequisites_all_remove_old d c p prerequisite Hp Hold).
Qed.

(** C gains A as a prerequisite, and loses B. *)
Lemma prerequisite_count_follows_the_edges_witness :
  http_status (CourseViewSet.add_prerequisite Scenario.abc Scenario.C (Uuid Scenario.A)).1
    = HTTP_200_OK
  ∧ Course.get_prerequisite_count
      (CourseViewSet.add_prerequisite Scenario.abc Scenario.C (Uuid Scenario.A)).2 Scenario.C
    = (if bool_decide ((Scenario.C, Scenario.A) ∈ Course.through Scenario.abc)
       then Course.get_prerequisite_count Scenario.abc Scenario.C
       else S (Course.get_prerequisite_count Scenario.abc Scenario.C))
  ∧ http_status (CourseViewSet.remove_prerequisite Scenario.abc Scenario.C (Uuid Scenario.B)).1
    = HTTP_200_OK
  ∧ Course.get_prerequisite_count Scenario.abc Scenario.C
    = S (Course.get_prerequisite_count
           (CourseViewSet.remove_prerequisite Scenario.abc Scenario.C (Uuid Scenario.B)).2
           Scenario.C).
Proof.
  assert (Hadd : http_status
            (CourseViewSet.add_prerequisite Scenario.abc Scenario.C (Uuid Scenario.A)).1
            = HTTP_200_OK) by (by vm_compute).
  assert (Hrem : http_status
            (CourseViewSet.remove_prerequisite Scenario.abc Scenario.C (Uuid Scenario.B)).1
            = HTTP_200_OK) by (by vm_compute).
  split; [exact Hadd|]. split.
  - exact (proj2 (proj1 (prerequisite_count_follows_the_edges Scenario.abc Scenario.C
                           Scenario.A Scenario.course_C Scenario.course_A eq_refl eq_refl)
                    Hadd)).
  - split; [exact Hrem|].
    exact (proj2 (prerequisite_count_follows_the_edges Scenario.abc Scenario.C
                    Scenario.B Scenario.course_C Scenario.course_B eq_refl eq_refl) Hrem).
Defined.

(** ** Courses: what the circular-reference check finds *)

Section DirectEdge.

Import CourseCreateUpdateSerializer.

Variables (d : Course.db) (course : Course.instance).
Hypothesis Hcourse : Course.rows d !! course.1 = Some course.2.

Lemma contains_requires (p : uuid) :
  Course.contains (Course.prerequisites_all d p) course.1 = true ↔ requires d p course.1.
Proof.
  rewrite contains_prerequisites_all. unfold requires. split; [by intros [_ ?]|].
  intros ?. split; [by eexists|done].
Qed.

Lemma check_top_level fuel (prerequisite : Course.instance) :
  _check_circular_reference (S (S fuel)) d course prerequisite None
    = Some (bool_decide ((prerequisite.1, course.1) ∈ Course.through d), {[ course.1 ]}).
Proof.
  rewrite check_unfold. cbn zeta. simpl.
  rewrite bool_decide_eq_false_2 by apply not_elem_of_empty.
  rewrite union_empty_r_L. do 2 f_equal. apply eq_true_iff_eq.
  by rewrite contains_requires, bool_decide_eq_true.
Qed.

Lemma first_circular_None fuel (ps : list Course.instance) :
  first_circular (S (S fuel)) d course ps = Some None
  ↔ ∀ p, p ∈ ps → ¬ requires d p.1 course.1.
Proof.
  unfold requires. induction ps as [|q ps IH].
  - split; [|done]. intros _ p Hp. by apply elem_of_nil in Hp.
  - cbn [first_circular]. rewrite check_top_level. case_bool_decide as Hq.
    + split; [done|]. intros Hall. destruct (Hall q); [by left|done].
    + rewrite IH. split.
      * intros Hall p [->|Hp]%elem_of_cons; [done|by apply Hall].
      * intros Hall p Hp. apply Hall. by right.
Qed.

Lemma first_circular_Some fuel (ps : list Course.instance) (p : Course.instance) :
  first_circular (S (S fuel)) d course ps = Some (Some p)
  ↔ ∃ before after, ps = before ++ p :: after
                    ∧ requires d p.1 course.1
                    ∧ ∀ q, q ∈ before → ¬ requires d q.1 course.1.
Proof.
  unfold requires. induction ps as [|q ps IH].
  - split; [done|]. intros ([|??] & ? & ? & _); done.
  - cbn [first_circular]. rewrite check_top_level. case_bool_decide as Hq.
    + split.
      * intros [= ->]. exists [], ps. split; [done|]. split; [done|].
        intros q Hin. by apply elem_of_nil in Hin.
      * intros ([|q' before] & after & Heq & Hp & Hbefore); simplify_eq/=; [done|].
        destruct (Hbefore q'); [by left|done].
    + rewrite IH. split.
      * intros (before & after & -> & Hp & Hbefore). exists (q :: before), after.
        split; [done|]. split; [done|].
        intros q' [->|Hin]%elem_of_cons; [done|by apply Hbefore].
      * intros ([|q' before] & after & Heq & Hp & Hbefore); simplify_eq/=; [done|].
        exists before, after. split; [done|]. split; [done|].
        intros q Hin. apply Hbefore. by right.
Qed.

End DirectEdge.

(** X17: called with no visited set on an existing course, with two levels
    of recursion or more, [_check_circular_reference] returns [True] exactly
    when the through table holds the row from the prerequisite to the
    course, and leaves only the course's key in the visited set. *)
Theorem check_finds_direct_edges_only (d : Course.db) (course prerequisite : Course.instance)
    (fuel : nat) :
  (2 ≤ fuel)%nat →
  Course.rows d !! course.1 = Some course.2 →
  ∃ found,
    CourseCreateUpdateSerializer._check_circular_reference fuel d course prerequisite None
      = Some (found, {[ course.1 ]})
    ∧ (found = true ↔ requires d prerequisite.1 course.1).
Proof.
  intros Hfuel Hcourse. destruct fuel as [|[|fuel]]; [lia|lia|].
  rewrite (check_top_level d course Hcourse). eexists. split; [done|].
  unfold requires. apply bool_decide_eq_true.
Qed.

(** C requires A through B, not directly: nothing is found. *)
Lemma check_finds_direct_edges_only_witness :
  (2 ≤ 5)%nat
  ∧ tc (requires Scenario.abc) Scenario.C Scenario.A
  ∧ ¬ requires Scenario.abc Scenario.C Scenario.A
  ∧ ∃ found,
      CourseCreateUpdateSerializer._check_circular_reference 5 Scenario.abc
        (Scenario.A, Scenario.course_A) (Scenario.C, Scenario.course_C) None
        = Some (found, {[ Scenario.A ]})
      ∧ (found = true ↔ requires Scenario.abc Scenario.C Scenario.A).
Proof.
  split; [lia|]. split; [exact abc_C_requires_A|]. split.
  - unfold requires. simpl.
    by intros [[=]%elem_of_singleton|[=]%elem_of_singleton]%elem_of_union.
  - apply (check_finds_direct_edges_only Scenario.abc (Scenario.A, Scenario.course_A)
             (Scenario.C, Scenario.course_C) 5); [lia|reflexivity].
Defined.

(** X18: on an update of an existing course, [validate] returns the data
    exactly when the course is not among the proposed prerequisites and none
    of them requires the course directly; otherwise it raises a
    [ValidationError], and when the course is not proposed the message names
    the code of the first proposed prerequisite that requires the course
    directly. *)
Theorem validate_outcomes (d : Course.db) (course : Course.instance)
    (data : CourseCreateUpdateSerializer.attrs) (proposed : list Course.instance)
    (fuel : nat) :
  (2 ≤ fuel)%nat →
  Course.rows d !! course.1 = Some course.2 →
  CourseCreateUpdateSerializer.prerequisites data = Some proposed →
  (CourseCreateUpdateSerializer.validate fuel d (Some course) data = Some (Ok data)
   ↔ (course.1 ∉ proposed.*1) ∧ ∀ p, p ∈ proposed → ¬ requires d p.1 course.1)
  ∧ (∀ before p after,
       proposed = before ++ p :: after →
       course.1 ∉ proposed.*1 →
       requires d p.1 course.1 →
       (∀ q, q ∈ before → ¬ requires d q.1 course.1) →
       CourseCreateUpdateSerializer.validate fuel d (Some course) data
         = Some (Raise (ValidationError ("Circular reference detected with course "
                                         +:+ Course.code p.2))))
  ∧ (CourseCreateUpdateSerializer.validate fuel d (Some course) data = Some (Ok data)
     ∨ ∃ msg, CourseCreateUpdateSerializer.validate fuel d (Some course) data
              = Some (Raise (ValidationError msg))).
Proof.
  intros Hfuel Hcourse Hdata. destruct fuel as [|[|fuel]]; [lia|lia|].
  unfold CourseCreateUpdateSerializer.validate. rewrite Hdata.
  unfold Course.contains.
  pose proof (first_circular_None d course Hcourse fuel proposed) as Hnone.
  pose proof (first_circular_Some d course Hcourse fuel proposed) as Hsome.
  case_bool_decide as Hself.
  { split; [|split].
    - split; [done|]. by intros [? _].
    - intros. done.
    - right. by eexists. }
  destruct (CourseCreateUpdateSerializer.first_circular _ _ _ _) as [[p|]|] eqn:Hfirst.
  - split; [|split].
    + split; [done|]. intros [_ Hall]. apply Hnone in Hall. done.
    + intros before p' after Heq _ Hp Hbefore.
      assert (Some (Some p) = Some (Some p')) as [= ->]; [|done].
      apply Hsome. by exists before, after.
    + right. by eexists.
  - split; [|split].
    + split; [|done]. intros _. split; [done|]. by apply Hnone.
    + intros before p' after Heq _ Hp Hbefore.
      assert (Some None = Some (Some p')) as [=]. apply Hsome. by exists before, after.
    + by left.
  - destruct (first_circular_total d fuel course proposed) as [x Hx]. congruence.
Qed.

(** A proposed with C and B: B requires A, and is the one named. *)
Lemma validate_outcomes_witness :
  (2 ≤ 2)%nat
  ∧ CourseCreateUpdateSerializer.validate 2 Scenario.abc
      (Some (Scenario.A, Scenario.course_A))
      (Scenario.only_prerequisites [(Scenario.C, Scenario.course_C);
                                    (Scenario.B, Scenario.course_B)])
    = Some (Raise (ValidationError "Circular reference detected with course CS201")).
Proof.
  split; [lia|].
  refine (proj1 (proj2 (validate_outcomes Scenario.abc (Scenario.A, Scenario.course_A)
            (Scenario.only_prerequisites [(Scenario.C, Scenario.course_C);
                                          (Scenario.B, Scenario.course_B)])
            [(Scenario.C, Scenario.course_C); (Scenario.B, Scenario.course_B)] 2
            _ eq_refl eq_refl))
          [(Scenario.C, Scenario.course_C)] (Scenario.B, Scenario.course_B) [] eq_refl _ _ _).
  - lia.
  - simpl. intros [[=]|[[=]|[]%elem_of_nil]%elem_of_cons]%elem_of_cons.
  - unfold requires. simpl. apply elem_of_union_l. by apply elem_of_singleton.
  - intros q ->%list_elem_of_singleton. unfold requires. simpl.
    by intros [[=]%elem_of_singleton|[=]%elem_of_singleton]%elem_of_union.
Defined.

(** X19: for existing courses, [add_prerequisite] answers 200 exactly when
    the serializer's [validate] accepts that prerequisite alone for the
    course: when the two courses differ and the prerequisite does not
    require the course directly. *)
Theorem view_and_serializer_accept_the_same_edges (d : Course.db) (c p : uuid)
    (course prerequisite : Course.t) (data : CourseCreateUpdateSerializer.attrs) :
  Course.rows d !! c = Some course →
  Course.rows d !! p = Some prerequisite →
  CourseCreateUpdateSerializer.prerequisites data = Some [(p, prerequisite)] →
  (http_status (CourseViewSet.add_prerequisite d c (Uuid p)).1 = HTTP_200_OK
   ↔ CourseCreateUpdateSerializer.validate 2 d (Some (c, course)) data = Some (Ok data))
  ∧ (http_status (CourseViewSet.add_prerequisite d c (Uuid p)).1 = HTTP_200_OK
     ↔ c ≠ p ∧ ¬ requires d p c).
Proof.
  intros Hc Hp Hdata.
  assert (Hview : http_status (CourseViewSet.add_prerequisite d c (Uuid p)).1 = HTTP_200_OK
                  ↔ c ≠ p ∧ ¬ requires d p c).
  { rewrite (add_prerequisite_resolved d c p course prerequisite Hc Hp).
    unfold requires. case_bool_decide; [split; [done|by intros [? _]]|].
    case_bool_decide; [split; [done|by intros [_ ?]]|]. done. }
  split; [|exact Hview]. rewrite Hview.
  unfold CourseCreateUpdateSerializer.validate. rewrite Hdata.
  unfold Course.contains. cbn [fmap list_fmap fst snd].
  case_bool_decide as Hself.
  { apply list_elem_of_singleton in Hself. split; [by intros [? _]|done]. }
  cbn [CourseCreateUpdateSerializer.first_circular].
  rewrite (check_top_level d (c, course) Hc 0 (p, prerequisite)). simpl.
  unfold requires. case_bool_decide as Hback.
  - split; [by intros [_ ?]|done].
  - split; [done|]. intros _. split; [|done]. intros ->. apply Hself. by left.
Qed.

(** A asked to require B, which requires A. *)
Lemma view_and_serializer_accept_the_same_edges_witness :
  (http_status (CourseViewSet.add_prerequisite Scenario.abc Scenario.A (Uuid Scenario.B)).1
     = HTTP_200_OK
   ↔ CourseCreateUpdateSerializer.validate 2 Scenario.abc
       (Some (Scenario.A, Scenario.course_A))
       (Scenario.only_prerequisites [(Scenario.B, Scenario.course_B)])
     = Some (Ok (Scenario.only_prerequisites [(Scenario.B, Scenario.course_B)])))
  ∧ (http_status (CourseViewSet.add_prerequisite Scenario.abc Scenario.A (Uuid Scenario.B)).1
       = HTTP_200_OK
     ↔ Scenario.A ≠ Scenario.B ∧ ¬ requires Scenario.abc Scenario.B Scenario.A).
Proof.
  exact (view_and_serializer_accept_the_same_edges Scenario.abc Scenario.A Scenario.B
           Scenario.course_A Scenario.course_B
           (Scenario.only_prerequisites [(Scenario.B, Scenario.course_B)])
           eq_refl eq_refl eq_refl).
Defined.

(** ** Students: identification documents *)

Section Documents.

Variables (d : Student.db) (s : uuid).

Lemma elem_of_documents_all (doc : StudentDocument.instance) :
  doc ∈ Student.documents_all d s ↔
    Student.document_rows d !! doc.1 = Some doc.2 ∧ StudentDocument.student doc.2 = s.
Proof.
  unfold Student.documents_all. rewrite list_elem_of_filter. destruct doc as [k r].
  simpl. rewrite elem_of_map_to_list. tauto.
Qed.

Lemma documents_all_NoDup_keys : NoDup (Student.documents_all d s).*1.
Proof.
  unfold Student.documents_all.
  eapply sublist_NoDup; [apply (NoDup_fst_map_to_list (Student.document_rows d))|].
  apply fmap_sublist, sublist_filter.
Qed.

Lemma has_valid_identification_true :
  Student.has_valid_identification d s = true ↔
    ∃ doc, doc ∈ Student.documents_all d s ∧ StudentDocument.is_verified doc.2 = true.
Proof.
  unfold Student.has_valid_identification. rewrite exists_nonempty.
  split; intros [doc Hdoc]; exists doc; apply list_elem_of_filter in Hdoc || apply list_elem_of_filter;
    tauto.
Qed.

Lemma has_valid_identification_false :
  Student.has_valid_identification d s = false ↔
    ∀ doc, doc ∈ Student.documents_all d s → StudentDocument.is_verified doc.2 = false.
Proof.
  rewrite <- not_true_iff_false, has_valid_identification_true. split.
  - intros Hno doc Hdoc. destruct (StudentDocument.is_verified doc.2) eqn:Hv; [|done].
    destruct Hno. by exists doc.
  - intros Hall (doc & Hdoc & Hv). rewrite (Hall doc Hdoc) in Hv. done.
Qed.

(** Under the uniqueness constraint a verified document of a type is found
    or there is none: [get] never meets two. *)
Lemma documents_get_verified_unique (ty : string) :
  unique_together d →
  (∃ doc, Student.documents_get_verified d s ty = inr doc
          ∧ doc ∈ Student.documents_all d s
          ∧ StudentDocument.document_type doc.2 = ty
          ∧ StudentDocument.is_verified doc.2 = true)
  ∨ (Student.documents_get_verified d s ty = inl DoesNotExist
     ∧ ∀ doc, doc ∈ Student.documents_all d s →
              StudentDocument.document_type doc.2 = ty →
              StudentDocument.is_verified doc.2 = false).
Proof.
  intros Huniq. unfold Student.documents_get_verified.
  set (P := λ doc : StudentDocument.instance,
              StudentDocument.document_type doc.2 = ty
              ∧ StudentDocument.is_verified doc.2 = true).
  assert (Hin : ∀ doc, doc ∈ filter P (Student.documents_all d s) ↔
                       P doc ∧ doc ∈ Student.documents_all d s)
    by (intros; apply list_elem_of_filter).
  assert (Hnd : NoDup (filter P (Student.documents_all d s)).*1).
  { eapply sublist_NoDup; [apply documents_all_NoDup_keys|].
    apply fmap_sublist, sublist_filter. }
  destruct (filter P (Student.documents_all d s)) as [|doc1 [|doc2 l]].
  - right. split; [done|]. intros doc Hdoc Hty.
    destruct (StudentDocument.is_verified doc.2) eqn:Hv; [|done].
    assert (doc ∈ []) as Hnil by (by apply Hin). by apply elem_of_nil in Hnil.
  - left. exists doc1. assert (doc1 ∈ [doc1]) as [[? ?] ?]%Hin by left. done.
  - exfalso.
    assert (doc1 ∈ doc1 :: doc2 :: l) as [[T1 _] [R1 S1]%elem_of_documents_all]%Hin
      by left.
    assert (doc2 ∈ doc1 :: doc2 :: l) as [[T2 _] [R2 S2]%elem_of_documents_all]%Hin
      by (right; left).
    assert (doc1.1 = doc2.1) as Heq by (apply (Huniq _ _ _ _ R1 R2); congruence).
    simpl in Hnd. apply NoDup_cons in Hnd as [Hnotin _]. apply Hnotin.
    rewrite Heq. left.
Qed.

End Documents.

(** X20: when no student has two documents of one type and every type is
    one of the choices, [get_primary_document] raises nothing; it returns a
    document exactly when [has_valid_identification] holds; the document is
    a verified document of the student, it is the verified passport when
    there is one, and otherwise the verified ID card when there is one. *)
Theorem primary_document_is_the_best_verified_one (d : Student.db) (s : uuid) :
  unique_together d → document_types_valid d →
  ∃ primary,
    Student.get_primary_document d s = inr primary
    ∧ (Student.has_valid_identification d s = true ↔ is_Some primary)
    ∧ ∀ doc, primary = Some doc →
        doc ∈ Student.documents_all d s
        ∧ StudentDocument.is_verified doc.2 = true
        ∧ ∀ other, other ∈ Student.documents_all d s →
            StudentDocument.is_verified other.2 = true →
            (StudentDocument.document_type other.2 = DocumentType.PASSPORT →
             other = doc)
            ∧ (StudentDocument.document_type other.2 = DocumentType.ID_CARD →
               other = doc
               ∨ StudentDocument.document_type doc.2 = DocumentType.PASSPORT).
Proof.
  intros Huniq Hvalid.
  assert (Hsame : ∀ a b, a ∈ Student.documents_all d s → b ∈ Student.documents_all d s →
            StudentDocument.document_type a.2 = StudentDocument.document_type b.2 →
            a = b).
  { intros [ka ra] [kb rb] [Ha Sa]%elem_of_documents_all [Hb Sb]%elem_of_documents_all Hty.
    simpl in *. assert (ka = kb) as -> by (apply (Huniq _ _ _ _ Ha Hb); congruence).
    congruence. }
  assert (Htypes : ∀ doc, doc ∈ Student.documents_all d s →
            StudentDocument.document_type doc.2 = DocumentType.ID_CARD
            ∨ StudentDocument.document_type doc.2 = DocumentType.BIRTH_CERTIFICATE
            ∨ StudentDocument.document_type doc.2 = DocumentType.PASSPORT).
  { intros [k r] [Hk _]%elem_of_documents_all. simpl in *.
    pose proof (Hvalid k r Hk) as Hin. simpl in Hin.
    rewrite !elem_of_cons in Hin. destruct Hin as [?|[?|[?|[]%elem_of_nil]]]; auto. }
  unfold Student.get_primary_document.
  destruct (documents_get_verified_unique d s DocumentType.PASSPORT Huniq)
    as [(doc & -> & Hdoc & Hty & Hv)|[-> Hnop]].
  { exists (Some doc). split; [done|]. split.
    - split; [by eexists|]. intros _. apply has_valid_identification_true. by exists doc.
    - intros ? [= <-]. split; [done|]. split; [done|]. intros other Hother Hov. split.
      + intros Hpass. apply Hsame; [done|done|congruence].
      + intros _. by right. }
  destruct (documents_get_verified_unique d s DocumentType.ID_CARD Huniq)
    as [(doc & -> & Hdoc & Hty & Hv)|[-> Hnoid]].
  { exists (Some doc). split; [done|]. split.
    - split; [by eexists|]. intros _. apply has_valid_identification_true. by exists doc.
    - intros ? [= <-]. split; [done|]. split; [done|]. intros other Hother Hov. split.
      + intros Hpass. rewrite (Hnop other Hother Hpass) in Hov. done.
      + intros Hid. left. apply Hsame; [done|done|congruence]. }
  destruct (documents_get_verified_unique d s DocumentType.BIRTH_CERTIFICATE Huniq)
    as [(doc & -> & Hdoc & Hty & Hv)|[-> Hnobc]].
  { exists (Some doc). split; [done|]. split.
    - split; [by eexists|]. intros _. apply has_valid_identification_true. by exists doc.
    - intros ? [= <-]. split; [done|]. split; [done|]. intros other Hother Hov. split.
      + intros Hpass. rewrite (Hnop other Hother Hpass) in Hov. done.
      + intros Hid. rewrite (Hnoid other Hother Hid) in Hov. done. }
  exists None. split; [done|]. split; [|done].
  split; [|by intros [? ?]]. intros (doc & Hdoc & Hv)%has_valid_identification_true.
  destruct (Htypes doc Hdoc) as [Hty|[Hty|Hty]].
  - rewrite (Hnoid doc Hdoc Hty) in Hv. done.
  - rewrite (Hnobc doc Hdoc Hty) in Hv. done.
  - rewrite (Hnop doc Hdoc Hty) in Hv. done.
Qed.

Lemma school_unique_together : unique_together StudentScenario.school.
Proof.
  intros k1 k2 d1 d2 H1 H2. simpl in H1, H2.
  repeat (apply lookup_insert_Some in H1 as [[<- <-]|[_ H1]]);
    try (by rewrite lookup_empty in H1);
    repeat (apply lookup_insert_Some in H2 as [[<- <-]|[_ H2]]);
    try (by rewrite lookup_empty in H2); done.
Qed.

Lemma school_document_types_valid : document_types_valid StudentScenario.school.
Proof.
  intros k doc H. simpl in H.
  repeat (apply lookup_insert_Some in H as [[<- <-]|[_ H]]);
    try (by rewrite lookup_empty in H); simpl.
  - do 2 right. left.
  - left.
  - right. left.
Qed.

(** Ana's passport is not verified: her ID card is the primary document. *)
Lemma primary_document_is_the_best_verified_one_witness :
  unique_together StudentScenario.school
  ∧ document_types_valid StudentScenario.school
  ∧ Student.get_primary_document StudentScenario.school StudentScenario.S1
    = inr (Some (StudentScenario.D2, StudentScenario.id_card))
  ∧ ∃ primary,
      Student.get_primary_document StudentScenario.school StudentScenario.S2 = inr primary
      ∧ (Student.has_valid_identification StudentScenario.school StudentScenario.S2 = true
         ↔ is_Some primary).
Proof.
  split; [exact school_unique_together|]. split; [exact school_document_types_valid|].
  split; [by vm_compute|].
  destruct (primary_document_is_the_best_verified_one StudentScenario.school
              StudentScenario.S2 school_unique_together school_document_types_valid)
    as (primary & Hget & Hvalid & _).
  exists primary. by split.
Defined.

Section Verify.

Variables (today : date) (d : Student.db) (pk : uuid) (doc : StudentDocument.t)
          (notes : option (option string)).
Hypothesis Hdoc : Student.document_rows d !! pk = Some doc.

Lemma verify_resolved :
  StudentDocumentViewSet.verify today d pk notes
    = (Ok (mkResponse (Data (pk, verified_row today doc notes)) HTTP_200_OK),
       Student.mkdb (Student.rows d)
                    (<[pk := verified_row today doc notes]> (Student.document_rows d))).
Proof.
  unfold StudentDocumentViewSet.verify, StudentDocumentViewSet.get_object.
  by rewrite Hdoc.
Qed.

End Verify.

(** X21: [verify] on an existing document answers 200 and stores the
    document verified, dated today, with the notes given or the empty
    string, its student, type and expiry date unchanged and whether it has
    expired or not; no other row changes. Afterwards the student has valid
    identification and is not listed by [missing_documents], the document is
    not listed by [unverified], and the uniqueness constraint still
    holds. *)
Theorem verify_gives_valid_identification (today : date) (d : Student.db) (pk : uuid)
    (doc : StudentDocument.t) (notes : option (option string)) :
  Student.document_rows d !! pk = Some doc →
  ∃ verified d' missing unverified,
    StudentDocumentViewSet.verify today d pk notes
      = (Ok (mkResponse (Data (pk, verified)) HTTP_200_OK), d')
    ∧ StudentDocument.is_verified verified = true
    ∧ StudentDocument.verification_date verified = Some today
    ∧ StudentDocument.verification_notes verified = default (Some "") notes
    ∧ StudentDocument.student verified = StudentDocument.student doc
    ∧ StudentDocument.document_type verified = StudentDocument.document_type doc
    ∧ StudentDocument.expiry_date verified = StudentDocument.expiry_date doc
    ∧ Student.rows d' = Student.rows d
    ∧ Student.document_rows d' = <[pk := verified]> (Student.document_rows d)
    ∧ Student.has_valid_identification d' (StudentDocument.student doc) = true
    ∧ StudentViewSet.missing_documents d' = mkResponse (Data missing) HTTP_200_OK
    ∧ (∀ i, i ∈ missing → i.1 ≠ StudentDocument.student doc)
    ∧ StudentDocumentViewSet.unverified d' = mkResponse (Data unverified) HTTP_200_OK
    ∧ (∀ i, i ∈ unverified → i.1 ≠ pk)
    ∧ (unique_together d → unique_together d').
Proof.
  intros Hdoc. eexists _, _, _, _. split; [by apply verify_resolved|].
  repeat (split; [done|]).
  set (d' := Student.mkdb _ _).
  assert (Hvalid : Student.has_valid_identification d' (StudentDocument.student doc) = true).
  { apply has_valid_identification_true. exists (pk, verified_row today doc notes).
    split; [|done]. apply elem_of_documents_all. split; [|done]. simpl.
    apply lookup_insert_eq. }
  split; [exact Hvalid|]. split; [reflexivity|]. split; [|split; [reflexivity|split]].
  - intros [k s] [Hno _]%list_elem_of_filter Heq. simpl in Hno, Heq. subst k.
    unfold d' in Hvalid. rewrite Hvalid in Hno. done.
  - intros [k r] [Hno Hk%elem_of_map_to_list]%list_elem_of_filter Heq.
    simpl in Hno, Hk, Heq. subst k. rewrite lookup_insert_eq in Hk.
    injection Hk as <-. done.
  - intros Huniq k1 k2 d1 d2. unfold d'. simpl.
    rewrite !lookup_insert. case_decide as H1; case_decide as H2; subst.
    + done.
    + intros [= <-] H2' Hs Ht. simpl in *. by apply (Huniq _ _ _ _ Hdoc H2').
    + intros H1' [= <-] Hs Ht. simpl in *. by apply (Huniq _ _ _ _ H1' Hdoc).
    + apply Huniq.
Qed.

(** Rui's birth certificate, verified without notes. *)
Lemma verify_gives_valid_identification_witness :
  Student.document_rows StudentScenario.school !! StudentScenario.D3
    = Some StudentScenario.certificate
  ∧ Student.has_valid_identification StudentScenario.school StudentScenario.S2 = false
  ∧ ∃ verified d',
      StudentDocumentViewSet.verify (mkdate 2024 3 1) StudentScenario.school
        StudentScenario.D3 None
        = (Ok (mkResponse (Data (StudentScenario.D3, verified)) HTTP_200_OK), d')
      ∧ StudentDocument.verification_notes verified = Some ""
      ∧ Student.has_valid_identification d' StudentScenario.S2 = true.
Proof.
  split; [reflexivity|]. split; [by vm_compute|].
  destruct (verify_gives_valid_identification (mkdate 2024 3 1) StudentScenario.school
              StudentScenario.D3 StudentScenario.certificate None eq_refl)
    as (verified & d' & missing & unverified & Hverify & _ & _ & Hnotes & _ & _ & _ & _
        & _ & Hvalid & _).
  exists verified, d'. split; [exact Hverify|]. split; [exact Hnotes|exact Hvalid].
Defined.

(** X22: [missing_documents] answers 200 with exactly the students none of
    whose documents is verified, the students without documents among
    them. *)
Theorem missing_documents_lists_the_unidentified (d : Student.db) :
  ∃ listed,
    StudentViewSet.missing_documents d = mkResponse (Data listed) HTTP_200_OK
    ∧ ∀ i, i ∈ listed ↔
        Student.rows d !! i.1 = Some i.2
        ∧ ∀ k doc, Student.document_rows d !! k = Some doc →
                   StudentDocument.student doc = i.1 →
                   StudentDocument.is_verified doc = false.
Proof.
  eexists. split; [reflexivity|]. intros [k s].
  rewrite list_elem_of_filter, has_valid_identification_false.
  unfold Student.objects_all. rewrite elem_of_map_to_list. simpl. split.
  - intros [Hno Hk]. split; [done|]. intros k' doc Hdoc Hs.
    apply (Hno (k', doc)). by apply elem_of_documents_all.
  - intros [Hk Hno]. split; [|done]. intros [k' doc] [Hdoc Hs]%elem_of_documents_all.
    by apply (Hno k' doc).
Qed.

(** X23: [days_until_expiry] reads the clock twice, in [is_expired] and in
    the subtraction. For calendar dates and a clock that does not go back,
    it is [None] exactly when the document has no expiry date; otherwise it
    is 0 when the document was expired at the first reading, and the number
    of days from the second reading to the expiry date when it was not. The
    result lies between minus the days that passed between the two readings
    and the days from the first reading to the expiry date; with both
    readings on the same day it is that number of days, or 0 when the expiry
    date has passed; it is negative exactly when the expiry date is on or
    after the day of the first reading and before the day of the second. *)
Theorem days_until_expiry_reads_the_clock_twice (today today' : date)
    (doc : StudentDocument.t) :
  valid_date today → valid_date today' → le today today' = true →
  (∀ e, StudentDocument.expiry_date doc = Some e → valid_date e) →
  (StudentDocument.days_until_expiry today today' doc = None
   ↔ StudentDocument.expiry_date doc = None)
  ∧ ∀ e, StudentDocument.expiry_date doc = Some e →
      (StudentDocument.is_expired today doc = true ↔ toordinal e < toordinal today)
      ∧ (toordinal e < toordinal today →
           StudentDocument.days_until_expiry today today' doc = Some 0)
      ∧ (toordinal today ≤ toordinal e →
           StudentDocument.days_until_expiry today today' doc
             = Some (toordinal e - toordinal today'))
      ∧ (∃ n, StudentDocument.days_until_expiry today today' doc = Some n
              ∧ toordinal today - toordinal today' ≤ n
                  ≤ Z.max 0 (toordinal e - toordinal today))
      ∧ (today' = today →
           StudentDocument.days_until_expiry today today' doc
             = Some (Z.max 0 (toordinal e - toordinal today)))
      ∧ ((∃ n, StudentDocument.days_until_expiry today today' doc = Some n ∧ n < 0)
         ↔ toordinal today ≤ toordinal e < toordinal today').
Proof.
  intros Htoday Htoday' Hclock Hvalid.
  unfold StudentDocument.days_until_expiry, StudentDocument.is_expired.
  destruct (StudentDocument.expiry_date doc) as [e|]; [|by split].
  split; [split; [by destruct (gt today e)|done]|].
  intros ? [= <-]. pose proof (Hvalid e eq_refl) as He.
  pose proof (gt_toordinal today e Htoday He) as Hgt.
  apply (le_toordinal today today' Htoday Htoday') in Hclock.
  unfold sub_days. destruct (gt today e) eqn:Hg.
  - assert (toordinal e < toordinal today) by (by apply Hgt).
    split; [done|]. split; [done|]. split; [lia|]. split; [exists 0; split; [done|lia]|].
    split; [intros _; f_equal; lia|]. split; [intros (n & [= <-] & ?)|]; lia.
  - assert (¬ toordinal e < toordinal today) as Hnlt by (rewrite <- Hgt; done).
    split; [split; [done|by intros ?%Hgt]|]. split; [lia|]. split; [done|].
    split; [eexists; split; [done|lia]|].
    split; [intros ->; f_equal; lia|].
    split; [intros (n & [= <-] & ?); lia|]. intros ?. eexists. split; [done|lia].
Qed.

(** The passport of the scenario expires on 2023-12-31: read on that day
    just before midnight and again just after, the days until expiry
    are -1. *)
Lemma days_until_expiry_reads_the_clock_twice_witness :
  valid_date (mkdate 2023 12 31) ∧ valid_date (mkdate 2024 1 1)
  ∧ le (mkdate 2023 12 31) (mkdate 2024 1 1) = true
  ∧ StudentDocument.is_expired (mkdate 2023 12 31) StudentScenario.passport = false
  ∧ StudentDocument.days_until_expiry (mkdate 2023 12 31) (mkdate 2024 1 1)
      StudentScenario.passport = Some (-1)
  ∧ (∃ n, StudentDocument.days_until_expiry (mkdate 2023 12 31) (mkdate 2024 1 1)
            StudentScenario.passport = Some n ∧ n < 0).
Proof.
  assert (Htoday : valid_date (mkdate 2023 12 31)) by (repeat split; by vm_compute).
  assert (Htoday' : valid_date (mkdate 2024 1 1)) by (repeat split; by vm_compute).
  assert (Hexp : ∀ e, StudentDocument.expiry_date StudentScenario.passport = Some e →
                      valid_date e).
  { intros e [= <-]. repeat split; by vm_compute. }
  split; [exact Htoday|]. split; [exact Htoday'|]. split; [reflexivity|].
  split; [reflexivity|].
  destruct (proj2 (days_until_expiry_reads_the_clock_twice (mkdate 2023 12 31)
                     (mkdate 2024 1 1) StudentScenario.passport Htoday Htoday' eq_refl Hexp)
              (mkdate 2023 12 31) eq_refl)
    as (_ & _ & Hdays & _ & _ & Hneg).
  split; [exact (Hdays ltac:(vm_compute; discriminate))|].
  apply Hneg. split; vm_compute; [discriminate|reflexivity].
Defined.

(** ** Uploads, photos and names *)

Section Strings.

Lemma append_cons c (a b : string) : String c a +:+ b = String c (a +:+ b).
Proof. reflexivity. Qed.

Lemma append_empty (b : string) : "" +:+ b = b.
Proof. reflexivity. Qed.

Lemma prefix_empty (b : string) : String.prefix "" b = true.
Proof. by destruct b. Qed.

Lemma prefix_cons a (s1 : string) b (s2 : string) :
  String.prefix (String a s1) (String b s2)
    = if ascii_dec a b then String.prefix s1 s2 else false.
Proof. reflexivity. Qed.

Lemma prefix_app (a b : string) : String.prefix a (a +:+ b) = true.
Proof.
  induction a as [|c a IH]; [rewrite append_empty; by destruct b|].
  rewrite append_cons. simpl. destruct (ascii_dec c c); [done|congruence].
Qed.

Lemma prefix_refl (a : string) : String.prefix a a = true.
Proof.
  induction a as [|c a IH]; simpl; [done|]. destruct (ascii_dec c c); [done|congruence].
Qed.

Lemma append_assoc (a b c : string) : (a +:+ b) +:+ c = a +:+ b +:+ c.
Proof.
  induction a as [|x a IH]; [done|]. rewrite !append_cons. f_equal. exact IH.
Qed.

Lemma occurs_app c (a b : string) :
  Utils.occurs c (a +:+ b) = Utils.occurs c a || Utils.occurs c b.
Proof.
  induction a as [|x a IH]; [done|]. rewrite append_cons. simpl.
  rewrite <- orb_assoc. f_equal. exact IH.
Qed.

Lemma after_last_no_sep sep s : Utils.occurs sep (Utils.after_last sep s) = false.
Proof.
  induction s as [|c s IH]; simpl; [done|].
  destruct (Utils.occurs sep s) eqn:Hs; [done|].
  destruct (Ascii.eqb c sep) eqn:Hc; [done|]. simpl. by rewrite Hc, Hs.
Qed.

Lemma after_last_none sep s : Utils.occurs sep s = false → Utils.after_last sep s = s.
Proof.
  destruct s as [|c s]; simpl; [done|].
  intros [Hc Hs]%orb_false_iff. by rewrite Hs, Hc.
Qed.

Lemma after_last_app sep (a b : string) :
  Utils.occurs sep b = false →
  Utils.after_last sep (a +:+ String sep b) = b.
Proof.
  intros Hb. induction a as [|c a IH].
  - rewrite append_empty. simpl. by rewrite Hb, Ascii.eqb_refl.
  - rewrite append_cons. simpl. rewrite occurs_app. simpl.
    by rewrite Ascii.eqb_refl, orb_true_r.
Qed.

(** The text is the part before the last separator, if any, and the part
    after it. *)
Lemma after_last_split sep s :
  Utils.occurs sep s = true →
  ∃ before, s = before +:+ String sep (Utils.after_last sep s).
Proof.
  induction s as [|c s IH]; simpl; [done|].
  destruct (Utils.occurs sep s) eqn:Hs.
  - intros _. destruct (IH eq_refl) as [before Hb]. exists (String c before).
    rewrite append_cons. by rewrite <- Hb.
  - rewrite orb_false_r. intros Hc. rewrite Hc. apply Ascii.eqb_eq in Hc as ->.
    by exists "".
Qed.

Lemma path_join_relative dir (b : string) :
  Utils.ends_with_slash dir = true → String.prefix "/" b = false →
  Utils.path_join dir b = dir +:+ b.
Proof.
  intros Hdir Hb. unfold Utils.path_join. by rewrite Hb, Hdir, orb_true_r.
Qed.

Lemma prefix_slash_app (u v : string) :
  String.prefix "/" u = false → String.prefix "/" (u +:+ "." +:+ v) = false.
Proof.
  destruct u as [|c u]; [done|]. rewrite append_cons, !prefix_cons.
  destruct (ascii_dec "/" c); [|done]. by rewrite !prefix_empty.
Qed.

End Strings.

(** X27: for a UUID text that does not start with a slash, each of the six
    path functions returns its directory followed by the UUID, a dot and the
    extension, the extension being the text after the last dot of the file
    name (the whole name when it has no dot) and holding no dot itself; when
    neither the UUID nor the extension holds a slash, [get_filename] of the
    path is the UUID, the dot and the extension. *)
Theorem upload_paths_keep_the_extension (uuid4 filename : string) :
  String.prefix "/" uuid4 = false →
  let ext := Utils.after_last "." filename in
  Utils.occurs "." ext = false
  ∧ (Utils.occurs "." filename = false → ext = filename)
  ∧ (Utils.occurs "." filename = true → ∃ stem, filename = stem +:+ "." +:+ ext)
  ∧ Forall (λ entry : string * (string → string → string),
              entry.2 uuid4 filename = entry.1 +:+ uuid4 +:+ "." +:+ ext
              ∧ (Utils.occurs "/" uuid4 = false → Utils.occurs "/" ext = false →
                 Utils.get_filename (entry.2 uuid4 filename) = uuid4 +:+ "." +:+ ext))
           Utils.upload_paths.
Proof.
  intros Hrel ext.
  split; [apply after_last_no_sep|]. split; [apply after_last_none|].
  split; [apply after_last_split|].
  pose proof (prefix_slash_app uuid4 ext Hrel) as Hrel'.
  assert (Hbase : ∀ dir : string,
            Utils.occurs "/" uuid4 = false → Utils.occurs "/" ext = false →
            Utils.get_filename ((dir +:+ "/") +:+ uuid4 +:+ "." +:+ ext)
              = uuid4 +:+ "." +:+ ext).
  { intros dir Hu He. unfold Utils.get_filename. rewrite append_assoc.
    rewrite append_cons, append_empty.
    apply after_last_app. rewrite occurs_app, append_cons, append_empty. simpl.
    by rewrite Hu, He. }
  unfold Utils.upload_paths.
  repeat apply Forall_cons_2; try apply Forall_nil_2; cbn [fst snd];
    unfold Utils.get_teacher_photo_path, Utils.get_student_photo_path,
      Utils.get_employee_photo_path, Utils.get_person_photo_path,
      Utils.get_document_path, Utils.get_student_document_path; cbn zeta; fold ext;
    rewrite path_join_relative by (reflexivity || exact Hrel'); (split; [reflexivity|]).
  - apply (Hbase "teacher_photos").
  - apply (Hbase "student_photos").
  - apply (Hbase "employee_photos").
  - apply (Hbase "person_photos").
  - apply (Hbase "documents").
  - apply (Hbase "student_documents").
Qed.

(** A name with two dots, and a name with none. *)
Lemma upload_paths_keep_the_extension_witness :
  String.prefix "/" "6f1c2a9e-0b7d-4c35-9a51-2f8e4d3b7c10" = false
  ∧ Utils.get_student_photo_path () "6f1c2a9e-0b7d-4c35-9a51-2f8e4d3b7c10" "class.photo.JPG"
    = "student_photos/6f1c2a9e-0b7d-4c35-9a51-2f8e4d3b7c10.JPG"
  ∧ Utils.get_student_document_path () "6f1c2a9e-0b7d-4c35-9a51-2f8e4d3b7c10" "passport"
    = "student_documents/6f1c2a9e-0b7d-4c35-9a51-2f8e4d3b7c10.passport".
Proof.
  split; [reflexivity|].
  pose proof (upload_paths_keep_the_extension "6f1c2a9e-0b7d-4c35-9a51-2f8e4d3b7c10"
                "class.photo.JPG" eq_refl) as (_ & _ & _ & Hall).
  pose proof (upload_paths_keep_the_extension "6f1c2a9e-0b7d-4c35-9a51-2f8e4d3b7c10"
                "passport" eq_refl) as (_ & _ & _ & Hall').
  split.
  - exact (proj1 (Forall_inv (Forall_inv_tail Hall))).
  - exact (proj1 (Forall_inv (Forall_inv_tail (Forall_inv_tail (Forall_inv_tail
                   (Forall_inv_tail (Forall_inv_tail Hall'))))))).
Defined.

(** X24: for a named file, the photo validator of [StudentPhotoSerializer]
    accepts it exactly when its size is at most 5 MB (5242880 bytes) and its
    content type starts with "image"; the validator of
    [StudentCreateUpdateSerializer] accepts and rejects the same files with
    the same errors, but what it returns is always [None], never the
    file. *)
Theorem photo_validators_agree_but_one_returns_none (file : UploadedFile) :
  file_name file ≠ "" →
  (StudentPhotoSerializer.validate_student_photo file = Ok file
   ↔ file_size file ≤ 5242880 ∧ String.prefix "image" (content_type file) = true)
  ∧ (StudentPhotoSerializer.validate_student_photo file = Ok file
     ↔ StudentCreateUpdateSerializer.validate_student_photo (Some file) = Ok None)
  ∧ (∀ e, StudentPhotoSerializer.validate_student_photo file = Raise e
          ↔ StudentCreateUpdateSerializer.validate_student_photo (Some file) = Raise e)
  ∧ (∀ value returned,
       StudentCreateUpdateSerializer.validate_student_photo value = Ok returned →
       returned = None).
Proof.
  intros Hname.
  unfold StudentPhotoSerializer.validate_student_photo,
    StudentCreateUpdateSerializer.validate_student_photo.
  rewrite bool_decide_eq_false_2 by done.
  split; [|split; [|split]].
  - destruct (Z.ltb_spec (5 * 1024 * 1024) (file_size file)).
    + split; [done|]. intros [? _]. lia.
    + destruct (String.prefix "image" (content_type file)); simpl.
      * split; [|done]. intros _. split; [lia|done].
      * split; [done|]. by intros [_ ?].
  - destruct (5 * 1024 * 1024 <? file_size file); [done|].
    by destruct (String.prefix "image" (content_type file)).
  - intros e. destruct (5 * 1024 * 1024 <? file_size file);
      [split; by intros [= <-]|].
    destruct (String.prefix "image" (content_type file)); simpl;
      [done|split; by intros [= <-]].
  - intros [f|] returned; [|by intros [= <-]].
    case_bool_decide; [by intros [= <-]|].
    destruct (5 * 1024 * 1024 <? file_size f); [done|].
    destruct (String.prefix "image" (content_type f)); simpl; [|done]. by intros [= <-].
Qed.

(** A 200 kB PNG. *)
Lemma photo_validators_agree_but_one_returns_none_witness :
  file_name StudentScenario.photo ≠ ""
  ∧ StudentPhotoSerializer.validate_student_photo StudentScenario.photo
    = Ok StudentScenario.photo
  ∧ StudentCreateUpdateSerializer.validate_student_photo (Some StudentScenario.photo)
    = Ok None.
Proof.
  assert (Hname : file_name StudentScenario.photo ≠ "") by done.
  pose proof (photo_validators_agree_but_one_returns_none StudentScenario.photo Hname)
    as (Hok & Hsame & _).
  assert (Hphoto : StudentPhotoSerializer.validate_student_photo StudentScenario.photo
                   = Ok StudentScenario.photo).
  { apply Hok. split; [by vm_compute|reflexivity]. }
  split; [exact Hname|]. split; [exact Hphoto|]. by apply Hsame.
Defined.

(** X25: [get_full_name] always starts with the first name; for a student
    with a middle name and an empty last name it is the first name alone,
    the middle name left out; without a middle name it is the first name, a
    space and the last name. *)
Theorem full_name_starts_with_the_first_name (s : Student.t) :
  String.prefix (Student.first_name s) (Student.get_full_name s) = true
  ∧ (truthy (Student.middle_name s) = true → Student.last_name s = "" →
     Student.get_full_name s = Student.first_name s)
  ∧ (truthy (Student.middle_name s) = false →
     Student.get_full_name s = Student.first_name s +:+ " " +:+ Student.last_name s).
Proof.
  unfold Student.get_full_name. split; [|split].
  - destruct (truthy (Student.middle_name s)), (truthy (Some (Student.last_name s)));
      simpl; auto using prefix_app, prefix_refl.
  - intros -> ->. done.
  - intros ->. done.
Qed.

(** ** Students: the document numbers *)

Section DictComprehension.

Context {A : Type} (key val : A → string).

Lemma foldl_insert_lookup_other (acc : gmap string string) (l : list A) k :
  k ∉ key <$> l →
  foldl (λ acc x, <[key x := val x]> acc) acc l !! k = acc !! k.
Proof.
  revert acc. induction l as [|x l IH]; intros acc Hk; [done|].
  simpl. rewrite IH.
  - rewrite lookup_insert_ne; [done|]. intros Heq. apply Hk. rewrite <- Heq. left.
  - intros ?. apply Hk. by right.
Qed.

Lemma foldl_insert_lookup_member (acc : gmap string string) (l : list A) x :
  NoDup (key <$> l) → x ∈ l →
  foldl (λ acc x, <[key x := val x]> acc) acc l !! key x = Some (val x).
Proof.
  revert acc. induction l as [|y l IH]; intros acc Hnd Hx; [by apply elem_of_nil in Hx|].
  simpl in *. apply NoDup_cons in Hnd as [Hy Hnd].
  apply elem_of_cons in Hx as [->|Hx].
  - rewrite foldl_insert_lookup_other by done. apply lookup_insert_eq.
  - by apply IH.
Qed.

Lemma foldl_insert_lookup_Some (acc : gmap string string) (l : list A) k v :
  foldl (λ acc x, <[key x := val x]> acc) acc l !! k = Some v →
  (∃ x, x ∈ l ∧ key x = k ∧ val x = v) ∨ acc !! k = Some v.
Proof.
  revert acc. induction l as [|y l IH]; intros acc; [by right|].
  simpl. intros [(x & Hx & ? & ?)|Hacc]%IH.
  - left. exists x. split; [by right|done].
  - apply lookup_insert_Some in Hacc as [[<- <-]|[_ ?]]; [|by right].
    left. exists y. split; [by left|done].
Qed.

End DictComprehension.

Lemma display_injective (a b : StudentDocument.t) :
  StudentDocument.document_type a ∈ DocumentType.choices.*1 →
  StudentDocument.document_type b ∈ DocumentType.choices.*1 →
  StudentDocument.get_document_type_display a = StudentDocument.get_document_type_display b →
  StudentDocument.document_type a = StudentDocument.document_type b.
Proof.
  unfold StudentDocument.get_document_type_display. simpl.
  rewrite !elem_of_cons.
  intros [->|[->|[->|[]%elem_of_nil]]] [->|[->|[->|[]%elem_of_nil]]]; by vm_compute.
Qed.

(** X26: when no student has two documents of one type and every type is
    one of the choices, [get_document_numbers] holds, under the label of
    each document's type, that document's number, and holds nothing
    else. *)
Theorem document_numbers_are_keyed_by_label (d : Student.db) (s : uuid) :
  unique_together d → document_types_valid d →
  (∀ doc, doc ∈ Student.documents_all d s →
     Student.get_document_numbers d s !! StudentDocument.get_document_type_display doc.2
       = Some (StudentDocument.document_number doc.2))
  ∧ (∀ label number,
       Student.get_document_numbers d s !! label = Some number →
       ∃ doc, doc ∈ Student.documents_all d s
              ∧ StudentDocument.get_document_type_display doc.2 = label
              ∧ StudentDocument.document_number doc.2 = number).
Proof.
  intros Huniq Hvalid. unfold Student.get_document_numbers. split.
  - intros doc Hdoc.
    apply (foldl_insert_lookup_member
             (λ doc : StudentDocument.instance,
                StudentDocument.get_document_type_display doc.2)
             (λ doc : StudentDocument.instance, StudentDocument.document_number doc.2));
      [|done].
    apply NoDup_fmap_2_strong.
    + intros [ka ra] [kb rb] Ha Hb Hlabel.
      pose proof Ha as [Ra Sa]%elem_of_documents_all.
      pose proof Hb as [Rb Sb]%elem_of_documents_all. simpl in *.
      assert (StudentDocument.document_type ra = StudentDocument.document_type rb) as Hty.
      { apply display_injective; [by apply (Hvalid ka)|by apply (Hvalid kb)|done]. }
      assert (ka = kb) as -> by (apply (Huniq _ _ _ _ Ra Rb); congruence).
      congruence.
    + apply NoDup_filter, NoDup_map_to_list.
  - intros label number Hlookup.
    apply (foldl_insert_lookup_Some
             (λ doc : StudentDocument.instance,
                StudentDocument.get_document_type_display doc.2)
             (λ doc : StudentDocument.instance, StudentDocument.document_number doc.2))
      in Hlookup as [?|Hempty]; [done|].
    by rewrite lookup_empty in Hempty.
Qed.

(** Ana's passport and ID card. *)
Lemma document_numbers_are_keyed_by_label_witness :
  unique_together StudentScenario.school
  ∧ document_types_valid StudentScenario.school
  ∧ Student.get_document_numbers StudentScenario.school StudentScenario.S1 !! "Passport"
    = Some "P-100"
  ∧ Student.get_document_numbers StudentScenario.school StudentScenario.S1 !! "ID Card"
    = Some "ID-200".
Proof.
  split; [exact school_unique_together|]. split; [exact school_document_types_valid|].
  pose proof (proj1 (document_numbers_are_keyed_by_label StudentScenario.school
                       StudentScenario.S1 school_unique_together
                       school_document_types_valid)) as Hnumbers.
  split.
  - apply (Hnumbers (StudentScenario.D1, StudentScenario.passport)).
    apply elem_of_documents_all. by split.
  - apply (Hnumbers (StudentScenario.D2, StudentScenario.id_card)).
    apply elem_of_documents_all. by split.
Defined.
